(** * A model of the idea aggregator's pipeline core

    The development embeds, function by function, the pipeline of the
    aggregator: the normalizer and the scraper runner of [scrapers/main.py],
    the Reddit scraper of [scrapers/reddit.py], the deduplicator, analyzer
    and relevance filter of [analysis/process.py], the storage manager of
    [database/store.py] and the notifier of [analysis/notify.py].

    Python values are modelled as they reach the code: an idea is a [dict]
    loaded from JSON, so a field may be missing or hold any JSON value, and
    an operation applied to a value of the wrong type raises.  Exceptions are
    explicit: fallible code lives in the [result] monad and [try]/[except]
    is [try_except].  Numbers follow Python: integers are unbounded ([Z]),
    floats are IEEE binary64 (the kernel's primitive floats).  A string is
    held as its UTF-8 encoding, one [ascii] per byte, and what Python does
    character by character (a slice, an iteration) goes by the encoded
    characters, not by the bytes.

    Libraries outside the repository (fuzzywuzzy, json, hashlib, requests,
    sqlite3, the Supabase client, PRAW, python-telegram-bot) are interfaces:
    type classes whose fields are the calls the code makes. *)

From Stdlib Require Import ZArith Floats String Ascii List Bool Lia.
From stdpp Require Import gmap strings list.

Set Warnings "-inexact-float,-register-all".

(** ** Python values, exceptions and the few built-ins the code relies on *)

Module Py.

(** The exceptions the modelled code can meet; all derive from [Exception].
    [LibraryError] stands for the exceptions of an external library
    (requests, sqlite3, the Supabase client), named by the string. *)
Inductive exn :=
  | TypeError
  | AttributeError
  | KeyError
  | ValueError
  | OverflowError
  | JSONDecodeError
  | LibraryError (name : string).

Inductive result (A : Type) :=
  | Ok (a : A)
  | Raise (e : exn).
Arguments Ok {A} a.
Arguments Raise {A} e.

#[global] Instance result_ret : MRet result := @Ok.
#[global] Instance result_bind : MBind result :=
  λ A B f m, match m with Ok a => f a | Raise e => Raise e end.
#[global] Instance result_fmap : FMap result :=
  λ A B f m, match m with Ok a => Ok (f a) | Raise e => Raise e end.

(** [try: body except Exception as e: handler e]. *)
Definition try_except {A} (body : result A) (handler : exn → result A) : result A :=
  match body with
  | Ok a => Ok a
  | Raise e => handler e
  end.

(** Code that mutates an object and may raise: the object is threaded
    through as a state, and an exception leaves it as the code left it. *)
Definition Mut (S A : Type) : Type := S → result A * S.

#[global] Instance mut_ret {S} : MRet (Mut S) := λ A a s, (Ok a, s).
#[global] Instance mut_bind {S} : MBind (Mut S) :=
  λ A B f m s, match m s with
               | (Ok a, s') => f a s'
               | (Raise e, s') => (Raise e, s')
               end.

Definition mut_lift {S A} (r : result A) : Mut S A := λ s, (r, s).
Definition mut_get {S} : Mut S S := λ s, (Ok s, s).
Definition mut_modify {S} (f : S → S) : Mut S () := λ s, (Ok (), f s).
Definition mut_try {S A} (body : Mut S A) (handler : exn → Mut S A) : Mut S A :=
  λ s, match body s with
       | (Ok a, s') => (Ok a, s')
       | (Raise e, s') => handler e s'
       end.

Definition is_ok {A} (r : result A) : bool :=
  match r with Ok _ => true | Raise _ => false end.

(** A value as [json.load] builds it. *)
Inductive value :=
  | VNone
  | VBool (b : bool)
  | VInt (z : Z)
  | VFloat (f : float)
  | VStr (s : string)
  | VList (l : list value)
  | VDict (d : gmap string value).

(** [d.get(key, default)] and [d.get(key)]. *)
Definition dict_get (d : gmap string value) (key : string) (default : value) : value :=
  match d !! key with
  | Some v => v
  | None => default
  end.

(** [v.get(key, default)] on an arbitrary value: only a dict has [get]. *)
Definition attr_get (v : value) (key : string) (default : value) : result value :=
  match v with
  | VDict d => Ok (dict_get d key default)
  | _ => Raise AttributeError
  end.

(** [d[key]]. *)
Definition dict_item (d : gmap string value) (key : string) : result value :=
  match d !! key with
  | Some v => Ok v
  | None => Raise KeyError
  end.

(** [bool(v)]: the truth value Python gives [v] in a condition. *)
Definition truthy (v : value) : bool :=
  match v with
  | VNone => false
  | VBool b => b
  | VInt z => negb (z =? 0)%Z
  | VFloat f => negb (PrimFloat.eqb f 0%float)
  | VStr s => negb (bool_decide (s = ""))
  | VList l => match l with [] => false | _ => true end
  | VDict d => negb (bool_decide (d = ∅))
  end.

(** Lists and dicts cannot be dict keys: hashing them raises [TypeError]. *)
Definition hashable (v : value) : bool :=
  match v with
  | VList _ | VDict _ => false
  | _ => true
  end.

(** [float(z)]: nearest binary64, [OverflowError] beyond the finite range. *)
Definition float_of_Z (z : Z) : float :=
  SF2Prim (binary_normalize prec emax z 0 false).

Definition float_of_int (z : Z) : result float :=
  let f := float_of_Z z in
  if PrimFloat.is_infinity f then Raise OverflowError else Ok f.

(** Python compares a float with an int by their exact values.  [None] when
    the float is a NaN (every comparison with it is false). *)
Definition float_cmp_int (f : float) (z : Z) : option comparison :=
  match Prim2SF f with
  | S754_zero _ => Some (0 ?= z)%Z
  | S754_infinity neg => Some (if neg then Lt else Gt)
  | S754_nan => None
  | S754_finite neg m e =>
      let sm := if neg then Z.neg m else Z.pos m in
      if (0 <=? e)%Z then Some (sm * 2 ^ e ?= z)%Z
      else Some (sm ?= z * 2 ^ (- e))%Z
  end.

Definition float_eq_int (f : float) (z : Z) : bool :=
  match float_cmp_int f z with
  | Some Eq => true
  | _ => false
  end.

(** [v >= t] for an int [t]: numbers compare (a bool is the int 0 or 1),
    anything else raises [TypeError]. *)
Definition ge_int (v : value) (t : Z) : result bool :=
  match v with
  | VInt z => Ok (t <=? z)%Z
  | VBool b => Ok (t <=? Z.b2z b)%Z
  | VFloat f =>
      Ok match float_cmp_int f t with
         | Some Eq | Some Gt => true
         | _ => false
         end
  | _ => Raise TypeError
  end.

(** Equality of two hashable values used as dict keys: numbers are equal
    across [bool], [int] and [float] when their values are.  A NaN equals
    no number, but [json] decodes every NaN to one and the same object, and
    a dict finds a key that is the very object it is asked for. *)
Definition key_eq (a b : value) : bool :=
  match a, b with
  | VNone, VNone => true
  | VStr s, VStr t => bool_decide (s = t)
  | VBool x, VBool y => Bool.eqb x y
  | VBool x, VInt z | VInt z, VBool x => (Z.b2z x =? z)%Z
  | VInt x, VInt y => (x =? y)%Z
  | VFloat f, VInt z | VInt z, VFloat f => float_eq_int f z
  | VFloat f, VBool x | VBool x, VFloat f => float_eq_int f (Z.b2z x)
  | VFloat f, VFloat g =>
      PrimFloat.eqb f g || (PrimFloat.is_nan f && PrimFloat.is_nan g)
  | _, _ => false
  end.

(** A byte that continues an encoded character ([10xxxxxx]). *)
Definition continuation (a : ascii) : bool :=
  match a with
  | Ascii _ _ _ _ _ _ b6 b7 => b7 && negb b6
  end.

(** The characters of a string, each with the bytes that encode it: a byte
    and the continuation bytes that follow it. *)
Fixpoint str_chars (s : string) : list string :=
  match s with
  | EmptyString => []
  | String a rest =>
      let joined := match rest with
                    | String b _ => continuation b
                    | EmptyString => false
                    end in
      match str_chars rest with
      | c :: cs => if joined then String a c :: cs else String a "" :: c :: cs
      | [] => [String a ""]
      end
  end.

(** [s[:n]]: the first [n] characters. *)
Definition str_take (n : nat) (s : string) : string :=
  String.concat "" (take n (str_chars s)).

(** [v[:n]]: strings and lists can be sliced, nothing else. *)
Definition slice_to (n : nat) (v : value) : result value :=
  match v with
  | VStr s => Ok (VStr (str_take n s))
  | VList l => Ok (VList (take n l))
  | _ => Raise TypeError
  end.

(** [s.find(c)] and [s.rfind(c)] for a one-character [c]: the index of the
    first (last) occurrence, [-1] when there is none.  Positions are counted
    in bytes: the code compares them with 0 and with each other and cuts
    the text between them, and a brace is a byte of no other character, so
    that the outcome is the one Python reaches counting characters. *)
Fixpoint find_char (c : ascii) (s : string) : Z :=
  match s with
  | EmptyString => -1
  | String a rest =>
      if Ascii.eqb a c then 0
      else let i := find_char c rest in
           if (i <? 0)%Z then -1 else (i + 1)%Z
  end.

Fixpoint rfind_char (c : ascii) (s : string) : Z :=
  match s with
  | EmptyString => -1
  | String a rest =>
      let i := rfind_char c rest in
      if (0 <=? i)%Z then (i + 1)%Z
      else if Ascii.eqb a c then 0 else -1
  end.

(** A method of [str] called on a value: only a string has it. *)
Definition as_str (v : value) : result string :=
  match v with
  | VStr s => Ok s
  | _ => Raise AttributeError
  end.

(** [s[i:j]] for [0 <= i <= j]. *)
Definition str_slice (s : string) (i j : Z) : string :=
  substring (Z.to_nat i) (Z.to_nat (j - i)) s.

(** The standard [json] module and the formatting of a value inside an
    f-string.  [json_loads] raises [JSONDecodeError] on malformed text. *)
Class Json := {
  json_loads : string → result value;
  json_dumps : value → string;
}.

Class Format := {
  (** [str(v)] of a value that is not a string *)
  format_other : value → string;
}.

(** [f"{v}"]. *)
Definition format_value `{Format} (v : value) : string :=
  match v with
  | VStr s => s
  | _ => format_other v
  end.

(** [s.replace(old, new)]: every occurrence of [old], found from the left
    and without overlap, gives way to [new]; an empty [old] is found before
    every character and at the end. *)
Fixpoint replace_from (skip : nat) (old new s : string) : string :=
  match s with
  | EmptyString => EmptyString
  | String a rest =>
      match skip with
      | S k => replace_from k old new rest
      | O =>
          if String.prefix old s
          then new +:+ replace_from (String.length old - 1) old new rest
          else String a (replace_from 0 old new rest)
      end
  end.

Definition insert_after_each (new s : string) : string :=
  String.concat "" ((λ c, c +:+ new) <$> str_chars s).

Definition str_replace (old new s : string) : string :=
  match old with
  | EmptyString => new +:+ insert_after_each new s
  | _ => replace_from 0 old new s
  end.

(** [sep.join(parts)]. *)
Fixpoint str_join (sep : string) (parts : list string) : string :=
  match parts with
  | [] => ""
  | [part] => part
  | part :: rest => part +:+ sep +:+ str_join sep rest
  end.

(** [l[:limit]] for an int [limit]: a negative one counts from the end. *)
Definition slice_upto {A} (limit : Z) (l : list A) : list A :=
  if (0 <=? limit)%Z then take (Z.to_nat limit) l
  else take (Z.to_nat (Z.of_nat (length l) + limit)) l.

(** What [for x in v] yields: the elements of a list, the characters of a
    string, the keys of a dict; anything else cannot be iterated.  A dict
    yields its keys in the order they were inserted, which the map does not
    record: the order is the interpreter's. *)
Class Iteration := {
  dict_keys : gmap string value → list string;
}.

Definition characters (s : string) : list value := VStr <$> str_chars s.

Definition iterate `{Iteration} (v : value) : result (list value) :=
  match v with
  | VList l => Ok l
  | VStr s => Ok (characters s)
  | VDict d => Ok (VStr <$> dict_keys d)
  | _ => Raise TypeError
  end.

(** [a >= b].  Two numbers compare by value (a bool is 0 or 1), two strings
    character by character; two lists compare element by element, which is
    left to the interpreter; every other pair raises [TypeError]. *)
Class Compare := {
  ge_lists : list value → list value → result bool;
}.

Definition as_int (v : value) : option Z :=
  match v with
  | VInt z => Some z
  | VBool b => Some (Z.b2z b)
  | _ => None
  end.

Definition ge_value `{Compare} (a b : value) : result bool :=
  match a, b with
  | VFloat f, VFloat g => Ok (g <=? f)%float
  | VFloat f, (VInt _ | VBool _) =>
      Ok match float_cmp_int f (default 0%Z (as_int b)) with
         | Some Eq | Some Gt => true
         | _ => false
         end
  | (VInt _ | VBool _), VFloat g =>
      Ok match float_cmp_int g (default 0%Z (as_int a)) with
         | Some Eq | Some Lt => true
         | _ => false
         end
  | (VInt _ | VBool _), (VInt _ | VBool _) =>
      Ok (default 0%Z (as_int b) <=? default 0%Z (as_int a))%Z
  | VStr s, VStr t => Ok (String.leb t s)
  | VList l, VList m => ge_lists l m
  | _, _ => Raise TypeError
  end.

End Py.

(** ** The processor of [analysis/process.py] *)

Module Process.
Import Py.

(** An idea is a dict with string keys. *)
Abbreviation Idea := (gmap string value).

(** fuzzywuzzy's [fuzz.ratio], called on whatever the two ideas hold. *)
Class Fuzz := {
  fuzz_ratio : value → value → result Z;
}.

(** The generation backend and the clock.  The [n]-th analysis of a run
    posts its request and reads the time; what comes back is the world's
    business. *)
Record generate_request := {
  req_model : string;
  req_prompt : string;
  req_temperature : float;
  req_max_tokens : Z;
  req_stream : bool;
}.

Record http_response := {
  status_code : Z;
  text : string;
  (** [response.json()]: the decoded body, or the exception it raises *)
  json : result value;
}.

Class World := {
  requests_post : nat → generate_request → result http_response;
  now_isoformat : nat → string;
}.

(** The configuration bag; a missing entry falls back to the default of the
    [get] that reads it. *)
Record config := {
  cfg_model : option string;
  cfg_batch_size : option Z;
  cfg_temperature : option float;
  cfg_max_tokens : option Z;
  cfg_similarity_threshold : option float;
  cfg_min_score_threshold : option Z;
}.

Definition LLM_CONFIG : config := {|
  cfg_model := Some "mistral:latest";
  cfg_batch_size := Some 5%Z;
  cfg_temperature := Some 0.3%float;
  cfg_max_tokens := Some 500%Z;
  cfg_similarity_threshold := Some 0.85%float;
  cfg_min_score_threshold := Some 65%Z;
|}.

Record IdeaProcessor := {
  self_config : config;
  model : string;
  batch_size : Z;
  similarity_threshold : float;
  min_score_threshold : Z;
}.

(** [IdeaProcessor.__init__]; the availability probe only logs. *)
Definition __init__ (cfg : option config) : IdeaProcessor :=
  let c := default LLM_CONFIG cfg in
  {| self_config := c;
     model := default "mistral:latest" (cfg_model c);
     batch_size := default 5%Z (cfg_batch_size c);
     similarity_threshold := default 0.85%float (cfg_similarity_threshold c);
     min_score_threshold := default 65%Z (cfg_min_score_threshold c) |}.

(** *** Deduplication *)

(** [key in hash_map], the dict kept as its items in insertion order. *)
Definition key_in (key : value) (hash_map : list (value * Idea)) : bool :=
  existsb (λ item, key_eq key item.1) hash_map.

(** The first loop of [_deduplicate_ideas]. *)
Fixpoint hash_loop (hash_map : list (value * Idea)) (ideas : list Idea)
  : result (list (value * Idea)) :=
  match ideas with
  | [] => Ok hash_map
  | idea :: rest =>
      let idea_hash := dict_get idea "hash" VNone in
      if truthy idea_hash then
        if hashable idea_hash then
          if key_in idea_hash hash_map then hash_loop hash_map rest
          else hash_loop (hash_map ++ [(idea_hash, idea)]) rest
        else Raise TypeError
      else hash_loop hash_map rest
  end.

(** The weighted mean computed in the inner loop. *)
Definition similarity `{Fuzz} (idea unique_idea : Idea) : result float :=
  title_similarity ← fuzz_ratio (dict_get idea "title" (VStr ""))
                                (dict_get unique_idea "title" (VStr ""));
  d1 ← slice_to 200 (dict_get idea "description" (VStr ""));
  d2 ← slice_to 200 (dict_get unique_idea "description" (VStr ""));
  desc_similarity ← fuzz_ratio d1 d2;
  t ← float_of_int title_similarity;
  d ← float_of_int desc_similarity;
  Ok (t * 0.7 + d * 0.3)%float.

(** The inner loop: [true] as soon as one accepted idea is close enough
    ([break]), [false] when the accepted ideas are exhausted. *)
Fixpoint is_duplicate `{Fuzz} (self : IdeaProcessor) (idea : Idea)
    (unique_ideas : list Idea) : result bool :=
  match unique_ideas with
  | [] => Ok false
  | unique_idea :: rest =>
      s ← similarity idea unique_idea;
      if (similarity_threshold self * float_of_Z 100 <=? s)%float then Ok true
      else is_duplicate self idea rest
  end.

(** The second loop. *)
Fixpoint fuzzy_loop `{Fuzz} (self : IdeaProcessor) (unique_ideas : list Idea)
    (hash_deduped : list Idea) : result (list Idea) :=
  match hash_deduped with
  | [] => Ok unique_ideas
  | idea :: rest =>
      dup ← is_duplicate self idea unique_ideas;
      if dup : bool then fuzzy_loop self unique_ideas rest
      else fuzzy_loop self (unique_ideas ++ [idea]) rest
  end.

Definition _deduplicate_ideas `{Fuzz} (self : IdeaProcessor) (ideas : list Idea)
  : result (list Idea) :=
  match ideas with
  | [] => Ok []
  | _ =>
      hash_map ← hash_loop [] ideas;
      let hash_deduped := hash_map.*2 in
      fuzzy_loop self [] hash_deduped
  end.

(** *** Analysis *)

Definition dq : string := String (ascii_of_nat 34) "".
Definition nl : string := String (ascii_of_nat 10) "".

(** The f-string sent to the model. *)
Definition prompt_of `{Format} (idea : Idea) : string :=
  "Analizza la seguente idea di business/prodotto:" +:+ nl +:+ nl +:+
  "Titolo: " +:+ format_value (dict_get idea "title" (VStr "")) +:+ nl +:+
  "Descrizione: " +:+ format_value (dict_get idea "description" (VStr "")) +:+ nl +:+
  "Fonte: " +:+ format_value (dict_get idea "source" (VStr "")) +:+ nl +:+ nl +:+
  "Rispondi SOLO in formato JSON con questi campi:" +:+ nl +:+
  "{" +:+ nl +:+
  "  " +:+ dq +:+ "score" +:+ dq +:+ ": [punteggio da 0-100 basato su originalità, fattibilità, potenziale di mercato]," +:+ nl +:+
  "  " +:+ dq +:+ "tags" +:+ dq +:+ ": [massimo 3 tag/categorie che descrivono l'idea]," +:+ nl +:+
  "  " +:+ dq +:+ "summary" +:+ dq +:+ ": [sintesi concisa in 1-2 frasi]," +:+ nl +:+
  "  " +:+ dq +:+ "difficulty" +:+ dq +:+ ": [" +:+ dq +:+ "low" +:+ dq +:+ ", " +:+ dq +:+ "medium" +:+ dq +:+ ", " +:+ dq +:+ "high" +:+ dq +:+ "]," +:+ nl +:+
  "  " +:+ dq +:+ "market_potential" +:+ dq +:+ ": [" +:+ dq +:+ "niche" +:+ dq +:+ ", " +:+ dq +:+ "moderate" +:+ dq +:+ ", " +:+ dq +:+ "large" +:+ dq +:+ "]," +:+ nl +:+
  "  " +:+ dq +:+ "insight" +:+ dq +:+ ": [breve analisi del potenziale di business e suggerimenti]" +:+ nl +:+
  "}" +:+ nl.

Definition request_of `{Format} (self : IdeaProcessor) (idea : Idea) : generate_request :=
  {| req_model := model self;
     req_prompt := prompt_of idea;
     req_temperature := default 0.3%float (cfg_temperature (self_config self));
     req_max_tokens := default 500%Z (cfg_max_tokens (self_config self));
     req_stream := false |}.

(** The inner [try] block: find the braces, parse what lies between them,
    attach the result and the time, then format the log line. *)
Definition extract_analysis `{Json, World} (n : nat) (llm_response : value) : Mut Idea () :=
  s ← mut_lift (as_str llm_response);
  let json_start := find_char "{" s in
  let json_end := rfind_char "}" s in
  if (0 <=? json_start)%Z && (json_start <? json_end)%Z then
    let json_str := str_slice s json_start (json_end + 1) in
    analysis ← mut_lift (json_loads json_str);
    _ ← mut_modify (insert "analysis" analysis);
    _ ← mut_modify (insert "analysis_timestamp" (VStr (now_isoformat n)));
    idea ← mut_get;
    _ ← mut_lift (slice_to 30 (dict_get idea "title" (VStr "")));
    _ ← mut_lift (attr_get analysis "score" (VStr "N/A"));
    mret ()
  else mret ().

(** The outer [try] block.  A status other than 200 returns at once. *)
Definition call_llm `{Json, Format, World} (self : IdeaProcessor) (n : nat) : Mut Idea () :=
  idea ← mut_get;
  response ← mut_lift (requests_post n (request_of self idea));
  if negb (status_code response =? 200)%Z then mret ()
  else
    body ← mut_lift (json response);
    llm_response ← mut_lift (attr_get body "response" (VStr ""));
    mut_try (extract_analysis n llm_response)
            (λ e, match e with
                  | JSONDecodeError => mret ()
                  | _ => mut_lift (Raise e)
                  end).

(** [_analyze_idea_with_llm]: whatever happened, the idea is returned as
    the blocks left it. *)
Definition _analyze_idea_with_llm `{Json, Format, World} (self : IdeaProcessor)
    (n : nat) (idea : Idea) : result Idea :=
  let '(_, idea') := mut_try (call_llm self n) (λ _, mret ()) idea in
  Ok idea'.

(** [_process_ideas_batch]; [n] counts the analyses made so far in the run.
    The pause between two calls changes nothing here. *)
Fixpoint batch_loop `{Json, Format, World} (self : IdeaProcessor) (n : nat)
    (processed_batch : list Idea) (ideas_batch : list Idea) : list Idea :=
  match ideas_batch with
  | [] => processed_batch
  | idea :: rest =>
      let processed_batch' :=
        match _analyze_idea_with_llm self n idea with
        | Ok processed_idea => processed_batch ++ [processed_idea]
        | Raise _ => processed_batch ++ [idea]
        end in
      batch_loop self (S n) processed_batch' rest
  end.

Definition _process_ideas_batch `{Json, Format, World} (self : IdeaProcessor)
    (n : nat) (ideas_batch : list Idea) : list Idea :=
  batch_loop self n [] ideas_batch.

(** *** The run: batches, analysis, relevance filter *)

(** [[unique_ideas[i:i+size] for i in range(0, len(unique_ideas), size)]]. *)
Definition batches_of (size : Z) (unique_ideas : list Idea) : result (list (list Idea)) :=
  if (size =? 0)%Z then Raise ValueError
  else if (size <? 0)%Z then Ok []
  else
    let k := Z.to_nat size in
    let starts := (λ j, j * k) <$> seq 0 ((length unique_ideas + k - 1) / k) in
    Ok ((λ i, take k (drop i unique_ideas)) <$> starts).

Fixpoint process_batches `{Json, Format, World} (self : IdeaProcessor) (n : nat)
    (all_processed : list Idea) (batches : list (list Idea)) : list Idea :=
  match batches with
  | [] => all_processed
  | batch :: rest =>
      let processed_batch := _process_ideas_batch self n batch in
      process_batches self (n + length batch) (all_processed ++ processed_batch) rest
  end.

(** The test of the filtering loop:
    ["analysis" in idea and idea["analysis"].get("score", 0) >= threshold]. *)
Definition is_relevant (threshold : Z) (idea : Idea) : result bool :=
  match idea !! "analysis" with
  | None => Ok false
  | Some analysis =>
      score ← attr_get analysis "score" (VInt 0);
      ge_int score threshold
  end.

Fixpoint relevant_loop (threshold : Z) (relevant_ideas : list Idea)
    (all_processed : list Idea) : result (list Idea) :=
  match all_processed with
  | [] => Ok relevant_ideas
  | idea :: rest =>
      keep ← is_relevant threshold idea;
      if keep : bool then relevant_loop threshold (relevant_ideas ++ [idea]) rest
      else relevant_loop threshold relevant_ideas rest
  end.

(** [process_ideas] from the loaded ideas on; the files it writes at the end
    are left out.  Returns [(all_processed, relevant_ideas)]. *)
Definition process_ideas `{Fuzz, Json, Format, World} (self : IdeaProcessor)
    (raw_ideas : list Idea) : result (list Idea * list Idea) :=
  match raw_ideas with
  | [] => Ok ([], [])
  | _ =>
      unique_ideas ← _deduplicate_ideas self raw_ideas;
      batches ← batches_of (batch_size self) unique_ideas;
      let all_processed := process_batches self 0 [] batches in
      relevant_ideas ← relevant_loop (min_score_threshold self) [] all_processed;
      Ok (all_processed, relevant_ideas)
  end.

End Process.

(** ** The normalizer of [scrapers/main.py] *)

Module Scrapers.
Import Py.

(** [hashlib.md5(s.encode()).hexdigest()]. *)
Class Hashlib := {
  md5_hexdigest : string → string;
}.

(** The text whose digest is the fingerprint:
    [f"{data.get('title', '')}{data.get('description', '')}"]. *)
Definition hashed_text `{Format} (data : gmap string value) : string :=
  format_value (dict_get data "title" (VStr "")) +:+
  format_value (dict_get data "description" (VStr "")).

(** [normalize_data(data, source)], with the time [datetime.now()] reads. *)
Definition normalize_data `{Hashlib, Json, Format} (now_iso : string)
    (data : gmap string value) (source : string) : gmap string value :=
  let content_hash := md5_hexdigest (hashed_text data) in
  <["title" := dict_get data "title" (VStr "")]>
  (<["description" := dict_get data "description" (VStr "")]>
  (<["url" := dict_get data "url" (VStr "")]>
  (<["source" := VStr source]>
  (<["timestamp" := VStr now_iso]>
  (<["raw_content" := VStr (json_dumps (VDict data))]>
  (<["hash" := VStr content_hash]> ∅)))))).

(** *** Running a scraper *)

(** A scraper class as [run_scraper] uses it: its name, its construction
    from the keyword arguments of the configuration, and [run]. *)
Class ScraperClass (Scraper : Type) := {
  __name__ : string;
  construct : gmap string value → result Scraper;
  scraper_run : Scraper → result (list value);
}.

(** [**params]: only a mapping can be spread into keyword arguments. *)
Definition as_kwargs (params : value) : result (gmap string value) :=
  match params with
  | VDict d => Ok d
  | _ => Raise TypeError
  end.

(** The list comprehension of [run_scraper]; the [k]-th idea is normalized
    at the time [clock k], and an idea that is not a dict has no [get]. *)
Fixpoint normalize_all `{Hashlib, Json, Format} (clock : nat → string) (k : nat)
    (source_name : string) (raw_ideas : list value) : result (list (gmap string value)) :=
  match raw_ideas with
  | [] => Ok []
  | idea :: rest =>
      normalized ← match idea with
                   | VDict data => Ok (normalize_data (clock k) data source_name)
                   | _ => Raise AttributeError
                   end;
      others ← normalize_all clock (S k) source_name rest;
      Ok (normalized :: others)
  end.

(** [run_scraper(scraper_class, config)]. *)
Definition run_scraper `{Hashlib, Json, Format} {Scraper} `{ScraperClass Scraper}
    (clock : nat → string) (config : gmap string value) : list (gmap string value) :=
  let source_name := str_replace "Scraper" "" __name__ in
  if negb (truthy (dict_get config "enabled" (VBool true))) then []
  else
    match (params ← as_kwargs (dict_get config "params" (VDict ∅));
           scraper ← construct params;
           raw_ideas ← scraper_run scraper;
           normalize_all clock 0 source_name raw_ideas) with
    | Ok normalized_ideas => normalized_ideas
    | Raise _ => []
    end.

End Scrapers.

(** ** The Reddit scraper of [scrapers/reddit.py] *)

Module Reddit.
Import Py.

(** What PRAW shows of a comment and of a submission.  [body] and
    [selftext] are missing on objects that have no such attribute;
    [comments] is what [replace_more(limit=0)] leaves, or the exception of
    the request behind it; [created_utc] stands for
    [datetime.fromtimestamp(post.created_utc).isoformat()], which raises on
    a time out of range. *)
Record comment := {
  body : option string;
  comment_score : Z;
}.

Record submission := {
  title : string;
  selftext : option string;
  score : Z;
  permalink : string;
  created_utc : result string;
  author : option string;
  num_comments : Z;
  comments : result (list comment);
}.

(** [subreddit(name).top(time_filter=..., limit=...)], as the [n]-th listing
    the scraper asks for: the submissions the listing yields and, when it
    breaks off, the exception it ends with. *)
Class Praw := {
  top : nat → string → option string → Z → list submission * option exn;
}.

Record RedditScraper := {
  subreddits : list string;
  time_filter : string;
  limit : Z;
  min_score : Z;
}.

Definition nl : string := Process.nl.

(** The loop over the first five comments; [i] is the position [enumerate]
    gives. *)
Fixpoint comments_loop `{Format} (i : nat) (top_comments : string)
    (first_five : list comment) : string :=
  match first_five with
  | [] => top_comments
  | c :: rest =>
      let top_comments' :=
        match body c with
        | Some text =>
            if (5 <? comment_score c)%Z
            then top_comments +:+ (nl +:+ "---" +:+ nl +:+ "Commento "
                                   +:+ format_value (VInt (Z.of_nat i + 1)) +:+ ": "
                                   +:+ text)
            else top_comments
        | None => top_comments
        end in
      comments_loop (S i) top_comments' rest
  end.

(** The dict built for a submission that passed the score test. *)
Definition post_data `{Format} (subreddit_name : string) (post : submission)
  : result (gmap string value) :=
  let post_text := default "" (selftext post) in
  all_comments ← comments post;
  let top_comments := comments_loop 0 "" (take 5 all_comments) in
  created ← created_utc post;
  Ok (<["title" := VStr (title post)]>
     (<["description" := VStr (if bool_decide (post_text = "") then top_comments
                               else post_text +:+ top_comments)]>
     (<["url" := VStr ("https://www.reddit.com" +:+ permalink post)]>
     (<["score" := VInt (score post)]>
     (<["created_utc" := VStr created]>
     (<["author" := VStr (default "[deleted]" (author post))]>
     (<["subreddit" := VStr subreddit_name]>
     (<["num_comments" := VInt (num_comments post)]> ∅)))))))).

Fixpoint posts_loop `{Format} (self : RedditScraper) (subreddit_name : string)
    (posts : list (gmap string value)) (submissions : list submission)
  : result (list (gmap string value)) :=
  match submissions with
  | [] => Ok posts
  | post :: rest =>
      if (score post <? min_score self)%Z then posts_loop self subreddit_name posts rest
      else
        data ← post_data subreddit_name post;
        posts_loop self subreddit_name (posts ++ [data]) rest
  end.

(** One run of the body of [_fetch_subreddit_posts]: every exception is
    logged and raised again. *)
Definition fetch_once `{Format, Praw} (self : RedditScraper) (n : nat)
    (subreddit_name : string) : result (list (gmap string value)) :=
  let '(submissions, broken) :=
    top n subreddit_name
        (if bool_decide (time_filter self = "all") then None else Some (time_filter self))
        (limit self) in
  posts ← posts_loop self subreddit_name [] submissions;
  match broken with
  | Some e => Raise e
  | None => Ok posts
  end.

(** [backoff.on_exception(backoff.expo, ..., max_tries=...)]: the target is
    called again after an exception as long as tries are left; [n] counts
    the calls made so far. *)
Fixpoint on_exception {A} (tries_left : nat) (n : nat) (target : nat → result A)
  : result A * nat :=
  match target n with
  | Ok a => (Ok a, S n)
  | Raise e =>
      match tries_left with
      | O => (Raise e, S n)
      | S k => on_exception k (S n) target
      end
  end.

(** [_fetch_subreddit_posts], decorated with [max_tries=3]. *)
Definition _fetch_subreddit_posts `{Format, Praw} (self : RedditScraper) (n : nat)
    (subreddit_name : string) : result (list (gmap string value)) * nat :=
  on_exception 2 n (λ k, fetch_once self k subreddit_name).

Fixpoint run_loop `{Format, Praw} (self : RedditScraper) (n : nat)
    (all_posts : list (gmap string value)) (names : list string)
  : list (gmap string value) * nat :=
  match names with
  | [] => (all_posts, n)
  | subreddit :: rest =>
      match _fetch_subreddit_posts self n subreddit with
      | (Ok posts, n') => run_loop self n' (all_posts ++ posts) rest
      | (Raise _, n') => run_loop self n' all_posts rest
      end
  end.

(** [run]: the posts of every subreddit that could be fetched, and the
    number of listings asked for. *)
Definition run `{Format, Praw} (self : RedditScraper) : list (gmap string value) * nat :=
  run_loop self 0 [] (subreddits self).

End Reddit.

(** ** The storage manager of [database/store.py] *)

Module Store.
Import Py.

Abbreviation Idea := (gmap string value).

(** *** The embedded (SQLite) database *)

(** What a statement parameter becomes once bound. *)
Inductive sql_value :=
  | SqlNull
  | SqlInt (z : Z)
  | SqlReal (f : float)
  | SqlText (s : string).

(** How [sqlite3] adapts a Python value: lists and dicts are refused, an
    int must fit 64 bits, a NaN is stored as NULL. *)
Definition bind (v : value) : result sql_value :=
  match v with
  | VNone => Ok SqlNull
  | VBool b => Ok (SqlInt (Z.b2z b))
  | VInt z =>
      if ((- 2 ^ 63 <=? z) && (z <? 2 ^ 63))%Z then Ok (SqlInt z)
      else Raise OverflowError
  | VFloat f => Ok (if PrimFloat.is_nan f then SqlNull else SqlReal f)
  | VStr s => Ok (SqlText s)
  | VList _ | VDict _ => Raise (LibraryError "sqlite3")
  end.

Class Sqlite := {
  (** the text a number turns into when stored in a TEXT column *)
  numeric_text : sql_value → string;
}.

(** The content of a TEXT column after its affinity is applied. *)
Definition text_affinity `{Sqlite} (v : sql_value) : option string :=
  match v with
  | SqlNull => None
  | SqlText s => Some s
  | _ => Some (numeric_text v)
  end.

(** A row of [raw_ideas].  [hash] is the column the statements compare, kept
    as its text ([None] is NULL); [created_at] is the time of insertion
    ([CURRENT_TIMESTAMP]) in seconds. *)
Record raw_row := {
  r_id : Z;
  r_title : sql_value;
  r_description : sql_value;
  r_url : sql_value;
  r_source : sql_value;
  r_timestamp : sql_value;
  r_hash : option string;
  r_raw_content : sql_value;
  r_created_at : Z;
}.

Record analyzed_row := {
  a_id : Z;
  a_title : sql_value;
  a_description : sql_value;
  a_url : sql_value;
  a_source : sql_value;
  a_timestamp : sql_value;
  a_hash : option string;
  a_analysis : sql_value;
  a_score : sql_value;
  a_tags : sql_value;
  a_difficulty : sql_value;
  a_market_potential : sql_value;
  a_created_at : Z;
}.

(** The two idea tables with their AUTOINCREMENT counters.  The [users] and
    [feedback] tables exist too; no operation below reads or writes them. *)
Record database := {
  raw_ideas : list raw_row;
  raw_ideas_seq : Z;
  analyzed_ideas : list analyzed_row;
  analyzed_ideas_seq : Z;
}.

(** The two clocks a statement can read: [datetime.datetime.now()] (local
    calendar) and SQLite's [CURRENT_TIMESTAMP], both in seconds counted
    from 1 January 1970, 00:00:00. *)
Record clock := {
  local_now : Z;
  utc_now : Z;
}.

Class Datetime := {
  isoformat : Z → string;
}.

(** [hash TEXT UNIQUE]: two rows conflict when their hashes are equal and
    not NULL. *)
Definition same_hash (h : option string) (h' : option string) : bool :=
  match h, h' with
  | Some s, Some s' => bool_decide (s = s')
  | _, _ => false
  end.

(** The database once [raw_ideas] has given out the id [id]. *)
Definition with_raw_seq (id : Z) (db : database) : database :=
  {| raw_ideas := raw_ideas db; raw_ideas_seq := id;
     analyzed_ideas := analyzed_ideas db;
     analyzed_ideas_seq := analyzed_ideas_seq db |}.

(** [INSERT OR IGNORE INTO raw_ideas (title, ..., raw_content) VALUES (...)]:
    the new database and the statement's [rowcount].  The row is given the
    next id before the constraints are looked at; a row that breaks
    [title NOT NULL] or [hash UNIQUE] is skipped, and the id it was given
    is used up all the same: the counter has advanced. *)
Definition insert_or_ignore_raw `{Sqlite} (now : Z)
    (title description url source timestamp hash raw_content : sql_value)
    (db : database) : database * Z :=
  let h := text_affinity hash in
  let id := (raw_ideas_seq db + 1)%Z in
  match title with
  | SqlNull => (with_raw_seq id db, 0%Z)
  | _ =>
      if existsb (λ r, same_hash h (r_hash r)) (raw_ideas db)
      then (with_raw_seq id db, 0%Z)
      else
        let row := {| r_id := id; r_title := title; r_description := description;
                      r_url := url; r_source := source; r_timestamp := timestamp;
                      r_hash := h; r_raw_content := raw_content;
                      r_created_at := now |} in
        ({| raw_ideas := raw_ideas db ++ [row]; raw_ideas_seq := id;
            analyzed_ideas := analyzed_ideas db;
            analyzed_ideas_seq := analyzed_ideas_seq db |}, 1%Z)
  end.

(** [INSERT OR REPLACE INTO analyzed_ideas (...) VALUES (...)]: rows with
    the same hash are removed before the new row goes in; a NULL title has
    no default to fall back on and aborts the statement. *)
Definition insert_or_replace_analyzed `{Sqlite} (now : Z)
    (title description url source timestamp hash analysis score tags
     difficulty market_potential : sql_value)
    (db : database) : result (database * Z) :=
  let h := text_affinity hash in
  match title with
  | SqlNull => Raise (LibraryError "sqlite3")
  | _ =>
      let id := (analyzed_ideas_seq db + 1)%Z in
      let row := {| a_id := id; a_title := title; a_description := description;
                    a_url := url; a_source := source; a_timestamp := timestamp;
                    a_hash := h; a_analysis := analysis; a_score := score;
                    a_tags := tags; a_difficulty := difficulty;
                    a_market_potential := market_potential;
                    a_created_at := now |} in
      let kept := filter (λ r, same_hash h (a_hash r) = false) (analyzed_ideas db) in
      Ok ({| raw_ideas := raw_ideas db; raw_ideas_seq := raw_ideas_seq db;
             analyzed_ideas := kept ++ [row]; analyzed_ideas_seq := id |}, 1%Z)
  end.

(** [date(t)]: the calendar day a time falls on. *)
Definition date (t : Z) : Z := (t / 86400)%Z.

(** [DELETE FROM raw_ideas WHERE date(created_at) < date(?)]. *)
Definition delete_raw_before (cutoff_date : Z) (db : database) : database * Z :=
  let deleted := filter (λ r, (date (r_created_at r) < cutoff_date)%Z) (raw_ideas db) in
  let kept := filter (λ r, ¬ (date (r_created_at r) < cutoff_date)%Z) (raw_ideas db) in
  ({| raw_ideas := kept; raw_ideas_seq := raw_ideas_seq db;
      analyzed_ideas := analyzed_ideas db;
      analyzed_ideas_seq := analyzed_ideas_seq db |}, Z.of_nat (length deleted)).

(** [datetime.datetime.now() - datetime.timedelta(days=days)]: a
    [timedelta] holds at most 999999999 days either way and a [datetime]
    lies between the years 1 and 9999; beyond, [OverflowError]. *)
Definition datetime_min : Z := (-62135596800)%Z.
Definition datetime_max : Z := 253402300799%Z.

Definition minus_days (now days : Z) : result Z :=
  if (999999999 <? Z.abs days)%Z then Raise OverflowError
  else
    let t := (now - days * 86400)%Z in
    if ((datetime_min <=? t) && (t <=? datetime_max))%Z then Ok t
    else Raise OverflowError.

(** *** The SQLite methods *)

(** The seven parameters of the raw insert, read off the idea and bound. *)
Definition raw_params `{Datetime} (clk : clock) (idea : Idea)
  : result (sql_value * sql_value * sql_value * sql_value * sql_value * sql_value * sql_value) :=
  title ← bind (dict_get idea "title" (VStr ""));
  description ← bind (dict_get idea "description" (VStr ""));
  url ← bind (dict_get idea "url" (VStr ""));
  source ← bind (dict_get idea "source" (VStr ""));
  timestamp ← bind (dict_get idea "timestamp" (VStr (isoformat (local_now clk))));
  hash ← bind (dict_get idea "hash" (VStr ""));
  raw_content ← bind (dict_get idea "raw_content" (VStr "{}"));
  Ok (title, description, url, source, timestamp, hash, raw_content).

(** The body of the [try] of [_store_raw_ideas_sqlite] for one idea: the
    database and the idea as the body leaves them, and the [rowcount] or
    the exception. *)
Definition store_raw_row_sqlite `{Json, Sqlite, Datetime} (clk : clock)
    (db : database) (idea : Idea) : database * Idea * result Z :=
  let serialized :=
    match dict_get idea "raw_content" VNone with
    | VStr _ => Ok idea
    | _ => raw ← dict_item idea "raw_content";
           Ok (<["raw_content" := VStr (json_dumps raw)]> idea)
    end in
  match serialized with
  | Raise e => (db, idea, Raise e)
  | Ok idea' =>
      match raw_params clk idea' with
      | Raise e => (db, idea', Raise e)
      | Ok (title, description, url, source, timestamp, hash, raw_content) =>
          let '(db', rowcount) :=
            insert_or_ignore_raw (utc_now clk) title description url source
                                 timestamp hash raw_content db in
          (db', idea', Ok rowcount)
      end
  end.

(** [_store_raw_ideas_sqlite]: the database, the ideas as the method leaves
    them (it rewrites [raw_content] in place) and the count. *)
Fixpoint store_raw_loop_sqlite `{Json, Sqlite, Datetime} (clk : clock)
    (db : database) (count : Z) (ideas : list Idea) : database * list Idea * Z :=
  match ideas with
  | [] => (db, [], count)
  | idea :: rest =>
      let '(db', idea', outcome) := store_raw_row_sqlite clk db idea in
      let count' :=
        match outcome with
        | Ok rowcount => if (0 <? rowcount)%Z then (count + 1)%Z else count
        | Raise _ => count
        end in
      let '(db'', rest', n) := store_raw_loop_sqlite clk db' count' rest in
      (db'', idea' :: rest', n)
  end.

Definition _store_raw_ideas_sqlite `{Json, Sqlite, Datetime} (clk : clock)
    (db : database) (ideas : list Idea) : database * list Idea * Z :=
  store_raw_loop_sqlite clk db 0 ideas.

(** The eleven parameters of the analyzed insert.  [analysis.get] raises
    when the analysis is not a dict. *)
Definition analyzed_params `{Json, Datetime} (clk : clock) (idea : Idea)
  : result (sql_value * sql_value * sql_value * sql_value * sql_value * sql_value
            * sql_value * sql_value * sql_value * sql_value * sql_value) :=
  let analysis := dict_get idea "analysis" (VDict ∅) in
  tags_value ← attr_get analysis "tags" (VList []);
  let tags := json_dumps tags_value in
  score_value ← attr_get analysis "score" (VInt 0);
  difficulty_value ← attr_get analysis "difficulty" (VStr "medium");
  market_value ← attr_get analysis "market_potential" (VStr "moderate");
  title ← bind (dict_get idea "title" (VStr ""));
  description ← bind (dict_get idea "description" (VStr ""));
  url ← bind (dict_get idea "url" (VStr ""));
  source ← bind (dict_get idea "source" (VStr ""));
  timestamp ← bind (dict_get idea "timestamp" (VStr (isoformat (local_now clk))));
  hash ← bind (dict_get idea "hash" (VStr ""));
  score ← bind score_value;
  difficulty ← bind difficulty_value;
  market_potential ← bind market_value;
  Ok (title, description, url, source, timestamp, hash,
      SqlText (json_dumps analysis), score, SqlText tags, difficulty,
      market_potential).

(** The body of the [try] of [_store_analyzed_ideas_sqlite] for one idea. *)
Definition store_analyzed_row_sqlite `{Json, Sqlite, Datetime} (clk : clock)
    (db : database) (idea : Idea) : result (database * Z) :=
  '(title, description, url, source, timestamp, hash, analysis, score, tags,
    difficulty, market_potential) ← analyzed_params clk idea;
  insert_or_replace_analyzed (utc_now clk) title description url source
    timestamp hash analysis score tags difficulty market_potential db.

Fixpoint store_analyzed_loop_sqlite `{Json, Sqlite, Datetime} (clk : clock)
    (db : database) (count : Z) (ideas : list Idea) : database * Z :=
  match ideas with
  | [] => (db, count)
  | idea :: rest =>
      match store_analyzed_row_sqlite clk db idea with
      | Ok (db', rowcount) =>
          store_analyzed_loop_sqlite clk db'
            (if (0 <? rowcount)%Z then (count + 1)%Z else count) rest
      | Raise _ => store_analyzed_loop_sqlite clk db count rest
      end
  end.

Definition _store_analyzed_ideas_sqlite `{Json, Sqlite, Datetime} (clk : clock)
    (db : database) (ideas : list Idea) : database * Z :=
  store_analyzed_loop_sqlite clk db 0 ideas.

(** The limit as the statement reads it.  [strftime("%Y-%m-%d")] writes the
    year without padding, and SQLite's [date] reads a year of four digits
    only: of a limit before the year 1000 it makes NULL. *)
Definition year_1000 : Z := (-30610224000)%Z.

Definition sql_date_of_limit (cutoff : Z) : option Z :=
  if (cutoff <? year_1000)%Z then None else Some (date cutoff).

(** [_cleanup_old_raw_ideas_sqlite]: the limit is formatted as a date
    ([strftime("%Y-%m-%d")]) and compared with the date of each row; next
    to a NULL limit the comparison holds of no row and nothing is deleted.
    Any exception is logged and answered by 0. *)
Definition _cleanup_old_raw_ideas_sqlite (clk : clock) (db : database) (days : Z)
  : database * Z :=
  match minus_days (local_now clk) days with
  | Ok cutoff =>
      match sql_date_of_limit cutoff with
      | Some cutoff_date => delete_raw_before cutoff_date db
      | None => (db, 0%Z)
      end
  | Raise _ => (db, 0%Z)
  end.

(** *** The hosted (Supabase) backend *)

(** The service as the client shows it: each call answers with the rows it
    reports ([result.data]) or raises, and leaves the remote state [R] as
    the service decides. *)
Class Supabase (R : Type) := {
  (** [table(name).insert(row).execute()] *)
  sb_insert : string → gmap string value → R → result (list Idea) * R;
  (** [table(name).delete().lt(column, bound).execute()] *)
  sb_delete_lt : string → string → string → R → result (list Idea) * R;
}.

(** The body of the [try] of [_store_raw_ideas_supabase] for one idea. *)
Definition store_raw_row_supabase `{Json} {R} `{Supabase R} (remote : R) (idea : Idea)
  : R * Idea * result (list Idea) :=
  let decoded :=
    match dict_get idea "raw_content" VNone with
    | VStr s =>
        match json_loads s with
        | Ok v => Ok (<["raw_content" := v]> idea)
        | Raise JSONDecodeError => Ok idea
        | Raise e => Raise e
        end
    | _ => Ok idea
    end in
  match decoded with
  | Raise e => (remote, idea, Raise e)
  | Ok idea' =>
      let '(data, remote') := sb_insert "raw_ideas" idea' remote in
      (remote', idea', data)
  end.

Fixpoint store_raw_loop_supabase `{Json} {R} `{Supabase R} (remote : R) (count : Z)
    (ideas : list Idea) : R * list Idea * Z :=
  match ideas with
  | [] => (remote, [], count)
  | idea :: rest =>
      let '(remote', idea', outcome) := store_raw_row_supabase remote idea in
      let count' :=
        match outcome with
        | Ok (_ :: _) => (count + 1)%Z
        | _ => count
        end in
      let '(remote'', rest', n) := store_raw_loop_supabase remote' count' rest in
      (remote'', idea' :: rest', n)
  end.

Definition _store_raw_ideas_supabase `{Json} {R} `{Supabase R} (remote : R)
    (ideas : list Idea) : R * list Idea * Z :=
  store_raw_loop_supabase remote 0 ideas.

(** The row [_store_analyzed_ideas_supabase] sends for an idea. *)
Definition analyzed_data `{Datetime} (clk : clock) (idea : Idea) : result Idea :=
  let analysis := dict_get idea "analysis" (VDict ∅) in
  score ← attr_get analysis "score" (VInt 0);
  tags ← attr_get analysis "tags" (VList []);
  difficulty ← attr_get analysis "difficulty" (VStr "medium");
  market_potential ← attr_get analysis "market_potential" (VStr "moderate");
  Ok (<["title" := dict_get idea "title" (VStr "")]>
     (<["description" := dict_get idea "description" (VStr "")]>
     (<["url" := dict_get idea "url" (VStr "")]>
     (<["source" := dict_get idea "source" (VStr "")]>
     (<["timestamp" := dict_get idea "timestamp" (VStr (isoformat (local_now clk)))]>
     (<["hash" := dict_get idea "hash" (VStr "")]>
     (<["analysis" := analysis]>
     (<["score" := score]>
     (<["tags" := tags]>
     (<["difficulty" := difficulty]>
     (<["market_potential" := market_potential]> ∅))))))))))).

Fixpoint store_analyzed_loop_supabase `{Datetime} {R} `{Supabase R} (clk : clock)
    (remote : R) (count : Z) (ideas : list Idea) : R * Z :=
  match ideas with
  | [] => (remote, count)
  | idea :: rest =>
      match analyzed_data clk idea with
      | Raise _ => store_analyzed_loop_supabase clk remote count rest
      | Ok idea_data =>
          let '(data, remote') := sb_insert "analyzed_ideas" idea_data remote in
          let count' :=
            match data with
            | Ok (_ :: _) => (count + 1)%Z
            | _ => count
            end in
          store_analyzed_loop_supabase clk remote' count' rest
      end
  end.

Definition _store_analyzed_ideas_supabase `{Datetime} {R} `{Supabase R} (clk : clock)
    (remote : R) (ideas : list Idea) : R * Z :=
  store_analyzed_loop_supabase clk remote 0 ideas.

(** [_cleanup_old_raw_ideas_supabase]: the limit travels as an ISO
    timestamp and the service compares it with [created_at]. *)
Definition _cleanup_old_raw_ideas_supabase `{Datetime} {R} `{Supabase R} (clk : clock)
    (remote : R) (days : Z) : R * Z :=
  match minus_days (local_now clk) days with
  | Raise _ => (remote, 0%Z)
  | Ok cutoff =>
      match sb_delete_lt "raw_ideas" "created_at" (isoformat cutoff) remote with
      | (Ok data, remote') => (remote', Z.of_nat (length data))
      | (Raise _, remote') => (remote', 0%Z)
      end
  end.

(** *** The manager *)

(** The attributes of a [DatabaseManager]: [supabase] is the client (with
    the remote state it reaches) and [conn] the open connection (with the
    database behind it); either is missing until its initialisation ran. *)
Record DatabaseManager (R : Type) := {
  self_config : gmap string value;
  db_type : value;
  supabase : option R;
  db_path : option string;
  conn : option database;
}.
Arguments self_config {R} _.
Arguments db_type {R} _.
Arguments supabase {R} _.
Arguments db_path {R} _.
Arguments conn {R} _.

(** What construction reads from its surroundings: the process environment,
    the Supabase client factory, the file system and [sqlite3]. *)
Class Environment (R : Type) := {
  environ : gmap string string;
  create_client : string → string → result R;
  DATA_DIR : string;
  path_join : string → string → string;
  path_dirname : string → string;
  makedirs : string → result ();
  sqlite3_connect : string → result database;
  (** the [CREATE TABLE]/[CREATE INDEX ... IF NOT EXISTS] statements and
      the commit of [_create_sqlite_tables] *)
  create_schema : database → result database;
}.

Definition DB_CONFIG {R} `{Environment R} : gmap string value :=
  <["type" := VStr "supabase"]>
  (<["sqlite" := VDict (<["db_path" := VStr (path_join DATA_DIR "ideas.db")]> ∅)]> ∅).

(** [v == "supabase"]. *)
Definition is_supabase (v : value) : bool :=
  match v with
  | VStr s => bool_decide (s = "supabase")
  | _ => false
  end.

(** A path argument must be a string. *)
Definition as_path (v : value) : result string :=
  match v with
  | VStr s => Ok s
  | _ => Raise TypeError
  end.

(** [_init_sqlite]: every failure is logged and raised again. *)
Definition _init_sqlite {R} `{Environment R} (self : DatabaseManager R)
  : result (DatabaseManager R) :=
  try_except
    (found ← attr_get (dict_get (self_config self) "sqlite" (VDict ∅)) "db_path" VNone;
     let db_path := if truthy found then found
                    else VStr (path_join DATA_DIR "ideas.db") in
     path ← as_path db_path;
     _ ← makedirs (path_dirname path);
     db ← sqlite3_connect path;
     db' ← create_schema db;
     Ok {| self_config := self_config self; db_type := db_type self;
           supabase := supabase self; db_path := Some path; conn := Some db' |})
    (λ e, Raise e).

(** [_init_supabase]: any failure, missing credentials first, switches the
    manager to SQLite. *)
Definition _init_supabase {R} `{Environment R} (self : DatabaseManager R)
  : result (DatabaseManager R) :=
  try_except
    (let supabase_url := environ !! "SUPABASE_URL" in
     let supabase_key := environ !! "SUPABASE_KEY" in
     match supabase_url, supabase_key with
     | Some url, Some key =>
         if bool_decide (url = "") || bool_decide (key = "") then Raise ValueError
         else
           client ← create_client url key;
           Ok {| self_config := self_config self; db_type := db_type self;
                 supabase := Some client; db_path := db_path self;
                 conn := conn self |}
     | _, _ => Raise ValueError
     end)
    (λ _, _init_sqlite {| self_config := self_config self; db_type := VStr "sqlite";
                          supabase := supabase self; db_path := db_path self;
                          conn := conn self |}).

(** [config or DB_CONFIG]: the default for [None] and for an empty dict. *)
Definition config_or_default {R} `{Environment R} (config : option (gmap string value))
  : gmap string value :=
  match config with
  | Some c => if bool_decide (c = ∅) then DB_CONFIG else c
  | None => DB_CONFIG
  end.

(** [DatabaseManager.__init__]. *)
Definition __init__ {R} `{Environment R} (config : option (gmap string value))
  : result (DatabaseManager R) :=
  let cfg := config_or_default config in
  let self := {| self_config := cfg; db_type := dict_get cfg "type" (VStr "sqlite");
                 supabase := None; db_path := None; conn := None |} in
  if is_supabase (db_type self) then _init_supabase self
  else _init_sqlite self.

(** A manager whose client was never set: calling it raises. *)
#[global] Instance option_supabase {R} `{Supabase R} : Supabase (option R) := {
  sb_insert table row client :=
    match client with
    | Some remote => let '(data, remote') := sb_insert table row remote in (data, Some remote')
    | None => (Raise AttributeError, None)
    end;
  sb_delete_lt table column bound client :=
    match client with
    | Some remote =>
        let '(data, remote') := sb_delete_lt table column bound remote in (data, Some remote')
    | None => (Raise AttributeError, None)
    end;
}.

Definition with_supabase {R} (self : DatabaseManager R) (client : option R)
  : DatabaseManager R :=
  {| self_config := self_config self; db_type := db_type self; supabase := client;
     db_path := db_path self; conn := conn self |}.

Definition with_conn {R} (self : DatabaseManager R) (db : database)
  : DatabaseManager R :=
  {| self_config := self_config self; db_type := db_type self;
     supabase := supabase self; db_path := db_path self; conn := Some db |}.

(** [self.conn.cursor()]. *)
Definition cursor {R} (self : DatabaseManager R) : result database :=
  match conn self with
  | Some db => Ok db
  | None => Raise AttributeError
  end.

(** [store_raw_ideas]. *)
Definition store_raw_ideas `{Json, Sqlite, Datetime} {R} `{Supabase R} (clk : clock)
    (self : DatabaseManager R) (ideas : list Idea)
  : result (DatabaseManager R * list Idea * Z) :=
  match ideas with
  | [] => Ok (self, ideas, 0%Z)
  | _ =>
      if is_supabase (db_type self) then
        let '(client, ideas', n) := _store_raw_ideas_supabase (supabase self) ideas in
        Ok (with_supabase self client, ideas', n)
      else
        db ← cursor self;
        let '(db', ideas', n) := _store_raw_ideas_sqlite clk db ideas in
        Ok (with_conn self db', ideas', n)
  end.

(** [store_analyzed_ideas]: only the ideas with an ["analysis"] key go on. *)
Definition store_analyzed_ideas `{Json, Sqlite, Datetime} {R} `{Supabase R}
    (clk : clock) (self : DatabaseManager R) (ideas : list Idea)
  : result (DatabaseManager R * Z) :=
  match ideas with
  | [] => Ok (self, 0%Z)
  | _ =>
      let analyzed := filter (λ idea : Idea, is_Some (idea !! "analysis")) ideas in
      match analyzed with
      | [] => Ok (self, 0%Z)
      | _ =>
          if is_supabase (db_type self) then
            let '(client, n) := _store_analyzed_ideas_supabase clk (supabase self) analyzed in
            Ok (with_supabase self client, n)
          else
            db ← cursor self;
            let '(db', n) := _store_analyzed_ideas_sqlite clk db analyzed in
            Ok (with_conn self db', n)
      end
  end.

(** [cleanup_old_raw_ideas]. *)
Definition cleanup_old_raw_ideas `{Datetime} {R} `{Supabase R} (clk : clock)
    (self : DatabaseManager R) (days : Z) : result (DatabaseManager R * Z) :=
  if is_supabase (db_type self) then
    let '(client, n) := _cleanup_old_raw_ideas_supabase clk (supabase self) days in
    Ok (with_supabase self client, n)
  else
    db ← cursor self;
    let '(db', n) := _cleanup_old_raw_ideas_sqlite clk db days in
    Ok (with_conn self db', n).

(** *** Reading the best ideas back *)

(** What reading [analyzed_ideas] takes from the engine: the rows
    [SELECT * FROM analyzed_ideas WHERE score >= ? ORDER BY score DESC
    LIMIT ?] yields for its two bound parameters (or the error it raises),
    the value an INTEGER column holds for what was bound to it, and the text
    of [CURRENT_TIMESTAMP]. *)
Class SqliteRead := {
  select_top : sql_value → sql_value → list analyzed_row → result (list analyzed_row);
  integer_column : sql_value → sql_value;
  timestamp_text : Z → string;
}.

(** The Python value [sqlite3] hands back for a stored one. *)
Definition of_sql (v : sql_value) : value :=
  match v with
  | SqlNull => VNone
  | SqlInt z => VInt z
  | SqlReal f => VFloat f
  | SqlText s => VStr s
  end.

Definition of_text (t : option string) : value :=
  match t with
  | Some s => VStr s
  | None => VNone
  end.

(** [dict(row)] for a row of [analyzed_ideas]: one key per column. *)
Definition dict_of_row `{Sqlite, SqliteRead} (row : analyzed_row) : Idea :=
  <["id" := VInt (a_id row)]>
  (<["title" := of_text (text_affinity (a_title row))]>
  (<["description" := of_text (text_affinity (a_description row))]>
  (<["url" := of_text (text_affinity (a_url row))]>
  (<["source" := of_text (text_affinity (a_source row))]>
  (<["timestamp" := of_text (text_affinity (a_timestamp row))]>
  (<["hash" := of_text (a_hash row)]>
  (<["analysis" := of_text (text_affinity (a_analysis row))]>
  (<["score" := of_sql (integer_column (a_score row))]>
  (<["tags" := of_text (text_affinity (a_tags row))]>
  (<["difficulty" := of_text (text_affinity (a_difficulty row))]>
  (<["market_potential" := of_text (text_affinity (a_market_potential row))]>
  (<["created_at" := VStr (timestamp_text (a_created_at row))]> ∅)))))))))))).

(** [if key in idea and isinstance(idea[key], str):
       idea[key] = json.loads(idea[key])]. *)
Definition decode_field `{Json} (key : string) (idea : Idea) : result Idea :=
  match idea !! key with
  | Some (VStr s) => v ← json_loads s; Ok (<[key := v]> idea)
  | _ => Ok idea
  end.

(** The body of the loop over the fetched rows. *)
Definition idea_of_row `{Json, Sqlite, SqliteRead} (row : analyzed_row) : result Idea :=
  idea ← decode_field "analysis" (dict_of_row row);
  decode_field "tags" idea.

Fixpoint rows_loop `{Json, Sqlite, SqliteRead} (ideas : list Idea)
    (rows : list analyzed_row) : result (list Idea) :=
  match rows with
  | [] => Ok ideas
  | row :: rest =>
      idea ← idea_of_row row;
      rows_loop (ideas ++ [idea]) rest
  end.

(** [_get_top_ideas_sqlite]: whatever goes wrong inside the [try], binding
    the parameters, running the query or decoding a row, is logged and
    answered by the empty list. *)
Definition _get_top_ideas_sqlite `{Json, Sqlite, SqliteRead} (db : database)
    (limit min_score : value) : list Idea :=
  match (min_score' ← bind min_score;
         limit' ← bind limit;
         rows ← select_top min_score' limit' (analyzed_ideas db);
         rows_loop [] rows) with
  | Ok ideas => ideas
  | Raise _ => []
  end.

(** The same query put to the hosted service. *)
Class SupabaseRead (R : Type) := {
  (** [table(name).select("*").gte(column, bound).order(column, desc=True)
      .limit(n).execute()] *)
  sb_select_top : string → string → value → value → R → result (list Idea) * R;
}.

#[global] Instance option_supabase_read {R} `{SupabaseRead R} : SupabaseRead (option R) := {
  sb_select_top table column bound n client :=
    match client with
    | Some remote =>
        let '(data, remote') := sb_select_top table column bound n remote in
        (data, Some remote')
    | None => (Raise AttributeError, None)
    end;
}.

(** [_get_top_ideas_supabase]: [result.data], or the empty list on any
    exception. *)
Definition _get_top_ideas_supabase {R} `{SupabaseRead R} (remote : R)
    (limit min_score : value) : R * list Idea :=
  match sb_select_top "analyzed_ideas" "score" min_score limit remote with
  | (Ok data, remote') => (remote', data)
  | (Raise _, remote') => (remote', [])
  end.

(** [get_top_ideas]. *)
Definition get_top_ideas `{Json, Sqlite, SqliteRead} {R} `{SupabaseRead R}
    (self : DatabaseManager R) (limit min_score : value)
  : result (DatabaseManager R * list Idea) :=
  if is_supabase (db_type self) then
    let '(client, ideas) := _get_top_ideas_supabase (supabase self) limit min_score in
    Ok (with_supabase self client, ideas)
  else
    db ← cursor self;
    Ok (self, _get_top_ideas_sqlite db limit min_score).

End Store.

(** ** The notifier of [analysis/notify.py] *)

Module Notify.
Import Py.

Abbreviation Idea := (gmap string value).

Definition nl : string := Process.nl.

(** python-telegram-bot: the [Bot] constructor, and [send_message] called
    with [parse_mode="Markdown"] and [disable_web_page_preview=False] on the
    state [T] of the chats. *)
Class Telegram (B T : Type) := {
  Bot : string → result B;
  send_message : B → option string → string → T → result () * T;
}.

(** The attributes of a [NotificationManager]; [chat_id] and [bot] are
    missing until [_init_telegram_bot] sets them. *)
Record NotificationManager (B : Type) := {
  self_config : gmap string value;
  telegram_enabled : value;
  min_score : value;
  chat_id : option (option string);
  bot : option B;
}.
Arguments self_config {B} _.
Arguments telegram_enabled {B} _.
Arguments min_score {B} _.
Arguments chat_id {B} _.
Arguments bot {B} _.

Definition NOTIFICATION_CONFIG : gmap string value :=
  <["telegram" := VDict (<["enabled" := VBool true]>
                         (<["min_score_to_notify" := VInt 80]> ∅))]> ∅.

(** [not os.environ.get(name)]. *)
Definition unset (v : option string) : bool :=
  match v with
  | Some s => bool_decide (s = "")
  | None => true
  end.

(** [_init_telegram_bot]: without both credentials, or when the bot cannot
    be built, Telegram is switched off. *)
Definition _init_telegram_bot {R} `{Store.Environment R} {B T} `{Telegram B T}
    (self : NotificationManager B) : NotificationManager B :=
  let token := Store.environ !! "TELEGRAM_BOT_TOKEN" in
  let chat := Store.environ !! "TELEGRAM_CHAT_ID" in
  let disabled := {| self_config := self_config self; telegram_enabled := VBool false;
                     min_score := min_score self; chat_id := Some chat;
                     bot := bot self |} in
  if unset token || unset chat then disabled
  else
    match Bot (default "" token) with
    | Ok b => {| self_config := self_config self;
                 telegram_enabled := telegram_enabled self;
                 min_score := min_score self; chat_id := Some chat; bot := Some b |}
    | Raise _ => disabled
    end.

(** [NotificationManager.__init__]. *)
Definition __init__ {R} `{Store.Environment R} {B T} `{Telegram B T}
    (config : option (gmap string value)) : result (NotificationManager B) :=
  let cfg := match config with
             | Some c => if bool_decide (c = ∅) then NOTIFICATION_CONFIG else c
             | None => NOTIFICATION_CONFIG
             end in
  enabled ← attr_get (dict_get cfg "telegram" (VDict ∅)) "enabled" (VBool false);
  score ← attr_get (dict_get cfg "telegram" (VDict ∅)) "min_score_to_notify" (VInt 80);
  let self := {| self_config := cfg; telegram_enabled := enabled; min_score := score;
                 chat_id := None; bot := None |} in
  Ok (if truthy enabled then _init_telegram_bot self else self).

(** [f"#{tag.replace(' ', '_')}"]. *)
Definition hashtag (tag : value) : result string :=
  s ← as_str tag;
  Ok ("#" +:+ str_replace " " "_" s).

Definition rocket : string := "🚀".
Definition chart : string := "📊".
Definition lens : string := "🔍".
Definition briefcase : string := "💼".
Definition bulb : string := "💡".
Definition link : string := "🔗".

(** The f-string of [_format_idea_message], for the analysis and the line
    of hashtags it is given. *)
Definition message_text `{Format} (idea : Idea) (analysis : gmap string value)
    (tags_str : string) : string :=
  rocket +:+ " *Nuova Idea Promettente!*" +:+ nl +:+ nl +:+
  "*" +:+ format_value (dict_get idea "title" (VStr "Titolo non disponibile")) +:+ "*"
  +:+ nl +:+ nl +:+
  format_value (dict_get analysis "summary" (VStr "Nessun sommario disponibile"))
  +:+ nl +:+ nl +:+
  chart +:+ " *Score:* " +:+ format_value (dict_get analysis "score" (VStr "N/A"))
  +:+ "/100" +:+ nl +:+
  lens +:+ " *Difficoltà:* " +:+ format_value (dict_get analysis "difficulty" (VStr "N/A"))
  +:+ nl +:+
  briefcase +:+ " *Potenziale di mercato:* "
  +:+ format_value (dict_get analysis "market_potential" (VStr "N/A")) +:+ nl +:+ nl +:+
  bulb +:+ " *Insight:* "
  +:+ format_value (dict_get analysis "insight" (VStr "Nessun insight disponibile"))
  +:+ nl +:+ nl +:+
  link +:+ " [Fonte originale](" +:+ format_value (dict_get idea "url" (VStr "#"))
  +:+ ")" +:+ nl +:+ nl +:+
  tags_str.

(** [_format_idea_message]: the hashtags are built first, one for each
    thing the tags yield when iterated. *)
Definition _format_idea_message `{Format, Iteration} (idea : Idea) : result string :=
  match dict_get idea "analysis" (VDict ∅) with
  | VDict analysis =>
      tag_list ← iterate (dict_get analysis "tags" (VList []));
      hashtags ← mapM hashtag tag_list;
      Ok (message_text idea analysis (str_join " " hashtags))
  | _ => Raise AttributeError
  end.

(** [send_telegram_notification]: [True] when the message went out; a
    manager that is switched off sends nothing, and every exception, of the
    formatting or of the library, is logged and answered by [False]. *)
Definition send_telegram_notification `{Format, Iteration} {B T} `{Telegram B T}
    (self : NotificationManager B) (idea : Idea) (chats : T) : bool * T :=
  if negb (truthy (telegram_enabled self)) then (false, chats)
  else
    match _format_idea_message idea, bot self, chat_id self with
    | Ok message, Some b, Some chat =>
        let '(sent, chats') := send_message b chat message chats in
        (is_ok sent, chats')
    | _, _, _ => (false, chats)
    end.

(** The test of the list comprehension:
    [idea.get("analysis", {}).get("score", 0) >= self.min_score]. *)
Definition scores_enough `{Compare} {B} (self : NotificationManager B) (idea : Idea)
  : result bool :=
  score ← attr_get (dict_get idea "analysis" (VDict ∅)) "score" (VInt 0);
  ge_value score (min_score self).

Fixpoint high_score `{Compare} {B} (self : NotificationManager B) (ideas : list Idea)
  : result (list Idea) :=
  match ideas with
  | [] => Ok []
  | idea :: rest =>
      keep ← scores_enough self idea;
      kept ← high_score self rest;
      Ok (if keep : bool then idea :: kept else kept)
  end.

(** The sending loop. *)
Fixpoint send_loop `{Format, Iteration} {B T} `{Telegram B T}
    (self : NotificationManager B) (sent_count : Z) (ideas_to_notify : list Idea)
    (chats : T) : Z * T :=
  match ideas_to_notify with
  | [] => (sent_count, chats)
  | idea :: rest =>
      let '(sent, chats') := send_telegram_notification self idea chats in
      send_loop self (if sent : bool then (sent_count + 1)%Z else sent_count) rest chats'
  end.

(** [notify_top_ideas(ideas, limit)]; without [ideas] the best ones are
    fetched through a manager of the database built for the occasion.  The
    count, or the exception, and the chats as the call leaves them. *)
Definition notify_top_ideas `{Json, Format, Iteration, Compare}
    `{Store.Sqlite, Store.SqliteRead} {R} `{Store.Environment R, Store.SupabaseRead R}
    {B T} `{Telegram B T}
    (self : NotificationManager B) (ideas : option (list Idea)) (limit : Z) (chats : T)
  : result Z * T :=
  let fetched :=
    match ideas with
    | Some given => Ok given
    | None =>
        db_manager ← Store.__init__ None;
        '(_, found) ← Store.get_top_ideas db_manager (VInt limit) (min_score self);
        Ok found
    end in
  match fetched with
  | Raise e => (Raise e, chats)
  | Ok [] => (Ok 0%Z, chats)
  | Ok ideas =>
      match high_score self ideas with
      | Raise e => (Raise e, chats)
      | Ok [] => (Ok 0%Z, chats)
      | Ok high_score_ideas =>
          let ideas_to_notify := slice_upto limit high_score_ideas in
          let '(sent_count, chats') := send_loop self 0 ideas_to_notify chats in
          (Ok sent_count, chats')
      end
  end.

End Notify.

(** ** The vocabulary of the statements about the processor *)

Module ProcessSpec.
Import Py Process.

(** The fingerprint the exact stage reads: [idea.get("hash")]. *)
Definition idea_hash (idea : Idea) : value := dict_get idea "hash" VNone.

(** The items a dict holds after the ideas of [l] were inserted in turn. *)
Definition items (l : list Idea) : list (value * Idea) :=
  (λ idea, (idea_hash idea, idea)) <$> l.

(** Every idea of [l] has a usable fingerprint that is not yet a key, given
    the items [seen] already in the dict. *)
Fixpoint fresh_keys (seen : list (value * Idea)) (l : list Idea) : Prop :=
  match l with
  | [] => True
  | c :: rest =>
      truthy (idea_hash c) = true ∧ hashable (idea_hash c) = true ∧
      key_in (idea_hash c) seen = false ∧
      fresh_keys (seen ++ [(idea_hash c, c)]) rest
  end.

(** No idea of [l] is a duplicate of the ideas accepted before it. *)
Fixpoint stable `{Fuzz} (self : IdeaProcessor) (accepted l : list Idea) : Prop :=
  match l with
  | [] => True
  | c :: rest =>
      is_duplicate self c accepted = Ok false ∧ stable self (accepted ++ [c]) rest
  end.

(** The idea carries no fingerprint: the key is absent, or holds [None] or
    the empty string. *)
Definition no_fingerprint (idea : Idea) : Prop :=
  idea !! "hash" = None ∨ idea !! "hash" = Some VNone ∨ idea !! "hash" = Some (VStr "").

(** The ratio of the two titles, and of the first 200 characters of the two
    descriptions. *)
Definition title_ratio `{Fuzz} (c u : Idea) : result Z :=
  fuzz_ratio (dict_get c "title" (VStr "")) (dict_get u "title" (VStr "")).

Definition description_ratio `{Fuzz} (c u : Idea) : result Z :=
  a ← slice_to 200 (dict_get c "description" (VStr ""));
  b ← slice_to 200 (dict_get u "description" (VStr ""));
  fuzz_ratio a b.

(** The inequality of the description, on paper:
    [0.7 x t + 0.3 x d >= threshold x 100] in exact arithmetic, the
    threshold taken at its exact value [m x 2^e].  Ten times each side, it
    reads [7 t + 3 d >= 1000 x threshold]. *)
Definition on_paper (threshold : float) (t d : Z) : bool :=
  match Prim2SF threshold with
  | S754_zero _ => (0 <=? 7 * t + 3 * d)%Z
  | S754_infinity neg => neg
  | S754_nan => false
  | S754_finite neg m e =>
      let sm := if neg then Z.neg m else Z.pos m in
      if (0 <=? e)%Z then (1000 * (sm * 2 ^ e) <=? 7 * t + 3 * d)%Z
      else (1000 * sm <=? (7 * t + 3 * d) * 2 ^ (- e))%Z
  end.

(** Candidate [c] duplicates the accepted idea [u] on paper. *)
Definition duplicate_on_paper `{Fuzz} (self : IdeaProcessor) (c u : Idea) : bool :=
  match title_ratio c u, description_ratio c u with
  | Ok t, Ok d => on_paper (similarity_threshold self) t d
  | _, _ => false
  end.

(** The same inequality in binary64: the two products, their sum and
    [threshold x 100] are each rounded to the nearest float before the
    comparison. *)
Definition weighted (t d : Z) : float :=
  (float_of_Z t * 0.7 + float_of_Z d * 0.3)%float.

Definition in_binary64 (threshold : float) (t d : Z) : bool :=
  (threshold * float_of_Z 100 <=? weighted t d)%float.

(** Candidate [c] duplicates the accepted idea [u] in binary64. *)
Definition duplicate_in_binary64 `{Fuzz} (self : IdeaProcessor) (c u : Idea) : bool :=
  match title_ratio c u, description_ratio c u with
  | Ok t, Ok d => in_binary64 (similarity_threshold self) t d
  | _, _ => false
  end.

(** Where the two readings part at the default threshold, for ratios from
    0 to 100: the one pair that weighs exactly 85 on paper and less once
    rounded. *)
Definition rounded_below (t d : Z) : bool := (t =? 97)%Z && (d =? 57)%Z.

Definition is_str (v : value) : bool :=
  match v with
  | VStr _ => true
  | _ => false
  end.

(** Title and description are strings (or missing). *)
Definition text_fields (i : Idea) : bool :=
  is_str (dict_get i "title" (VStr "")) && is_str (dict_get i "description" (VStr "")).

(** The idea with the analysis and the time of the analysis attached. *)
Definition attach (now : string) (analysis : value) (idea : Idea) : Idea :=
  <["analysis_timestamp" := VStr now]> (<["analysis" := analysis]> idea).

(** The object a reply yields: the status is 200, the body decodes to a dict
    whose ["response"] is a string, a ["{"] comes before the last ["}"], and
    the text from the one to the other parses. *)
Definition parsed_analysis `{Json} (reply : result http_response) : option value :=
  match reply with
  | Ok r =>
      if (status_code r =? 200)%Z then
        match json r with
        | Ok (VDict body) =>
            match dict_get body "response" (VStr "") with
            | VStr s =>
                let json_start := find_char "{" s in
                let json_end := rfind_char "}" s in
                if (0 <=? json_start)%Z && (json_start <? json_end)%Z then
                  match json_loads (str_slice s json_start (json_end + 1)) with
                  | Ok analysis => Some analysis
                  | Raise _ => None
                  end
                else None
            | _ => None
            end
        | _ => None
        end
      else None
  | Raise _ => None
  end.

(** What the [n]-th analysis of the run makes of an idea. *)
Definition analyzed `{Json, Format, World} (self : IdeaProcessor) (n : nat) (idea : Idea)
  : Idea :=
  match parsed_analysis (requests_post n (request_of self idea)) with
  | Some analysis => attach (now_isoformat n) analysis idea
  | None => idea
  end.

(** The step returned the idea as it came, with no ["analysis"] key. *)
Definition returned_without_analysis (returned : result Idea) (idea : Idea) : Prop :=
  returned = Ok idea ∧ idea !! "analysis" = None.

Definition numeric (v : value) : bool :=
  match v with
  | VInt _ | VFloat _ | VBool _ => true
  | _ => false
  end.

(** The score of an analyzed idea, [idea["analysis"].get("score", 0)]. *)
Definition score_of (idea : Idea) : option value :=
  match idea !! "analysis" with
  | Some (VDict analysis) => Some (dict_get analysis "score" (VInt 0))
  | _ => None
  end.

(** An idea the filter can read: it has no analysis, or its analysis is an
    object whose score is a number (or missing). *)
Definition readable (idea : Idea) : bool :=
  match idea !! "analysis" with
  | None => true
  | Some (VDict analysis) => numeric (dict_get analysis "score" (VInt 0))
  | Some _ => false
  end.

(** A numeric score is at least [t]. *)
Definition at_least (t : Z) (score : value) : bool :=
  match score with
  | VInt z => (t <=? z)%Z
  | VBool b => (t <=? Z.b2z b)%Z
  | VFloat f => match float_cmp_int f t with
                | Some Eq | Some Gt => true
                | _ => false
                end
  | _ => false
  end.

(** The idea carries an analysis whose score is at least [t]. *)
Definition relevant (t : Z) (idea : Idea) : bool :=
  match score_of idea with
  | Some score => at_least t score
  | None => false
  end.

(** An idea whose analysis holds the integer score [z] and nothing else. *)
Definition scored (z : Z) : Idea :=
  {[ "analysis" := VDict {[ "score" := VInt z ]} ]}.

(** An idea the exact stage can take or skip: its fingerprint is falsy or
    can be a dict key. *)
Definition usable_key (idea : Idea) : bool :=
  negb (truthy (idea_hash idea)) || hashable (idea_hash idea).

End ProcessSpec.

(** ** The vocabulary of the statements about the storage manager *)

Module StoreSpec.
Import Py Store.

(** The Supabase client cannot be had: a credential is missing or empty, or
    the client factory raises. *)
Definition supabase_unavailable {R} `{Environment R} : Prop :=
  match environ !! "SUPABASE_URL", environ !! "SUPABASE_KEY" with
  | Some url, Some key => url = "" ∨ key = "" ∨ ∃ e, create_client url key = Raise e
  | _, _ => True
  end.

(** The steps of the SQLite initialisation: the path from the configuration
    (or the default), its directory, the connection, the tables. *)
Definition open_sqlite {R} `{Environment R} (cfg : gmap string value)
  : result (string * database) :=
  found ← attr_get (dict_get cfg "sqlite" (VDict ∅)) "db_path" VNone;
  path ← as_path (if truthy found then found else VStr (path_join DATA_DIR "ideas.db"));
  _ ← makedirs (path_dirname path);
  db ← sqlite3_connect path;
  db' ← create_schema db;
  Ok (path, db').

(** The row of [analyzed_ideas] that holds fingerprint [h]. *)
Definition analyzed_with_hash (h : string) (db : database) : list analyzed_row :=
  filter (λ r, a_hash r = Some h) (analyzed_ideas db).

(** Storing the idea raises in no database and at no time. *)
Definition stores_without_error `{Json, Sqlite, Datetime} (idea : Idea) : Prop :=
  ∀ clk db, is_ok (store_analyzed_row_sqlite clk db idea) = true.

(** The fingerprints a table holds, NULLs left out. *)
Definition raw_hashes (db : database) : list string := omap r_hash (raw_ideas db).
Definition analyzed_hashes (db : database) : list string := omap a_hash (analyzed_ideas db).

(** No id of [analyzed_ideas] is beyond the AUTOINCREMENT counter. *)
Definition ids_issued (db : database) : Prop :=
  ∀ r, r ∈ analyzed_ideas db → (a_id r ≤ analyzed_ideas_seq db)%Z.

(** An idea the SQLite raw store cannot take: it has no ["raw_content"] key
    or its title is [None]. *)
Definition unstorable (idea : Idea) : Prop :=
  idea !! "raw_content" = None ∨ idea !! "title" = Some VNone.

End StoreSpec.

(** ** The vocabulary of the statements about the notifier and the Reddit scraper *)

Module NotifySpec.
Import Py Notify.

(** Telegram cannot be used: a credential is missing or empty, or the bot
    cannot be built from the token. *)
Definition telegram_unavailable {R} `{Store.Environment R} {B T} `{Telegram B T} : Prop :=
  unset (Store.environ !! "TELEGRAM_BOT_TOKEN") = true ∨
  unset (Store.environ !! "TELEGRAM_CHAT_ID") = true ∨
  ∃ e, Bot (default "" (Store.environ !! "TELEGRAM_BOT_TOKEN")) = Raise e.

(** The outcome of a call that did nothing: 0, or the exception the
    selection of the ideas raised. *)
Definition nothing_sent (outcome : result Z) : Prop :=
  outcome = Ok 0%Z ∨ ∃ e, outcome = Raise e.

Definition space_free (s : string) : Prop := ¬ In " "%char (list_ascii_of_string s).

End NotifySpec.

Module RedditSpec.
Import Py Reddit.

(** What the comment at position [i] of the first five adds to the
    description: a numbered block when it has a body and more than five
    points, nothing otherwise. *)
Definition comment_block `{Format} (i : nat) (c : comment) : string :=
  match body c with
  | Some text =>
      if (5 <? comment_score c)%Z
      then nl +:+ "---" +:+ nl +:+ "Commento " +:+ format_value (VInt (Z.of_nat i + 1))
           +:+ ": " +:+ text
      else ""
  | None => ""
  end.

(** The blocks of the comments from position [i] on, end to end. *)
Fixpoint comment_blocks `{Format} (i : nat) (cs : list comment) : string :=
  match cs with
  | [] => ""
  | c :: rest => comment_block i c +:+ comment_blocks (S i) rest
  end.

End RedditSpec.

(** ** Stand-ins for the external libraries, used to run the model *)

Module Samples.
Import Py.

(** A crude ratio: 100 on equal strings, 0 on different ones, an exception
    on anything that is not a string. *)
#[local] Instance sample_fuzz : Process.Fuzz := {
  Process.fuzz_ratio a b :=
    match a, b with
    | VStr s, VStr t => Ok (if bool_decide (s = t) then 100%Z else 0%Z)
    | _, _ => Raise TypeError
    end;
}.

(** A parser that knows the empty object only. *)
#[local] Instance sample_json : Json := {
  json_loads s := if bool_decide (s = "{}") then Ok (VDict ∅) else Raise JSONDecodeError;
  json_dumps _ := "{}";
}.

#[local] Instance sample_format : Format := {
  format_other _ := "None";
}.

Definition reply (status : Z) (response : string) : Process.http_response :=
  {| Process.status_code := status;
     Process.text := response;
     Process.json := Ok (VDict {[ "response" := VStr response ]}) |}.

(** A backend that answers the first call with an object wrapped in prose,
    the second with a server error, fails to be reached on the third, and
    answers prose without an object from then on. *)
#[local] Instance sample_world : Process.World := {
  Process.requests_post n _ :=
    match n with
    | 0 => Ok (reply 200 "Sure: {} as asked")
    | 1 => Ok (reply 500 "overloaded")
    | 2 => Raise (LibraryError "requests")
    | _ => Ok (reply 200 "no object here")
    end;
  Process.now_isoformat _ := "2024-05-01T10:00:00";
}.

Definition titled (title hash : string) : gmap string value :=
  <["title" := VStr title]> (<["description" := VStr "text"]> (<["hash" := VStr hash]> ∅)).

Definition described (title description hash : string) : gmap string value :=
  <["title" := VStr title]>
  (<["description" := VStr description]> (<["hash" := VStr hash]> ∅)).

(** Two ideas about the same product, and a ratio that scores their titles
    97 and their descriptions 57, in either order; on other texts it is
    the crude ratio. *)
Definition reminders : gmap string value :=
  described "Invoice reminders for freelancers" "Chases unpaid invoices by email" "f1".

Definition reminders_again : gmap string value :=
  described "Invoice reminders for Freelancers" "Automatic nudges for unpaid invoices" "f2".

Definition either_way (x y s t : string) : bool :=
  (bool_decide (s = x) && bool_decide (t = y)) || (bool_decide (s = y) && bool_decide (t = x)).

#[local] Instance tie_fuzz : Process.Fuzz := {
  Process.fuzz_ratio a b :=
    match a, b with
    | VStr s, VStr t =>
        Ok (if either_way "Invoice reminders for freelancers"
                          "Invoice reminders for Freelancers" s t then 97%Z
            else if either_way "Chases unpaid invoices by email"
                               "Automatic nudges for unpaid invoices" s t then 57%Z
            else if bool_decide (s = t) then 100%Z else 0%Z)
    | _, _ => Raise TypeError
    end;
}.

(** A raw row, by its id, creation time and fingerprint. *)
Definition raw_row_at (id created : Z) (hash : string) : Store.raw_row :=
  {| Store.r_id := id; Store.r_title := Store.SqlText "t";
     Store.r_description := Store.SqlText "d"; Store.r_url := Store.SqlText "u";
     Store.r_source := Store.SqlText "s"; Store.r_timestamp := Store.SqlText "ts";
     Store.r_hash := Some hash; Store.r_raw_content := Store.SqlText "{}";
     Store.r_created_at := created |}.

Definition db_of (rows : list Store.raw_row) : Store.database :=
  {| Store.raw_ideas := rows; Store.raw_ideas_seq := Z.of_nat (length rows);
     Store.analyzed_ideas := []; Store.analyzed_ideas_seq := 0 |}.

(** 31 January 2024, 12:00:00. *)
Definition noon_of_31_january : Store.clock :=
  {| Store.local_now := 1706702400; Store.utc_now := 1706702400 |}.

(** A machine without Supabase credentials, whose disk works. *)
#[local] Instance no_credentials : Store.Environment () := {
  Store.environ := ∅;
  Store.create_client _ _ := Ok ();
  Store.DATA_DIR := "/app/data";
  Store.path_join a b := a +:+ "/" +:+ b;
  Store.path_dirname _ := "/app/data";
  Store.makedirs _ := Ok ();
  Store.sqlite3_connect _ := Ok (db_of []);
  Store.create_schema db := Ok db;
}.

(** The same machine with a database file that cannot be opened. *)
#[local] Instance no_credentials_no_file : Store.Environment () := {
  Store.environ := ∅;
  Store.create_client _ _ := Ok ();
  Store.DATA_DIR := "/app/data";
  Store.path_join a b := a +:+ "/" +:+ b;
  Store.path_dirname _ := "/app/data";
  Store.makedirs _ := Ok ();
  Store.sqlite3_connect _ := Raise (LibraryError "sqlite3");
  Store.create_schema db := Ok db;
}.

#[local] Instance sample_sqlite : Store.Sqlite := {
  Store.numeric_text _ := "0";
}.

#[local] Instance sample_datetime : Store.Datetime := {
  Store.isoformat _ := "2024-05-01T10:00:00";
}.

(** A calendar that knows one moment, noon of 1 January 2024, and a row of
    the hosted table by its time of creation. *)
#[local] Instance january_datetime : Store.Datetime := {
  Store.isoformat t :=
    if (t =? 1704110400)%Z then "2024-01-01T12:00:00" else "2024-05-01T10:00:00";
}.

Definition created_on (created_at : string) : gmap string value :=
  <["title" := VStr "t"]> (<["hash" := VStr "h"]> (<["created_at" := VStr created_at]> ∅)).

(** A hosted service whose tables are as [_ensure_supabase_tables] lists
    them, where nothing constrains [hash]: an insert stores the row and
    reports it back, a delete removes and reports the rows whose column
    sorts before the bound.  The state is the stored rows, each with its
    table, in insertion order. *)
#[local] Instance documented_tables : Store.Supabase (list (string * gmap string value)) := {
  Store.sb_insert table row rows := (Ok [row], rows ++ [(table, row)]);
  Store.sb_delete_lt table column bound rows :=
    let older := λ p : string * gmap string value,
      bool_decide (p.1 = table) &&
      match p.2 !! column with
      | Some (VStr v) => String.ltb v bound
      | _ => false
      end in
    (Ok ((filter (λ p, older p = true) rows).*2), filter (λ p, older p = false) rows);
}.

(** The same service with a uniqueness constraint on [hash] added to its
    tables: inserting a fingerprint the table holds is refused with an
    error. *)
#[local] Instance constrained_tables : Store.Supabase (list (string * gmap string value)) := {
  Store.sb_insert table row rows :=
    let clash := λ p : string * gmap string value,
      bool_decide (p.1 = table) &&
      match p.2 !! "hash", row !! "hash" with
      | Some (VStr a), Some (VStr b) => bool_decide (a = b)
      | _, _ => false
      end in
    if existsb clash rows then (Raise (LibraryError "postgrest"), rows)
    else (Ok [row], rows ++ [(table, row)]);
  Store.sb_delete_lt table column bound rows :=
    Store.sb_delete_lt (Supabase := documented_tables) table column bound rows;
}.

(** An idea as the normalizer makes it, and the same idea once analyzed. *)
Definition normalized (title hash : string) : gmap string value :=
  <["title" := VStr title]> (<["description" := VStr "text"]>
  (<["url" := VStr "http://x"]> (<["source" := VStr "Reddit"]>
  (<["timestamp" := VStr "2024-05-01T09:00:00"]>
  (<["raw_content" := VStr "{}"]> (<["hash" := VStr hash]> ∅)))))).

Definition with_score (score : Z) (idea : gmap string value) : gmap string value :=
  <["analysis" := VDict {[ "score" := VInt score ]}]> idea.

(** A manager connected to the SQLite database [db]. *)
Definition sqlite_manager (db : Store.database)
  : Store.DatabaseManager (list (string * gmap string value)) :=
  {| Store.self_config := ∅; Store.db_type := VStr "sqlite"; Store.supabase := None;
     Store.db_path := Some "/app/data/ideas.db"; Store.conn := Some db |}.

(** A stand-in digest: the text itself. *)
#[local] Instance sample_hashlib : Scrapers.Hashlib := {
  Scrapers.md5_hexdigest s := s;
}.

(** A raw record, by title, description and url. *)
Definition record (title description url : string) : gmap string value :=
  <["title" := VStr title]> (<["description" := VStr description]>
  (<["url" := VStr url]> ∅)).

Definition at_time (t : Z) : Store.clock :=
  {| Store.local_now := t; Store.utc_now := t |}.

(** A stand-in engine for integer scores: the rows whose score is an integer
    not below the bound, the highest first (ties in table order), cut at a
    limit that is not negative. *)
Fixpoint insert_by_score (row : Store.analyzed_row) (z : Z)
    (sorted : list (Store.analyzed_row * Z)) : list (Store.analyzed_row * Z) :=
  match sorted with
  | [] => [(row, z)]
  | (row', z') :: rest =>
      if (z' <? z)%Z then (row, z) :: sorted
      else (row', z') :: insert_by_score row z rest
  end.

Definition with_int_score (row : Store.analyzed_row) : option (Store.analyzed_row * Z) :=
  match Store.a_score row with
  | Store.SqlInt z => Some (row, z)
  | _ => None
  end.

#[local] Instance sample_read : Store.SqliteRead := {
  Store.select_top bound n rows :=
    match bound, n with
    | Store.SqlInt b, Store.SqlInt k =>
        let scored := filter (λ p, (b ≤ p.2)%Z) (omap with_int_score rows) in
        let sorted := foldr (λ p acc, insert_by_score p.1 p.2 acc) [] scored in
        Ok (if (k <? 0)%Z then sorted.*1 else take (Z.to_nat k) sorted.*1)
    | _, _ => Raise (LibraryError "sqlite3")
    end;
  Store.integer_column v := v;
  Store.timestamp_text _ := "2024-05-01 10:00:00";
}.

(** A configuration that sets the batch size and nothing else. *)
Definition with_batch_size (size : Z) : Process.config :=
  {| Process.cfg_model := None; Process.cfg_batch_size := Some size;
     Process.cfg_temperature := None; Process.cfg_max_tokens := None;
     Process.cfg_similarity_threshold := None;
     Process.cfg_min_score_threshold := None |}.

(** A serializer for three values: the empty list, the object that holds
    the score 90 and nothing else, and the empty object, which it writes
    for everything else. *)
#[local] Instance three_texts : Json := {
  json_loads s :=
    if bool_decide (s = "{}") then Ok (VDict ∅)
    else if bool_decide (s = "[]") then Ok (VList [])
    else if bool_decide (s = "{90}") then Ok (VDict {[ "score" := VInt 90 ]})
    else Raise JSONDecodeError;
  json_dumps v :=
    match v with
    | VList [] => "[]"
    | VDict d =>
        match d !! "score" with
        | Some (VInt 90) => if bool_decide (size d = 1) then "{90}" else "{}"
        | _ => "{}"
        end
    | _ => "{}"
    end;
}.

(** The table after the idea ["a"] with fingerprint ["f1"] and score 90 was
    stored at time 100. *)
Definition stored_row : Store.analyzed_row :=
  {| Store.a_id := 1; Store.a_title := Store.SqlText "a";
     Store.a_description := Store.SqlText "text"; Store.a_url := Store.SqlText "http://x";
     Store.a_source := Store.SqlText "Reddit";
     Store.a_timestamp := Store.SqlText "2024-05-01T09:00:00";
     Store.a_hash := Some "f1"; Store.a_analysis := Store.SqlText "{}";
     Store.a_score := Store.SqlInt 90; Store.a_tags := Store.SqlText "{}";
     Store.a_difficulty := Store.SqlText "medium";
     Store.a_market_potential := Store.SqlText "moderate";
     Store.a_created_at := 100 |}.

Definition stored_once : Store.database :=
  {| Store.raw_ideas := []; Store.raw_ideas_seq := 0;
     Store.analyzed_ideas := [stored_row]; Store.analyzed_ideas_seq := 1 |}.

(** A chat service that keeps what it is sent, and a bot factory that
    refuses the token ["revoked"]. *)
#[local] Instance sample_telegram : Notify.Telegram () (list (option string * string)) := {
  Notify.Bot token :=
    if bool_decide (token = "revoked") then Raise (LibraryError "telegram") else Ok ();
  Notify.send_message _ chat text chats := (Ok (), chats ++ [(chat, text)]);
}.

#[local] Instance sample_iteration : Iteration := {
  dict_keys d := (map_to_list d).*1;
}.

(** A stand-in that compares two lists by their lengths. *)
#[local] Instance sample_compare : Compare := {
  ge_lists l m := Ok (bool_decide (length m ≤ length l));
}.

(** A hosted service that has nothing to show. *)
#[local] Instance empty_service : Store.SupabaseRead () := {
  Store.sb_select_top _ _ _ _ remote := (Ok [], remote);
}.

(** A machine that holds the Telegram credentials. *)
#[local] Instance with_telegram : Store.Environment () := {
  Store.environ := <["TELEGRAM_BOT_TOKEN" := "123:abc"]> (<["TELEGRAM_CHAT_ID" := "42"]> ∅);
  Store.create_client _ _ := Ok ();
  Store.DATA_DIR := "/app/data";
  Store.path_join a b := a +:+ "/" +:+ b;
  Store.path_dirname _ := "/app/data";
  Store.makedirs _ := Ok ();
  Store.sqlite3_connect _ := Ok (Samples.db_of []);
  Store.create_schema db := Ok db;
}.

(** An idea with a score and tags. *)
Definition tagged (title : string) (score : Z) (tags : list string) : gmap string value :=
  <["title" := VStr title]>
  (<["analysis" := VDict (<["score" := VInt score]>
                          (<["tags" := VList (VStr <$> tags)]> ∅))]> ∅).

(** Two submissions, and a Reddit whose first listing breaks off after the
    first of them. *)
Definition post (title : string) (score : Z) (comments : list Reddit.comment)
  : Reddit.submission :=
  {| Reddit.title := title; Reddit.selftext := Some "text"; Reddit.score := score;
     Reddit.permalink := "/r/SaaS/1"; Reddit.created_utc := Ok "2024-05-01T10:00:00";
     Reddit.author := None; Reddit.num_comments := 2;
     Reddit.comments := Ok comments |}.

Definition remark (text : string) (score : Z) : Reddit.comment :=
  {| Reddit.body := Some text; Reddit.comment_score := score |}.

#[local] Instance sample_praw : Reddit.Praw := {
  Reddit.top n _ _ _ :=
    match n with
    | 0 => ([post "first" 50 []], Some (LibraryError "prawcore"))
    | _ => ([post "first" 50 []; post "second" 3 []], None)
    end;
}.

Definition sample_scraper : Reddit.RedditScraper :=
  {| Reddit.subreddits := ["SaaS"]; Reddit.time_filter := "week"; Reddit.limit := 100;
     Reddit.min_score := 10 |}.

(** A scraper class whose instances return one raw idea. *)
#[local] Instance one_idea_scraper : Scrapers.ScraperClass () := {
  Scrapers.__name__ := "RedditScraper";
  Scrapers.construct _ := Ok ();
  Scrapers.scraper_run _ := Ok [VDict (Samples.record "Idea" "text" "http://a")];
}.

(** A stand-in digest that is never empty: the text behind a mark. *)
#[local] Instance marked_digest : Scrapers.Hashlib := {
  Scrapers.md5_hexdigest s := "md5:" +:+ s;
}.

(** A notifier that holds a bot and the chat ["42"]. *)
Definition enabled_notifier : Notify.NotificationManager () :=
  {| Notify.self_config := Notify.NOTIFICATION_CONFIG;
     Notify.telegram_enabled := VBool true; Notify.min_score := VInt 80;
     Notify.chat_id := Some (Some "42"); Notify.bot := Some () |}.

End Samples.

(** * The model at work *)

Module Runs.
Import Py Process Store.

Example find_the_braces :
  find_char "{" "Sure: {} as asked" = 6%Z ∧ rfind_char "}" "Sure: {} as asked" = 7%Z ∧
  str_slice "Sure: {} as asked" 6 (7 + 1) = "{}" ∧
  find_char "{" "no object here" = (-1)%Z ∧ rfind_char "}" "a}b}c" = 3%Z.
Proof. repeat split; vm_compute; reflexivity. Qed.

Example keys_compare_by_value :
  key_eq (VInt 1) (VBool true) = true ∧ key_eq (VFloat 1) (VInt 1) = true ∧
  key_eq (VStr "1") (VInt 1) = false ∧ key_eq (VFloat nan) (VInt 0) = false.
Proof. repeat split; vm_compute; reflexivity. Qed.

Example scores_compare_by_value :
  ge_int (VInt 65) 65 = Ok true ∧ ge_int (VFloat 64.999999999999) 65 = Ok false ∧
  ge_int (VFloat 85.5) 85 = Ok true ∧ ge_int (VBool true) 65 = Ok false ∧
  ge_int (VFloat nan) 0 = Ok false ∧ ge_int (VStr "90") 65 = Raise TypeError ∧
  ge_int VNone 65 = Raise TypeError.
Proof. repeat split; vm_compute; reflexivity. Qed.

Example three_ideas_in_batches_of_two :
  batches_of 2 [Samples.titled "a" "1"; Samples.titled "b" "2"; Samples.titled "c" "3"]
  = Ok [[Samples.titled "a" "1"; Samples.titled "b" "2"]; [Samples.titled "c" "3"]] ∧
  batches_of 0 [Samples.titled "a" "1"] = Raise ValueError ∧
  batches_of (-1) [Samples.titled "a" "1"] = Ok [].
Proof. repeat split; vm_compute; reflexivity. Qed.

Example limits_of_the_calendar :
  minus_days 0 1000000000 = Raise OverflowError ∧
  minus_days 0 800000 = Raise OverflowError ∧
  minus_days 1706702400 30 = Ok 1704110400%Z ∧
  date 1704110400 = 19723%Z ∧ date 1704088800 = 19723%Z ∧
  date 86399 = 0%Z ∧ date (-1) = (-1)%Z.
Proof. repeat split; vm_compute; reflexivity. Qed.

(** A run over four ideas: the third repeats the fingerprint of the first,
    the second repeats its title and description; the first analysis
    succeeds with an empty object (score 0 by default), the second meets a
    server error. *)
Example a_run_of_the_processor :
  @process_ideas Samples.sample_fuzz Samples.sample_json Samples.sample_format
    Samples.sample_world (Process.__init__ None)
    [Samples.titled "a" "1"; Samples.titled "a" "2"; Samples.titled "b" "1";
     Samples.titled "c" "3"]
  = Ok ([<["analysis_timestamp" := VStr "2024-05-01T10:00:00"]>
           (<["analysis" := VDict ∅]> (Samples.titled "a" "1"));
         Samples.titled "c" "3"], []).
Proof. vm_compute. reflexivity. Qed.

Example replacing :
  str_replace " " "_" "low code tools" = "low_code_tools" ∧
  str_replace "Scraper" "" "RedditScraper" = "Reddit" ∧
  str_replace "aa" "b" "aaa" = "ba" ∧ str_replace "" "-" "ab" = "-a-b-" ∧
  str_join " " ["#a"; "#b"; "#c"] = "#a #b #c" ∧ str_join " " [] = "".
Proof. repeat split; vm_compute; reflexivity. Qed.

Example characters_and_bytes :
  str_chars "né €" = ["n"; "é"; " "; "€"] ∧ String.length "né €" = 7 ∧
  slice_to 2 (VStr "né €") = Ok (VStr "né") ∧ slice_to 9 (VStr "né €") = Ok (VStr "né €") ∧
  slice_to 0 (VStr "né €") = Ok (VStr "") ∧ slice_to 2 (VInt 5) = Raise TypeError ∧
  characters "€é" = [VStr "€"; VStr "é"] ∧ str_replace "" "-" "é€" = "-é-€-".
Proof. repeat split; vm_compute; reflexivity. Qed.

(** The same idea stored twice and another one after it: the ignored
    statement has used up the id 2. *)
Example ignored_inserts_use_up_ids :
  (r_id <$> raw_ideas
     (@_store_raw_ideas_sqlite Samples.sample_json Samples.sample_sqlite
        Samples.sample_datetime (Samples.at_time 100) (Samples.db_of [])
        [Samples.normalized "a" "f1"; Samples.normalized "a" "f1";
         Samples.normalized "b" "f2"]).1.1) = [1%Z; 3%Z] ∧
  (@_store_raw_ideas_sqlite Samples.sample_json Samples.sample_sqlite
     Samples.sample_datetime (Samples.at_time 100) (Samples.db_of [])
     [Samples.normalized "a" "f1"; Samples.normalized "a" "f1";
      Samples.normalized "b" "f2"]).2 = 2%Z.
Proof. split; vm_compute; reflexivity. Qed.

(** A limit in the year 928 (noon of 31 January 2024 less 400000 days): the
    row created on 1 June 900 stays. *)
Example a_limit_before_the_year_1000 :
  minus_days 1706702400 400000 = Ok (-32853297600)%Z ∧
  sql_date_of_limit (-32853297600) = None ∧
  _cleanup_old_raw_ideas_sqlite Samples.noon_of_31_january
    (Samples.db_of [Samples.raw_row_at 1 (-33752822400) "h"]) 400000
  = (Samples.db_of [Samples.raw_row_at 1 (-33752822400) "h"], 0%Z).
Proof. repeat split; vm_compute; reflexivity. Qed.

Example slices_and_comparisons :
  slice_upto 2 [1; 2; 3] = [1; 2] ∧ slice_upto (-1) [1; 2; 3] = [1; 2] ∧
  slice_upto (-5) [1; 2; 3] = [] ∧ slice_upto 0 [1; 2; 3] = [] ∧
  @ge_value Samples.sample_compare (VInt 80) (VInt 80) = Ok true ∧
  @ge_value Samples.sample_compare (VFloat 79.5) (VInt 80) = Ok false ∧
  @ge_value Samples.sample_compare (VInt 80) (VFloat 79.5) = Ok true ∧
  @ge_value Samples.sample_compare (VStr "9") (VStr "80") = Ok true ∧
  @ge_value Samples.sample_compare (VStr "90") (VInt 80) = Raise TypeError ∧
  @ge_value Samples.sample_compare VNone (VInt 80) = Raise TypeError.
Proof. repeat split; vm_compute; reflexivity. Qed.

(** The scraper of the samples: the first listing breaks off, the second is
    read to its end and gives one post above the minimal score. *)
Example a_run_of_the_reddit_scraper :
  (@Reddit.run Samples.sample_format Samples.sample_praw Samples.sample_scraper).2 = 2 ∧
  length (@Reddit.run Samples.sample_format Samples.sample_praw Samples.sample_scraper).1
  = 1.
Proof. split; vm_compute; reflexivity. Qed.

(** Two ideas above the minimal score and one below it, notified with a
    limit of one: one message goes out. *)
Example a_notification :
  ∃ self text,
    @Notify.__init__ () Samples.with_telegram () _ Samples.sample_telegram None = Ok self ∧
    @Notify.notify_top_ideas Samples.sample_json Samples.sample_format
      Samples.sample_iteration Samples.sample_compare Samples.sample_sqlite
      Samples.sample_read () Samples.with_telegram Samples.empty_service () _
      Samples.sample_telegram self
      (Some [Samples.tagged "a" 70 []; Samples.tagged "b" 90 ["low code"];
             Samples.tagged "c" 85 []]) 1 []
    = (Ok 1%Z, [(Some "42", text)]).
Proof. eexists _, _. split; vm_compute; reflexivity. Qed.

End Runs.

(** * Two facts about [filter] *)

Module ListFacts.

Lemma filter_agree {A} (P Q : A → Prop) `{∀ x, Decision (P x)} `{∀ x, Decision (Q x)}
    (l : list A) :
  (∀ x, x ∈ l → P x ↔ Q x) → filter P l = filter Q l.
Proof.
  induction l as [|x l IH]; intros Hall; [reflexivity|].
  rewrite !filter_cons.
  destruct (decide (P x)) as [HP|HP], (decide (Q x)) as [HQ|HQ].
  - f_equal. apply IH. intros y Hy. apply Hall. now right.
  - exfalso. apply HQ. apply (Hall x); [now left|exact HP].
  - exfalso. apply HP. apply (Hall x); [now left|exact HQ].
  - apply IH. intros y Hy. apply Hall. now right.
Qed.

Lemma length_filter_split {A} (P : A → Prop) `{∀ x, Decision (P x)} (l : list A) :
  length l = length (filter P l) + length (filter (λ x, ¬ P x) l).
Proof.
  induction l as [|x l IH]; [reflexivity|].
  rewrite !filter_cons. destruct (decide (P x)), (decide (¬ P x)); simpl; try tauto; lia.
Qed.

End ListFacts.

(** * Facts about the strings the code cuts and joins *)

Module PyFacts.
Import Py.

Lemma find_char_absent (c : ascii) (s : string) :
  ¬ In c (list_ascii_of_string s) → find_char c s = (-1)%Z.
Proof.
  induction s as [|a s IH]; intros Hn; [reflexivity|]. simpl in *.
  destruct (Ascii.eqb a c) eqn:E; [apply Ascii.eqb_eq in E; tauto|].
  rewrite IH by tauto. reflexivity.
Qed.

Lemma rfind_char_absent (c : ascii) (s : string) :
  ¬ In c (list_ascii_of_string s) → rfind_char c s = (-1)%Z.
Proof.
  induction s as [|a s IH]; intros Hn; [reflexivity|]. simpl in *.
  rewrite IH by tauto. simpl.
  destruct (Ascii.eqb a c) eqn:E; [apply Ascii.eqb_eq in E; tauto|reflexivity].
Qed.

Lemma find_char_first (c : ascii) (before after : string) :
  ¬ In c (list_ascii_of_string before) →
  find_char c (before +:+ String c after) = Z.of_nat (String.length before).
Proof.
  induction before as [|a s IH]; intros Hn; simpl in *.
  - now rewrite Ascii.eqb_refl.
  - destruct (Ascii.eqb a c) eqn:E; [apply Ascii.eqb_eq in E; tauto|].
    rewrite IH by tauto.
    destruct (Z.of_nat (String.length s) <? 0)%Z eqn:E'; [apply Z.ltb_lt in E'|]; lia.
Qed.

Lemma rfind_char_last (c : ascii) (before after : string) :
  ¬ In c (list_ascii_of_string after) →
  rfind_char c (before +:+ String c after) = Z.of_nat (String.length before).
Proof.
  intros Hn. induction before as [|a s IH]; simpl.
  - rewrite rfind_char_absent by exact Hn. simpl. now rewrite Ascii.eqb_refl.
  - rewrite IH.
    destruct (0 <=? Z.of_nat (String.length s))%Z eqn:E'; [|apply Z.leb_gt in E']; lia.
Qed.

Lemma substring_skip (a b : string) (n : nat) :
  substring (String.length a) n (a +:+ b) = substring 0 n b.
Proof. induction a as [|x a IH]; simpl; [reflexivity|exact IH]. Qed.

Lemma substring_take (a b : string) :
  substring 0 (String.length a) (a +:+ b) = a.
Proof.
  induction a as [|x a IH]; simpl; [now destruct b|]. now rewrite IH.
Qed.

Lemma length_app_string (a b : string) :
  String.length (a +:+ b) = String.length a + String.length b.
Proof. induction a as [|x a IH]; simpl; [reflexivity|now rewrite IH]. Qed.

Lemma app_string_assoc (a b c : string) : (a +:+ b) +:+ c = a +:+ (b +:+ c).
Proof.
  induction a as [|x a IH]; [reflexivity|].
  change (String x ((a +:+ b) +:+ c) = String x (a +:+ (b +:+ c))). now rewrite IH.
Qed.

(** The braces of a text [before{middle}after] where [before] holds no
    opening and [after] no closing brace. *)
Lemma braces_found (before middle after : string) :
  ¬ In "{"%char (list_ascii_of_string before) →
  ¬ In "}"%char (list_ascii_of_string after) →
  let s := before +:+ "{" +:+ middle +:+ "}" +:+ after in
  (0 ≤ find_char "{" s < rfind_char "}" s)%Z ∧
  str_slice s (find_char "{" s) (rfind_char "}" s + 1) = "{" +:+ middle +:+ "}".
Proof.
  intros Hb Ha s.
  assert (Hfind : find_char "{" s = Z.of_nat (String.length before)).
  { apply (find_char_first "{" before (middle +:+ "}" +:+ after) Hb). }
  assert (Hrfind : rfind_char "}" s
                   = Z.of_nat (String.length (before +:+ "{" +:+ middle))).
  { unfold s.
    replace (before +:+ "{" +:+ middle +:+ "}" +:+ after)
      with ((before +:+ "{" +:+ middle) +:+ String "}" after).
    - apply rfind_char_last. exact Ha.
    - rewrite app_string_assoc. simpl. reflexivity. }
  rewrite Hfind, Hrfind, length_app_string. simpl String.length.
  split; [lia|]. unfold str_slice.
  replace (Z.to_nat (Z.of_nat (String.length before)))
    with (String.length before) by lia.
  replace (Z.to_nat _) with (String.length ("{" +:+ middle +:+ "}")).
  - unfold s. rewrite substring_skip.
    replace ("{" +:+ middle +:+ "}" +:+ after)
      with (("{" +:+ middle +:+ "}") +:+ after).
    + apply substring_take.
    + change (String "{" ((middle +:+ "}") +:+ after)
              = String "{" (middle +:+ ("}" +:+ after))).
      now rewrite app_string_assoc.
  - change ("" +:+ middle) with middle.
    change ("{" +:+ middle +:+ "}") with (String "{" (middle +:+ "}")).
    simpl String.length. rewrite length_app_string. simpl String.length. lia.
Qed.

Lemma app_string_nil (a : string) : a +:+ "" = a.
Proof.
  induction a as [|x a IH]; [reflexivity|].
  change (String x (a +:+ "") = String x a). now rewrite IH.
Qed.

Lemma prefix_empty (s : string) : String.prefix "" s = true.
Proof. now destruct s. Qed.

(** Cutting a string into its characters loses nothing, and a slice that
    reaches past the last character is the whole string. *)
Lemma concat_cons (c : string) (cs : list string) :
  String.concat "" (c :: cs) = c +:+ String.concat "" cs.
Proof.
  destruct cs as [|d cs]; simpl; [|reflexivity].
  induction c as [|a c IH]; [reflexivity|].
  change (String a c = String a (c +:+ "")). now rewrite <- IH.
Qed.

Lemma str_chars_rebuild (s : string) : String.concat "" (str_chars s) = s.
Proof.
  induction s as [|a s IH]; [reflexivity|].
  cbn [str_chars]. destruct (str_chars s) as [|c cs].
  - simpl in IH. subst s. reflexivity.
  - rewrite concat_cons in IH.
    destruct (match s with String b _ => continuation b | EmptyString => false end);
      rewrite !concat_cons;
      change (String a (c +:+ String.concat "" cs) = String a s); now rewrite IH.
Qed.

Lemma str_take_all (n : nat) (s : string) :
  length (str_chars s) ≤ n → str_take n s = s.
Proof. intros Hn. unfold str_take. rewrite take_ge by exact Hn. apply str_chars_rebuild. Qed.

End PyFacts.

(** * Properties of the processor *)

Module ProcessFacts.
Import Py Process ProcessSpec ListFacts.

Lemma items_snd (l : list Idea) : (items l).*2 = l.
Proof.
  induction l as [|i l IH]; [reflexivity|].
  change ((items (i :: l)).*2) with (i :: (items l).*2). now rewrite IH.
Qed.

Lemma items_app (l1 l2 : list Idea) : items (l1 ++ l2) = items l1 ++ items l2.
Proof. unfold items. apply fmap_app. Qed.

Lemma key_in_app key (m1 m2 : list (value * Idea)) :
  key_in key (m1 ++ m2) = key_in key m1 || key_in key m2.
Proof. unfold key_in. apply existsb_app. Qed.

Lemma hash_loop_filter (ideas : list Idea) : ∀ hash_map,
  hash_loop hash_map ideas
  = hash_loop hash_map (filter (λ i, truthy (idea_hash i) = true) ideas).
Proof.
  induction ideas as [|i ideas IH]; intros hm; [reflexivity|].
  destruct (truthy (idea_hash i)) eqn:Ht.
  - rewrite filter_cons_True by exact Ht. simpl. fold (idea_hash i). rewrite Ht.
    destruct (hashable (idea_hash i)); [|reflexivity].
    destruct (key_in (idea_hash i) hm); apply IH.
  - rewrite filter_cons_False by (rewrite Ht; discriminate).
    simpl. fold (idea_hash i). rewrite Ht. apply IH.
Qed.

Lemma hash_loop_fresh (l : list Idea) : ∀ seen,
  fresh_keys seen l → hash_loop seen l = Ok (seen ++ items l).
Proof.
  induction l as [|c l IH]; intros seen Hf; simpl.
  - now rewrite app_nil_r.
  - destruct Hf as (Ht & Hh & Hk & Hf). fold (idea_hash c).
    rewrite Ht, Hh, Hk. rewrite (IH _ Hf). now rewrite <- app_assoc.
Qed.

Lemma hash_loop_inv (ideas : list Idea) : ∀ seen hash_map,
  hash_loop seen ideas = Ok hash_map →
  ∃ new, hash_map = seen ++ items new ∧ fresh_keys seen new ∧ sublist new ideas.
Proof.
  induction ideas as [|i ideas IH]; intros seen hm; simpl.
  - intros [= <-]. exists []. simpl. rewrite app_nil_r. repeat split. constructor.
  - fold (idea_hash i). destruct (truthy (idea_hash i)) eqn:Ht.
    + destruct (hashable (idea_hash i)) eqn:Hh; [|discriminate].
      destruct (key_in (idea_hash i) seen) eqn:Hk; intros Hl.
      * destruct (IH _ _ Hl) as (new & -> & Hf & Hs).
        exists new. repeat split; [assumption|]. now apply sublist_cons.
      * destruct (IH _ _ Hl) as (new & -> & Hf & Hs).
        exists (i :: new). simpl. rewrite <- app_assoc. repeat split; try assumption.
        now apply sublist_skip.
    + intros Hl. destruct (IH _ _ Hl) as (new & -> & Hf & Hs).
      exists new. repeat split; [assumption|]. now apply sublist_cons.
Qed.

Lemma fresh_keys_sublist (l' l : list Idea) :
  sublist l' l → ∀ seen seen',
  (∀ key, key_in key seen' = true → key_in key seen = true) →
  fresh_keys seen l → fresh_keys seen' l'.
Proof.
  induction 1 as [|c l' l Hs IH|c l' l Hs IH]; intros seen seen' Hsub Hf.
  - exact I.
  - destruct Hf as (Ht & Hh & Hk & Hf). simpl. repeat split; try assumption.
    + destruct (key_in (idea_hash c) seen') eqn:E; [|reflexivity].
      apply Hsub in E. congruence.
    + apply (IH (seen ++ [(idea_hash c, c)])); [|assumption].
      intros key. rewrite !key_in_app. intros [E|E]%orb_true_iff.
      * rewrite (Hsub _ E). reflexivity.
      * rewrite E. apply orb_true_r.
  - destruct Hf as (_ & _ & _ & Hf).
    apply (IH (seen ++ [(idea_hash c, c)])); [|assumption].
    intros key E. rewrite key_in_app, (Hsub _ E). reflexivity.
Qed.

Lemma fuzzy_loop_stable `{Fuzz} self (l : list Idea) : ∀ accepted,
  stable self accepted l → fuzzy_loop self accepted l = Ok (accepted ++ l).
Proof.
  induction l as [|c l IH]; intros acc Hs; simpl.
  - now rewrite app_nil_r.
  - destruct Hs as [Hd Hs]. rewrite Hd. simpl.
    rewrite (IH _ Hs). now rewrite <- app_assoc.
Qed.

Lemma fuzzy_loop_inv `{Fuzz} self (l : list Idea) : ∀ accepted out,
  fuzzy_loop self accepted l = Ok out →
  ∃ kept, out = accepted ++ kept ∧ stable self accepted kept ∧ sublist kept l.
Proof.
  induction l as [|c l IH]; intros acc out; simpl.
  - intros [= <-]. exists []. rewrite app_nil_r. repeat split. constructor.
  - destruct (is_duplicate self c acc) as [[|]|e] eqn:Hd; simpl; try discriminate.
    + intros Hl. destruct (IH _ _ Hl) as (kept & -> & Hs & Hsub).
      exists kept. repeat split; [assumption|]. now apply sublist_cons.
    + intros Hl. destruct (IH _ _ Hl) as (kept & -> & Hs & Hsub).
      exists (c :: kept). rewrite <- app_assoc. repeat split; try assumption.
      now apply sublist_skip.
Qed.

Lemma fuzzy_loop_app `{Fuzz} self (l1 l2 : list Idea) : ∀ accepted,
  fuzzy_loop self accepted (l1 ++ l2)
  = fuzzy_loop self accepted l1 ≫= λ accepted', fuzzy_loop self accepted' l2.
Proof.
  induction l1 as [|c l1 IH]; intros acc; simpl; [reflexivity|].
  destruct (is_duplicate self c acc) as [[|]|e]; simpl; auto.
Qed.

Lemma fresh_keys_truthy (l : list Idea) : ∀ seen,
  fresh_keys seen l → ∀ i, i ∈ l → truthy (idea_hash i) = true.
Proof.
  induction l as [|c l IH]; intros seen Hf i Hi.
  - inversion Hi.
  - destruct Hf as (Ht & _ & _ & Hf).
    apply elem_of_cons in Hi as [->|Hi]; [exact Ht|]. exact (IH _ Hf _ Hi).
Qed.

(** What [_deduplicate_ideas] returns, read through the two stages. *)
Lemma dedup_inv `{Fuzz} self (ideas out : list Idea) :
  _deduplicate_ideas self ideas = Ok out →
  ∃ new, hash_loop [] ideas = Ok (items new) ∧ fresh_keys [] new ∧
         sublist new ideas ∧ fuzzy_loop self [] new = Ok out ∧
         stable self [] out ∧ sublist out new.
Proof.
  destruct ideas as [|i ideas].
  - intros [= <-]. exists []. repeat split; constructor.
  - unfold _deduplicate_ideas.
    destruct (hash_loop [] (i :: ideas)) as [hm|e] eqn:Hh; [|discriminate].
    destruct (hash_loop_inv _ _ _ Hh) as (new & -> & Hf & Hs).
    simpl. rewrite items_snd. intros Hl.
    destruct (fuzzy_loop_inv _ _ _ _ Hl) as (kept & -> & Hst & Hsub).
    exists new. repeat split; assumption.
Qed.

(** C9. The exact stage drops every idea whose ["hash"] is absent, [None] or
    empty (or falsy in any other way): such ideas have a falsy fingerprint,
    both stages run as if they were not in the input, no idea of the output
    has a falsy fingerprint, and an input without a truthy fingerprint
    yields the empty list. *)
Theorem dedup_drops_ideas_without_hash `{Fuzz} (self : IdeaProcessor) (ideas : list Idea) :
  (∀ idea, no_fingerprint idea → truthy (idea_hash idea) = false) ∧
  hash_loop [] ideas = hash_loop [] (filter (λ i, truthy (idea_hash i) = true) ideas) ∧
  _deduplicate_ideas self ideas
  = _deduplicate_ideas self (filter (λ i, truthy (idea_hash i) = true) ideas) ∧
  (∀ out, _deduplicate_ideas self ideas = Ok out →
          ∀ i, i ∈ out → truthy (idea_hash i) = true) ∧
  ((∀ i, i ∈ ideas → truthy (idea_hash i) = false) →
   _deduplicate_ideas self ideas = Ok []).
Proof.
  assert (Heq : _deduplicate_ideas self ideas
    = _deduplicate_ideas self (filter (λ i, truthy (idea_hash i) = true) ideas)).
  { destruct ideas as [|i ideas]; [reflexivity|].
    unfold _deduplicate_ideas at 1. rewrite hash_loop_filter.
    destruct (filter _ (i :: ideas)) as [|j l]; reflexivity. }
  split; [|split; [|split; [|split]]].
  - intros idea [E|[E|E]]; unfold idea_hash, dict_get; rewrite E; reflexivity.
  - apply hash_loop_filter.
  - exact Heq.
  - intros out Hout i Hi.
    destruct (dedup_inv _ _ _ Hout) as (new & _ & Hf & _ & _ & _ & Hsub).
    apply (fresh_keys_truthy _ _ Hf). eapply elem_of_sublist; eassumption.
  - intros Hall. rewrite Heq.
    replace (filter _ ideas) with (@nil Idea); [reflexivity|].
    symmetry. clear Heq. induction ideas as [|i ideas IH]; [reflexivity|].
    rewrite filter_cons_False.
    + apply IH. intros j Hj. apply Hall. now right.
    + rewrite (Hall i) by now left. discriminate.
Qed.

(** The last clause of C9 on three ideas: no ["hash"] key, [None], and the
    empty string. *)
Lemma dedup_drops_ideas_without_hash_witness :
  @_deduplicate_ideas Samples.sample_fuzz (__init__ None)
    [ {[ "title" := VStr "a" ]};
      <["hash" := VNone]> {[ "title" := VStr "b" ]};
      <["hash" := VStr ""]> {[ "title" := VStr "c" ]} ] = Ok [].
Proof.
  apply (proj2 (proj2 (proj2 (proj2
    (@dedup_drops_ideas_without_hash Samples.sample_fuzz (__init__ None) _))))).
  intros i Hi. repeat (apply elem_of_cons in Hi as [->|Hi]; [vm_compute; reflexivity|]).
  inversion Hi.
Defined.

Lemma hash_loop_same_key (h : string) (first : Idea) (rest : list Idea) :
  (∀ i, i ∈ rest → i !! "hash" = Some (VStr h)) →
  hash_loop [(VStr h, first)] rest = Ok [(VStr h, first)].
Proof.
  induction rest as [|i rest IH]; intros Hall; [reflexivity|].
  simpl. unfold dict_get. rewrite (Hall i) by now left.
  destruct (truthy (VStr h)); [|apply IH; intros j Hj; apply Hall; now right].
  simpl. rewrite bool_decide_eq_true_2 by reflexivity. simpl.
  apply IH. intros j Hj. apply Hall. now right.
Qed.

(** C7. When all ideas of a non-empty input carry the same fingerprint, the
    deduplicator returns the first idea alone; and it is idempotent:
    deduplicating its own output changes nothing (and an input on which it
    raises keeps raising). *)
Theorem dedup_same_fingerprint_and_idempotent `{Fuzz} (self : IdeaProcessor) :
  (∀ (h : string) (first : Idea) (rest : list Idea),
     h ≠ "" →
     (∀ i, i ∈ first :: rest → i !! "hash" = Some (VStr h)) →
     _deduplicate_ideas self (first :: rest) = Ok [first]) ∧
  (∀ x : list Idea,
     _deduplicate_ideas self x ≫= _deduplicate_ideas self = _deduplicate_ideas self x) ∧
  (∀ x y : list Idea,
     _deduplicate_ideas self x = Ok y → _deduplicate_ideas self y = Ok y).
Proof.
  assert (Hidem : ∀ x y : list Idea,
     _deduplicate_ideas self x = Ok y → _deduplicate_ideas self y = Ok y).
  { intros x y Hy.
    destruct (dedup_inv _ _ _ Hy) as (new & _ & Hf & _ & _ & Hst & Hsub).
    destruct y as [|c y]; [reflexivity|].
    unfold _deduplicate_ideas.
    rewrite (hash_loop_fresh _ []).
    - simpl. change ((items (c :: y)).*2) with (c :: (items y).*2).
      rewrite items_snd. exact (fuzzy_loop_stable self (c :: y) [] Hst).
    - apply (fresh_keys_sublist _ _ Hsub [] []); [tauto|assumption]. }
  split; [|split].
  - intros h first rest Hne Hall. unfold _deduplicate_ideas.
    assert (Hfirst : idea_hash first = VStr h).
    { unfold idea_hash, dict_get. rewrite (Hall first) by now left. reflexivity. }
    simpl. fold (idea_hash first). rewrite Hfirst. simpl.
    rewrite bool_decide_eq_false_2 by exact Hne. simpl.
    rewrite hash_loop_same_key by (intros i Hi; apply Hall; now right).
    reflexivity.
  - intros x. destruct (_deduplicate_ideas self x) as [y|e] eqn:Hy; [|reflexivity].
    simpl. rewrite (Hidem _ _ Hy). reflexivity.
  - exact Hidem.
Qed.

(** C7 on three ideas sharing the fingerprint ["f1"], and on the output of a
    run over two distinct ideas. *)
Lemma dedup_same_fingerprint_and_idempotent_witness :
  @_deduplicate_ideas Samples.sample_fuzz (__init__ None)
    [Samples.titled "a" "f1"; Samples.titled "b" "f1"; Samples.titled "c" "f1"]
  = Ok [Samples.titled "a" "f1"] ∧
  @_deduplicate_ideas Samples.sample_fuzz (__init__ None)
    [Samples.titled "a" "f1"; Samples.titled "b" "f2"]
  = Ok [Samples.titled "a" "f1"; Samples.titled "b" "f2"].
Proof.
  split.
  - apply (proj1 (@dedup_same_fingerprint_and_idempotent Samples.sample_fuzz (__init__ None))
             "f1"); [discriminate|].
    intros i Hi.
    repeat (apply elem_of_cons in Hi as [->|Hi]; [vm_compute; reflexivity|]).
    inversion Hi.
  - apply (proj2 (proj2 (@dedup_same_fingerprint_and_idempotent Samples.sample_fuzz
             (__init__ None)))
             [Samples.titled "a" "f1"; Samples.titled "b" "f2"; Samples.titled "a" "f1"]).
    vm_compute. reflexivity.
Defined.

(** *** The fuzzy stage, in the words of its description *)

Lemma float_of_int_percent (n : Z) :
  (0 ≤ n ≤ 100)%Z → float_of_int n = Ok (float_of_Z n).
Proof.
  intros Hn.
  assert (Hall : forallb (λ k, negb (PrimFloat.is_infinity (float_of_Z (Z.of_nat k))))
                         (seq 0 101) = true) by (vm_compute; reflexivity).
  rewrite forallb_forall in Hall. specialize (Hall (Z.to_nat n)).
  rewrite Z2Nat.id in Hall by lia. unfold float_of_int.
  destruct (PrimFloat.is_infinity (float_of_Z n)); [|reflexivity].
  discriminate Hall. apply in_seq. lia.
Qed.

(** At the default threshold the two readings of the inequality agree on
    every pair of ratios from 0 to 100 but one. *)
Lemma default_threshold_readings (t d : Z) :
  (0 ≤ t ≤ 100)%Z → (0 ≤ d ≤ 100)%Z →
  on_paper 0.85 t d = (850 <=? 7 * t + 3 * d)%Z ∧
  in_binary64 0.85 t d = on_paper 0.85 t d && negb (rounded_below t d).
Proof.
  intros Ht Hd.
  assert (Hall : forallb (λ i, forallb (λ j,
            let t := Z.of_nat i in let d := Z.of_nat j in
            Bool.eqb (on_paper 0.85 t d) (850 <=? 7 * t + 3 * d)%Z &&
            Bool.eqb (in_binary64 0.85 t d) (on_paper 0.85 t d && negb (rounded_below t d)))
            (seq 0 101)) (seq 0 101) = true) by (vm_compute; reflexivity).
  pose proof (proj1 (forallb_forall _ _) Hall (Z.to_nat t) ltac:(apply in_seq; lia)) as Hrow.
  pose proof (proj1 (forallb_forall _ _) Hrow (Z.to_nat d) ltac:(apply in_seq; lia)) as Hcell.
  cbv zeta in Hcell. rewrite !Z2Nat.id in Hcell by lia.
  apply andb_true_iff in Hcell as [H1 H2].
  apply Bool.eqb_prop in H1, H2. split; assumption.
Qed.

Section TextIdeas.
Context `{Fuzz} (self : IdeaProcessor).
Hypothesis ratio_of_strings :
  ∀ a b : string, ∃ n, fuzz_ratio (VStr a) (VStr b) = Ok n ∧ (0 ≤ n ≤ 100)%Z.

Lemma similarity_text (c u : Idea) :
  text_fields c = true → text_fields u = true →
  ∃ t d, title_ratio c u = Ok t ∧ description_ratio c u = Ok d ∧
         (0 ≤ t ≤ 100)%Z ∧ (0 ≤ d ≤ 100)%Z ∧
         similarity c u = Ok (weighted t d).
Proof.
  unfold text_fields, title_ratio, description_ratio, similarity.
  intros [Hct Hcd]%andb_true_iff [Hut Hud]%andb_true_iff.
  destruct (dict_get c "title" (VStr "")) as [| | | |ct| |]; try discriminate.
  destruct (dict_get u "title" (VStr "")) as [| | | |ut| |]; try discriminate.
  destruct (dict_get c "description" (VStr "")) as [| | | |cd| |]; try discriminate.
  destruct (dict_get u "description" (VStr "")) as [| | | |ud| |]; try discriminate.
  destruct (ratio_of_strings ct ut) as (t & Et & Ht).
  destruct (ratio_of_strings (str_take 200 cd) (str_take 200 ud)) as (d & Ed & Hd).
  exists t, d. rewrite Et. simpl. rewrite Ed. simpl.
  rewrite (float_of_int_percent t Ht), (float_of_int_percent d Hd).
  repeat split; lia.
Qed.

Lemma is_duplicate_text (c : Idea) (accepted : list Idea) :
  text_fields c = true → (∀ u, u ∈ accepted → text_fields u = true) →
  is_duplicate self c accepted = Ok (existsb (duplicate_in_binary64 self c) accepted).
Proof.
  intros Hc. induction accepted as [|u acc IH]; intros Hacc; [reflexivity|].
  destruct (similarity_text c u Hc) as (t & d & Et & Ed & _ & _ & Es); [apply Hacc; now left|].
  simpl. rewrite Es. simpl. unfold duplicate_in_binary64 at 1. rewrite Et, Ed.
  unfold in_binary64. destruct (_ <=? _)%float; [reflexivity|].
  apply IH. intros v Hv. apply Hacc. now right.
Qed.

Lemma fuzzy_loop_text (l : list Idea) : ∀ accepted,
  (∀ i, i ∈ accepted ++ l → text_fields i = true) →
  ∃ kept, fuzzy_loop self accepted l = Ok (accepted ++ kept) ∧ sublist kept l.
Proof.
  induction l as [|c l IH]; intros acc Hall.
  - exists []. rewrite app_nil_r. split; constructor.
  - simpl. rewrite is_duplicate_text.
    + simpl. destruct (existsb _ acc).
      * destruct (IH acc) as (kept & -> & Hs).
        { intros i Hi. apply Hall. apply elem_of_app in Hi as [Hi|Hi];
            apply elem_of_app; [now left|right; now right]. }
        exists kept. split; [reflexivity|now apply sublist_cons].
      * destruct (IH (acc ++ [c])) as (kept & -> & Hs).
        { intros i Hi. apply Hall. rewrite <- app_assoc in Hi. exact Hi. }
        exists (c :: kept). rewrite <- app_assoc. split; [reflexivity|now apply sublist_skip].
    + apply Hall. apply elem_of_app. right. now left.
    + intros u Hu. apply Hall. apply elem_of_app. now left.
Qed.

(** C1, amended.  The fuzzy stage scans its input in order.  After the ideas
    [pre], the candidate [c] is compared with the ideas accepted from [pre]
    only: it is dropped when it duplicates one of them and appended to the
    accepted ideas otherwise, whatever comes later.  To duplicate is to
    reach [similarity_threshold x 100] with the weighted similarity
    [0.7 x title ratio + 0.3 x ratio of the first 200 characters of the
    descriptions] as binary64 computes it, which is the similarity the
    code holds.  At the default threshold 0.85 that is the inequality on
    paper, [7 t + 3 d >= 850], for every pair of ratios but 97 and 57,
    which weigh 85 on paper and less once rounded.  (Ideas hold strings as
    title and description and the ratio of two strings is a score from 0
    to 100.) *)
Theorem fuzzy_stage_first_seen_wins (pre : list Idea) (c : Idea) :
  (∀ i, i ∈ pre ++ [c] → text_fields i = true) →
  ∃ accepted,
    fuzzy_loop self [] pre = Ok accepted ∧ sublist accepted pre ∧
    (existsb (duplicate_in_binary64 self c) accepted = true
     ↔ ∃ u, u ∈ accepted ∧ duplicate_in_binary64 self c u = true) ∧
    (∀ u, u ∈ accepted →
       ∃ t d, title_ratio c u = Ok t ∧ description_ratio c u = Ok d ∧
              (0 ≤ t ≤ 100)%Z ∧ (0 ≤ d ≤ 100)%Z ∧
              similarity c u = Ok (weighted t d) ∧
              (similarity_threshold self = 0.85%float →
               duplicate_on_paper self c u = (850 <=? 7 * t + 3 * d)%Z ∧
               duplicate_in_binary64 self c u
               = duplicate_on_paper self c u && negb (rounded_below t d))) ∧
    fuzzy_loop self [] (pre ++ [c])
    = Ok (if existsb (duplicate_in_binary64 self c) accepted then accepted
          else accepted ++ [c]) ∧
    (∀ post, fuzzy_loop self [] (pre ++ c :: post)
             = fuzzy_loop self (if existsb (duplicate_in_binary64 self c) accepted
                                then accepted else accepted ++ [c]) post).
Proof.
  intros Hall.
  destruct (fuzzy_loop_text pre []) as (accepted & Hpre & Hsub).
  { intros i Hi. apply Hall. apply elem_of_app. now left. }
  simpl in Hpre.
  assert (Hc : text_fields c = true) by (apply Hall; apply elem_of_app; right; now left).
  assert (Hacc : ∀ u, u ∈ accepted → text_fields u = true).
  { intros u Hu. apply Hall. apply elem_of_app. left.
    eapply elem_of_sublist; eassumption. }
  assert (Hdup : is_duplicate self c accepted
                 = Ok (existsb (duplicate_in_binary64 self c) accepted))
    by now apply is_duplicate_text.
  exists accepted. split; [exact Hpre|]. split; [exact Hsub|].
  split; [|split; [|split]].
  - rewrite existsb_exists. split; intros (u & Hu & Hr); exists u;
      (split; [apply list_elem_of_In; exact Hu|exact Hr]).
  - intros u Hu.
    destruct (similarity_text c u Hc (Hacc u Hu)) as (t & d & Et & Ed & Ht & Hd & Es).
    exists t, d. repeat (split; [assumption|]). intros Hdefault.
    unfold duplicate_on_paper, duplicate_in_binary64. rewrite Et, Ed, Hdefault.
    apply default_threshold_readings; assumption.
  - rewrite fuzzy_loop_app, Hpre. simpl. rewrite Hdup. simpl.
    destruct (existsb _ accepted); reflexivity.
  - intros post. rewrite fuzzy_loop_app, Hpre. simpl. rewrite Hdup. simpl.
    destruct (existsb _ accepted); reflexivity.
Qed.

End TextIdeas.

(** C1 as stated fails.  The ratio scores the two titles 97 and the two
    descriptions 57: on paper [0.7 x 97 + 0.3 x 57] is 85, which reaches
    the default threshold, so the second idea duplicates the first; in
    binary64 the sum is a hair less than 85, and the deduplicator keeps
    both ideas. *)
Lemma weighted_tie_rounds_down :
  @title_ratio Samples.tie_fuzz Samples.reminders_again Samples.reminders = Ok 97%Z ∧
  @description_ratio Samples.tie_fuzz Samples.reminders_again Samples.reminders = Ok 57%Z ∧
  @duplicate_on_paper Samples.tie_fuzz (__init__ None)
    Samples.reminders_again Samples.reminders = true ∧
  weighted 97 57 = 84.999999999999986%float ∧
  @_deduplicate_ideas Samples.tie_fuzz (__init__ None)
    [Samples.reminders; Samples.reminders_again]
  = Ok [Samples.reminders; Samples.reminders_again].
Proof. repeat split; vm_compute; reflexivity. Qed.

(** C1 on a run with the crude ratio: after two different ideas, a third one
    repeating the first is dropped. *)
Lemma fuzzy_stage_first_seen_wins_witness :
  @fuzzy_loop Samples.sample_fuzz (__init__ None) []
    ([Samples.titled "a" "f1"; Samples.titled "b" "f2"] ++ [Samples.titled "a" "f3"])
  = Ok [Samples.titled "a" "f1"; Samples.titled "b" "f2"].
Proof.
  destruct (@fuzzy_stage_first_seen_wins Samples.sample_fuzz (__init__ None)
              ltac:(intros a b; eexists; split; [reflexivity|];
                    destruct (bool_decide (a = b)); lia)
              [Samples.titled "a" "f1"; Samples.titled "b" "f2"] (Samples.titled "a" "f3")
              ltac:(intros i Hi;
                    repeat (apply elem_of_cons in Hi as [->|Hi]; [vm_compute; reflexivity|]);
                    inversion Hi))
    as (accepted & Hpre & _ & _ & _ & Hrun & _).
  rewrite Hrun. injection Hpre as <-. reflexivity.
Defined.

(** *** The analysis step *)

Lemma analyze_spec `{Json, Format, World} (self : IdeaProcessor) (n : nat) (idea : Idea) :
  _analyze_idea_with_llm self n idea
  = Ok match parsed_analysis (requests_post n (request_of self idea)) with
       | Some analysis => attach (now_isoformat n) analysis idea
       | None => idea
       end.
Proof.
  unfold _analyze_idea_with_llm, mut_try, call_llm, parsed_analysis.
  unfold mbind, mut_bind, mut_get, mut_lift, mret, mut_ret.
  destruct (requests_post n (request_of self idea)) as [r|e]; [|reflexivity].
  destruct (status_code r =? 200)%Z; [|reflexivity]. simpl.
  destruct (json r) as [body|e]; [|reflexivity].
  destruct body as [| | | | | |body]; try reflexivity. simpl.
  unfold extract_analysis, mut_try, mbind, mut_bind, mut_lift, mut_modify, mut_get,
    mret, mut_ret.
  destruct (dict_get body "response" (VStr "")) as [| | | |s| |]; try reflexivity.
  simpl. destruct (_ && _); [|reflexivity].
  destruct (json_loads _) as [analysis|e]; [|destruct e; reflexivity].
  unfold attach.
  destruct (slice_to 30 _) as [?|e]; [|destruct e; reflexivity].
  destruct (attr_get analysis "score" _) as [?|e]; [|destruct e; reflexivity].
  reflexivity.
Qed.

Lemma batch_loop_spec `{Json, Format, World} self (batch : list Idea) : ∀ n processed,
  batch_loop self n processed batch
  = processed ++ imap (λ k idea, analyzed self (n + k) idea) batch.
Proof.
  induction batch as [|c batch IH]; intros n processed; simpl.
  - now rewrite app_nil_r.
  - rewrite (analyze_spec self n c), IH, <- app_assoc. simpl.
    rewrite Nat.add_0_r. unfold analyzed at 2. do 2 f_equal.
    apply imap_ext. intros k i _. simpl. f_equal. lia.
Qed.

(** C2. The analysis of an idea (one that comes without an analysis) never
    raises.  A network error, a status other than 200, or text between the
    first ["{"] and the last ["}"] that does not parse return the idea
    unchanged, without ["analysis"]; when the call succeeds and that text
    parses, the parsed object and the current time are attached.  The batch
    processor returns, in order, the analysis of each idea of its input: a
    list of the same length. *)
Theorem analysis_failure_stays_in_the_idea `{Json, Format, World}
    (self : IdeaProcessor) (n : nat) (idea : Idea) (batch : list Idea) :
  idea !! "analysis" = None →
  (∃ idea', _analyze_idea_with_llm self n idea = Ok idea') ∧
  (∀ e, requests_post n (request_of self idea) = Raise e →
        returned_without_analysis (_analyze_idea_with_llm self n idea) idea) ∧
  (∀ r, requests_post n (request_of self idea) = Ok r → status_code r ≠ 200%Z →
        returned_without_analysis (_analyze_idea_with_llm self n idea) idea) ∧
  (∀ r body s e,
     requests_post n (request_of self idea) = Ok r → status_code r = 200%Z →
     json r = Ok (VDict body) → dict_get body "response" (VStr "") = VStr s →
     json_loads (str_slice s (find_char "{" s) (rfind_char "}" s + 1)) = Raise e →
     returned_without_analysis (_analyze_idea_with_llm self n idea) idea) ∧
  (∀ r body s analysis,
     requests_post n (request_of self idea) = Ok r → status_code r = 200%Z →
     json r = Ok (VDict body) → dict_get body "response" (VStr "") = VStr s →
     (0 ≤ find_char "{" s < rfind_char "}" s)%Z →
     json_loads (str_slice s (find_char "{" s) (rfind_char "}" s + 1)) = Ok analysis →
     _analyze_idea_with_llm self n idea = Ok (attach (now_isoformat n) analysis idea) ∧
     attach (now_isoformat n) analysis idea !! "analysis" = Some analysis ∧
     attach (now_isoformat n) analysis idea !! "analysis_timestamp"
     = Some (VStr (now_isoformat n))) ∧
  length (_process_ideas_batch self n batch) = length batch ∧
  (∀ k i, batch !! k = Some i →
     ∃ i', _process_ideas_batch self n batch !! k = Some i' ∧
           _analyze_idea_with_llm self (n + k) i = Ok i').
Proof.
  intros Hnone. unfold returned_without_analysis. rewrite analyze_spec.
  split; [eexists; reflexivity|].
  split; [intros e ->; split; [reflexivity|exact Hnone]|].
  split.
  { intros r -> Hstatus. apply Z.eqb_neq in Hstatus. simpl. rewrite Hstatus.
    split; [reflexivity|exact Hnone]. }
  split.
  { intros r body s e -> Hstatus Hbody Hresponse Hparse. simpl.
    rewrite Hstatus, Hbody, Hresponse. simpl. rewrite Hparse.
    destruct (_ && _); (split; [reflexivity|exact Hnone]). }
  split.
  { intros r body s analysis -> Hstatus Hbody Hresponse [Hlo Hhi] Hparse. simpl.
    rewrite Hstatus, Hbody, Hresponse. simpl.
    apply Z.leb_le in Hlo. apply Z.ltb_lt in Hhi. rewrite Hlo, Hhi, Hparse.
    split; [reflexivity|]. unfold attach. split.
    - rewrite lookup_insert_ne by discriminate. apply lookup_insert_eq.
    - apply lookup_insert_eq. }
  unfold _process_ideas_batch. rewrite batch_loop_spec. simpl.
  split; [apply length_imap|].
  intros k i Hk. rewrite list_lookup_imap, Hk. simpl.
  eexists. split; [reflexivity|]. apply analyze_spec.
Qed.

(** C2 on the sample backend: the first idea of the batch gets its analysis,
    the second meets a server error and returns as it came. *)
Lemma analysis_failure_stays_in_the_idea_witness :
  @_process_ideas_batch Samples.sample_json Samples.sample_format Samples.sample_world
    (__init__ None) 0 [Samples.titled "a" "f1"; Samples.titled "b" "f2"]
  = [attach "2024-05-01T10:00:00" (VDict ∅) (Samples.titled "a" "f1");
     Samples.titled "b" "f2"] ∧
  length (@_process_ideas_batch Samples.sample_json Samples.sample_format
            Samples.sample_world (__init__ None) 0
            [Samples.titled "a" "f1"; Samples.titled "b" "f2"]) = 2.
Proof.
  split; [vm_compute; reflexivity|].
  apply (proj1 (proj2 (proj2 (proj2 (proj2 (proj2
    (@analysis_failure_stays_in_the_idea Samples.sample_json Samples.sample_format
       Samples.sample_world (__init__ None) 0 (Samples.titled "a" "f1")
       [Samples.titled "a" "f1"; Samples.titled "b" "f2"] eq_refl))))))).
Defined.

(** *** The relevance filter *)

Lemma is_relevant_readable (t : Z) (idea : Idea) :
  readable idea = true → is_relevant t idea = Ok (relevant t idea).
Proof.
  unfold readable, is_relevant, relevant, score_of.
  destruct (idea !! "analysis") as [[| | | | | |analysis]|]; try discriminate;
    [|reflexivity].
  simpl. destruct (dict_get analysis "score" (VInt 0)); try discriminate; reflexivity.
Qed.

Lemma relevant_loop_readable (t : Z) (ideas : list Idea) : ∀ kept,
  (∀ i, i ∈ ideas → readable i = true) →
  relevant_loop t kept ideas = Ok (kept ++ filter (λ i, relevant t i = true) ideas).
Proof.
  induction ideas as [|c ideas IH]; intros kept Hall; simpl.
  - now rewrite app_nil_r.
  - rewrite is_relevant_readable by (apply Hall; now left). simpl.
    destruct (relevant t c) eqn:Hc.
    + rewrite filter_cons_True by exact Hc.
      rewrite IH by (intros i Hi; apply Hall; now right).
      now rewrite <- app_assoc.
    + rewrite filter_cons_False by (rewrite Hc; discriminate).
      apply IH. intros i Hi. apply Hall. now right.
Qed.

(** C3, as the code has it.  On ideas whose analyses are objects with a
    numeric (or missing, read as 0) score, the filter returns exactly the
    ideas that carry an analysis whose score is at least [t], in input
    order.  With [t = 0] these are all the analyzed ideas provided no score
    is negative, and with [t = 101] there are none provided no score
    reaches 101: the scores themselves are never checked against 0..100. *)
Theorem relevance_filter_keeps_scores_from_threshold (t : Z) (ideas : list Idea) :
  (∀ i, i ∈ ideas → readable i = true) →
  relevant_loop t [] ideas = Ok (filter (λ i, relevant t i = true) ideas) ∧
  sublist (filter (λ i, relevant t i = true) ideas) ideas ∧
  (∀ i, relevant t i = true →
        is_Some (i !! "analysis") ∧ ∃ score, score_of i = Some score ∧ ge_int score t = Ok true) ∧
  ((∀ i score, i ∈ ideas → score_of i = Some score → at_least 0 score = true) →
   relevant_loop 0 [] ideas = Ok (filter (λ i, is_Some (i !! "analysis")) ideas)) ∧
  ((∀ i score, i ∈ ideas → score_of i = Some score → at_least 101 score = false) →
   relevant_loop 101 [] ideas = Ok []).
Proof.
  intros Hall. split; [|split; [|split; [|split]]].
  - apply (relevant_loop_readable t ideas [] Hall).
  - apply sublist_filter.
  - intros i. unfold relevant, score_of.
    destruct (i !! "analysis") as [[| | | | | |analysis]|]; try discriminate.
    intros Hs. split; [eexists; reflexivity|]. eexists. split; [reflexivity|].
    destruct (dict_get analysis "score" (VInt 0)); try discriminate; simpl in *;
      now rewrite Hs.
  - intros Hpos. rewrite (relevant_loop_readable 0 ideas [] Hall). simpl. f_equal.
    apply filter_agree. intros c Hc.
    specialize (Hall c Hc). specialize (Hpos c).
    unfold relevant, readable, score_of in *.
    destruct (c !! "analysis") as [[| | | | | |analysis]|]; try discriminate.
    + split; [eexists; reflexivity|]. intros _. apply (Hpos _ Hc eq_refl).
    + split; [discriminate|]. intros [? [=]].
  - intros Hlow. rewrite (relevant_loop_readable 101 ideas [] Hall). simpl. f_equal.
    rewrite (filter_agree _ (λ _, False) ideas); [clear; now induction ideas|].
    intros c Hc. split; [|tauto]. unfold relevant.
    destruct (score_of c) as [score|] eqn:Hs; [|discriminate].
    rewrite (Hlow c score Hc Hs). discriminate.
Qed.

(** The amended C3 on three ideas: a score of 90, a score of 40 and an idea
    without analysis, at the default threshold. *)
Lemma relevance_filter_keeps_scores_from_threshold_witness :
  relevant_loop 65 [] [scored 90; scored 40; Samples.titled "a" "f1"]
  = Ok (filter (λ i, relevant 65 i = true) [scored 90; scored 40; Samples.titled "a" "f1"]) ∧
  filter (λ i, relevant 65 i = true) [scored 90; scored 40; Samples.titled "a" "f1"]
  = [scored 90].
Proof.
  split; [|vm_compute; reflexivity].
  refine (proj1 (relevance_filter_keeps_scores_from_threshold 65 _ _)).
  intros i Hi.
  repeat (apply elem_of_cons in Hi as [->|Hi]; [vm_compute; reflexivity|]).
  inversion Hi.
Defined.

(** C3 as stated fails on scores outside 0..100, which nothing rules out:
    at threshold 101 an idea scored 150 is returned, and at threshold 0 an
    analyzed idea scored -5 is not. *)
Lemma relevance_filter_scores_out_of_range :
  relevant_loop 101 [] [scored 150] = Ok [scored 150] ∧
  scored (-5) !! "analysis" = Some (VDict {[ "score" := VInt (-5) ]}) ∧
  relevant_loop 0 [] [scored (-5)] = Ok [].
Proof. repeat split; vm_compute; reflexivity. Qed.

(** *** The exact stage and the batches *)

Lemma hash_loop_app (l1 l2 : list Idea) : ∀ seen,
  hash_loop seen (l1 ++ l2) = hash_loop seen l1 ≫= λ seen', hash_loop seen' l2.
Proof.
  induction l1 as [|c l1 IH]; intros seen; simpl; [reflexivity|].
  destruct (truthy _); [|apply IH].
  destruct (hashable _); [|reflexivity].
  destruct (key_in _ seen); apply IH.
Qed.

Lemma fresh_keys_split (p : list Idea) (c : Idea) (q : list Idea) : ∀ seen,
  fresh_keys seen (p ++ c :: q) →
  truthy (idea_hash c) = true ∧ key_in (idea_hash c) (seen ++ items p) = false.
Proof.
  induction p as [|a p IH]; intros seen Hf.
  - destruct Hf as (Ht & _ & Hk & _). simpl. rewrite app_nil_r. tauto.
  - destruct Hf as (_ & _ & _ & Hf). apply IH in Hf. simpl.
    rewrite <- app_assoc in Hf. exact Hf.
Qed.

Lemma key_in_other_strings (h : string) (pre : list Idea) :
  (∀ i, i ∈ pre → i !! "hash" ≠ Some (VStr h)) →
  key_in (VStr h) (items pre) = false.
Proof.
  induction pre as [|a pre IH]; intros Hall; [reflexivity|].
  simpl. rewrite IH by (intros i Hi; apply Hall; now right).
  rewrite orb_false_r. unfold key_in. simpl.
  pose proof (Hall a ltac:(now left)) as Ha. unfold idea_hash, dict_get.
  destruct (a !! "hash") as [[| | | |s| |]|]; try reflexivity.
  apply bool_decide_eq_false_2. intros ->. now apply Ha.
Qed.

(** X2. The exact stage keeps ideas in input order, each under its own
    fingerprint, no fingerprint twice; and the first idea of the input that
    carries a given non-empty string fingerprint is among those kept. *)
Theorem exact_stage_first_seen_wins (ideas : list Idea) (hash_map : list (value * Idea)) :
  hash_loop [] ideas = Ok hash_map →
  sublist hash_map.*2 ideas ∧ hash_map = items hash_map.*2 ∧
  (∀ p c q, hash_map.*2 = p ++ c :: q →
            truthy (idea_hash c) = true ∧ key_in (idea_hash c) (items p) = false) ∧
  (∀ pre idea post h,
     ideas = pre ++ idea :: post → idea !! "hash" = Some (VStr h) → h ≠ "" →
     (∀ i, i ∈ pre → i !! "hash" ≠ Some (VStr h)) →
     idea ∈ hash_map.*2).
Proof.
  intros Hloop.
  destruct (hash_loop_inv _ _ _ Hloop) as (new & -> & Hf & Hs). simpl.
  rewrite items_snd. split; [exact Hs|]. split; [reflexivity|]. split.
  - intros p c q ->. apply (fresh_keys_split p c q [] Hf).
  - intros pre idea post h -> Hh Hne Hpre.
    rewrite hash_loop_app in Hloop.
    destruct (hash_loop [] pre) as [seen|e] eqn:Hp; [|discriminate].
    destruct (hash_loop_inv _ _ _ Hp) as (kept & -> & _ & Hsub). simpl in Hloop.
    unfold dict_get in Hloop. rewrite Hh in Hloop. simpl in Hloop.
    rewrite bool_decide_eq_false_2 in Hloop by exact Hne. simpl in Hloop.
    rewrite key_in_other_strings in Hloop.
    + destruct (hash_loop_inv _ _ _ Hloop) as (more & Heq & _).
      apply (f_equal (fmap snd)) in Heq. rewrite items_snd in Heq. rewrite Heq.
      rewrite !fmap_app. apply elem_of_app. left. apply elem_of_app. right.
      simpl. now left.
    + intros i Hi. apply Hpre. eapply elem_of_sublist; eassumption.
Qed.

(** X2 on three ideas of which the last repeats the fingerprint of the
    first. *)
Lemma exact_stage_first_seen_wins_witness :
  sublist [Samples.titled "a" "f1"; Samples.titled "b" "f2"]
          [Samples.titled "a" "f1"; Samples.titled "b" "f2"; Samples.titled "c" "f1"].
Proof.
  exact (proj1 (exact_stage_first_seen_wins
    [Samples.titled "a" "f1"; Samples.titled "b" "f2"; Samples.titled "c" "f1"]
    (items [Samples.titled "a" "f1"; Samples.titled "b" "f2"]) eq_refl)).
Defined.

Lemma chunks_take (k : nat) (l : list Idea) (n : nat) :
  concat ((λ i, take k (drop i l)) <$> ((λ j, j * k) <$> seq 0 n)) = take (n * k) l.
Proof.
  induction n as [|n IH]; [reflexivity|].
  rewrite seq_S, !fmap_app, concat_app, IH. simpl. rewrite app_nil_r.
  rewrite take_take_drop. f_equal. lia.
Qed.

(** X3. With a positive batch size the batches are consecutive pieces of the
    unique ideas: put end to end they give the list back, and none is
    longer than the batch size. *)
Theorem batches_partition_the_ideas (size : Z) (unique_ideas : list Idea) :
  (0 < size)%Z →
  ∃ batches, batches_of size unique_ideas = Ok batches ∧
             concat batches = unique_ideas ∧
             Forall (λ batch, length batch ≤ Z.to_nat size) batches.
Proof.
  intros Hpos. unfold batches_of.
  destruct (size =? 0)%Z eqn:E0; [apply Z.eqb_eq in E0; lia|].
  destruct (size <? 0)%Z eqn:E1; [apply Z.ltb_lt in E1; lia|].
  eexists. split; [reflexivity|]. split.
  - rewrite chunks_take. apply take_ge.
    set (k := Z.to_nat size). assert (0 < k) by (unfold k; lia).
    pose proof (Nat.div_mod_eq (length unique_ideas + k - 1) k).
    pose proof (Nat.mod_upper_bound (length unique_ideas + k - 1) k). nia.
  - apply Forall_fmap, Forall_forall. intros i _. simpl. rewrite length_take. lia.
Qed.

(** X3 on three ideas and the default batch size. *)
Lemma batches_partition_the_ideas_witness :
  ∃ batches,
    batches_of 5 [Samples.titled "a" "f1"; Samples.titled "b" "f2"; Samples.titled "c" "f3"]
    = Ok batches ∧
    concat batches
    = [Samples.titled "a" "f1"; Samples.titled "b" "f2"; Samples.titled "c" "f3"] ∧
    Forall (λ batch, length batch ≤ Z.to_nat 5) batches.
Proof.
  apply (batches_partition_the_ideas 5). lia.
Defined.

(** *** What the deduplicator hands on *)

Lemma stable_split `{Fuzz} self (p : list Idea) (c : Idea) (q : list Idea) : ∀ accepted,
  stable self accepted (p ++ c :: q) → is_duplicate self c (accepted ++ p) = Ok false.
Proof.
  induction p as [|a p IH]; intros acc Hs; simpl in *.
  - rewrite app_nil_r. tauto.
  - destruct Hs as [_ Hs]. apply IH in Hs. rewrite <- app_assoc in Hs. exact Hs.
Qed.

Lemma is_duplicate_false `{Fuzz} self (c : Idea) (accepted : list Idea) :
  is_duplicate self c accepted = Ok false →
  ∀ u, u ∈ accepted →
    ∃ s, similarity c u = Ok s ∧
         (similarity_threshold self * float_of_Z 100 <=? s)%float = false.
Proof.
  induction accepted as [|a acc IH]; intros Hd u Hu; [inversion Hu|].
  simpl in Hd. destruct (similarity c a) as [s|e] eqn:Hs; [|discriminate]. simpl in Hd.
  destruct (_ <=? s)%float eqn:Hle; [discriminate|].
  apply elem_of_cons in Hu as [->|Hu]; [eauto|]. now apply IH.
Qed.

Lemma key_in_items_false (key : value) (p : list Idea) :
  key_in key (items p) = false → ∀ u, u ∈ p → key_eq key (idea_hash u) = false.
Proof.
  induction p as [|a p IH]; intros Hk u Hu; [inversion Hu|].
  unfold key_in in Hk. simpl in Hk. apply orb_false_iff in Hk as [Ha Hp].
  apply elem_of_cons in Hu as [->|Hu]; [exact Ha|]. now apply IH.
Qed.

(** X4. What the deduplicator returns is a selection of its input, in input
    order, in which no idea repeats or resembles an earlier one: every idea
    kept has a truthy fingerprint that equals the fingerprint of no idea
    kept before it, and its weighted similarity with each of those, a number
    that could be computed, lies below the threshold. *)
Theorem dedup_keeps_a_duplicate_free_selection `{Fuzz} (self : IdeaProcessor)
    (ideas out : list Idea) :
  _deduplicate_ideas self ideas = Ok out →
  sublist out ideas ∧
  (∀ p c q, out = p ++ c :: q →
     truthy (idea_hash c) = true ∧
     ∀ u, u ∈ p →
       key_eq (idea_hash c) (idea_hash u) = false ∧
       ∃ s, similarity c u = Ok s ∧
            (similarity_threshold self * float_of_Z 100 <=? s)%float = false).
Proof.
  intros Hout.
  destruct (dedup_inv _ _ _ Hout) as (new & _ & Hf & Hsn & _ & Hst & Hsub).
  split; [etrans; eassumption|].
  intros p c q ->.
  pose proof (fresh_keys_sublist _ _ Hsub [] [] ltac:(tauto) Hf) as Hf'.
  destruct (fresh_keys_split p c q [] Hf') as [Ht Hk]. simpl in Hk.
  split; [exact Ht|]. intros u Hu. split.
  - now apply (key_in_items_false _ p).
  - apply (is_duplicate_false self c p); [|exact Hu].
    exact (stable_split self p c q [] Hst).
Qed.

(** X4 on four ideas: the third repeats the title and description of the
    first, the fourth its fingerprint. *)
Lemma dedup_keeps_a_duplicate_free_selection_witness :
  sublist [Samples.titled "a" "f1"; Samples.titled "b" "f2"]
          [Samples.titled "a" "f1"; Samples.titled "b" "f2"; Samples.titled "a" "f3";
           Samples.titled "c" "f1"].
Proof.
  exact (proj1 (@dedup_keeps_a_duplicate_free_selection Samples.sample_fuzz (__init__ None)
    [Samples.titled "a" "f1"; Samples.titled "b" "f2"; Samples.titled "a" "f3";
     Samples.titled "c" "f1"]
    [Samples.titled "a" "f1"; Samples.titled "b" "f2"] eq_refl)).
Defined.

Lemma hash_loop_ok (ideas : list Idea) : ∀ seen,
  hash_loop seen ideas
  = if forallb usable_key ideas
    then hash_loop seen ideas else Raise TypeError.
Proof.
  induction ideas as [|i ideas IH]; intros seen; [reflexivity|].
  simpl. unfold usable_key at 1. fold (idea_hash i).
  destruct (truthy (idea_hash i)); simpl; [|apply IH].
  destruct (hashable (idea_hash i)); simpl; [|reflexivity].
  destruct (key_in _ seen); apply IH.
Qed.

Lemma hash_loop_usable (ideas : list Idea) : ∀ seen,
  forallb usable_key ideas = true → is_ok (hash_loop seen ideas) = true.
Proof.
  induction ideas as [|i ideas IH]; intros seen; [reflexivity|].
  simpl. unfold usable_key at 1. fold (idea_hash i).
  intros [Hi Hall]%andb_true_iff.
  destruct (truthy (idea_hash i)); simpl in *; [|now apply IH].
  rewrite Hi. destruct (key_in _ seen); now apply IH.
Qed.

(** X5. The exact stage raises, and [TypeError] it is, exactly when some
    idea carries a truthy fingerprint that cannot be a dict key (a list or
    a dict that is not empty); the deduplicator and the whole run then raise
    the same.  When every fingerprint is falsy or hashable the exact stage
    returns. *)
Theorem dedup_raises_on_unhashable_fingerprint `{Fuzz, Json, Format, World}
    (self : IdeaProcessor) (ideas : list Idea) :
  ((∃ i, i ∈ ideas ∧ truthy (idea_hash i) = true ∧ hashable (idea_hash i) = false)
   ↔ hash_loop [] ideas = Raise TypeError) ∧
  (hash_loop [] ideas = Raise TypeError →
   _deduplicate_ideas self ideas = Raise TypeError ∧
   process_ideas self ideas = Raise TypeError) ∧
  ((∀ i, i ∈ ideas → usable_key i = true) → is_ok (hash_loop [] ideas) = true).
Proof.
  assert (Hiff : forallb usable_key ideas = false
                 ↔ ∃ i, i ∈ ideas ∧ truthy (idea_hash i) = true ∧
                        hashable (idea_hash i) = false).
  { split.
    - intros Hf. destruct (forallb usable_key ideas) eqn:E; [discriminate|].
      clear Hf. induction ideas as [|a l IH]; [discriminate|].
      simpl in E. apply andb_false_iff in E as [E|E].
      + exists a. split; [now left|]. unfold usable_key in E.
        apply orb_false_iff in E as [E1 E2]. apply negb_false_iff in E1. tauto.
      + destruct (IH E) as (i & Hi & Hrest). exists i. split; [now right|exact Hrest].
    - intros (i & Hi & Ht & Hh).
      destruct (forallb usable_key ideas) eqn:E; [|reflexivity].
      rewrite forallb_forall in E.
      assert (Hin : In i ideas) by now apply list_elem_of_In.
      apply E in Hin. unfold usable_key in Hin. rewrite Ht, Hh in Hin. discriminate. }
  split; [|split].
  - rewrite <- Hiff. split.
    + intros E. rewrite hash_loop_ok, E. reflexivity.
    + intros Hr. destruct (forallb usable_key ideas) eqn:E; [|reflexivity].
      pose proof (hash_loop_usable ideas [] E) as Hok. rewrite Hr in Hok. discriminate.
  - intros Hr. destruct ideas as [|i ideas]; [discriminate|].
    unfold process_ideas, _deduplicate_ideas. rewrite Hr. split; reflexivity.
  - intros Hall. apply hash_loop_usable. apply forallb_forall.
    intros i Hi. apply Hall. now apply list_elem_of_In.
Qed.

(** X5 on two ideas of which the second carries a list as its fingerprint. *)
Lemma dedup_raises_on_unhashable_fingerprint_witness :
  @_deduplicate_ideas Samples.sample_fuzz (__init__ None)
    [Samples.titled "a" "f1"; <["hash" := VList [VInt 1]]> (Samples.titled "b" "f2")]
  = Raise TypeError.
Proof.
  refine (proj1 (proj1 (proj2 (@dedup_raises_on_unhashable_fingerprint Samples.sample_fuzz
    Samples.sample_json Samples.sample_format Samples.sample_world (__init__ None)
    [Samples.titled "a" "f1"; <["hash" := VList [VInt 1]]> (Samples.titled "b" "f2")])) _)).
  vm_compute. reflexivity.
Defined.

(** *** The run *)

Lemma process_batches_spec `{Json, Format, World} self (batches : list (list Idea)) :
  ∀ n all_processed,
  process_batches self n all_processed batches
  = all_processed ++ imap (λ k idea, analyzed self (n + k) idea) (concat batches).
Proof.
  induction batches as [|batch batches IH]; intros n acc; simpl.
  - now rewrite app_nil_r.
  - rewrite IH. unfold _process_ideas_batch. rewrite batch_loop_spec. simpl.
    rewrite imap_app, <- app_assoc. do 2 f_equal.
    apply imap_ext. intros k i _. simpl. f_equal. lia.
Qed.

Lemma batches_of_positive (size : Z) (unique_ideas : list Idea) :
  (0 < size)%Z →
  ∃ batches, batches_of size unique_ideas = Ok batches ∧ concat batches = unique_ideas.
Proof.
  intros Hpos. unfold batches_of.
  destruct (size =? 0)%Z eqn:E0; [apply Z.eqb_eq in E0; lia|].
  destruct (size <? 0)%Z eqn:E1; [apply Z.ltb_lt in E1; lia|].
  eexists. split; [reflexivity|].
  rewrite chunks_take. apply take_ge.
  set (k := Z.to_nat size). assert (0 < k) by (unfold k; lia).
  pose proof (Nat.div_mod_eq (length unique_ideas + k - 1) k).
  pose proof (Nat.mod_upper_bound (length unique_ideas + k - 1) k). nia.
Qed.

(** X6. The batches do not show in the result.  For a positive batch size
    the processed ideas are the unique ideas, one for one and in order, the
    [k]-th of them being what the [k]-th analysis of the run made of the
    [k]-th unique idea; the run returns them with what the relevance filter
    makes of them, or raises what the filter raises. *)
Theorem each_unique_idea_is_analyzed_once `{Fuzz, Json, Format, World}
    (self : IdeaProcessor) (raw_ideas unique_ideas : list Idea) :
  (0 < batch_size self)%Z →
  _deduplicate_ideas self raw_ideas = Ok unique_ideas →
  ∃ all_processed,
    process_ideas self raw_ideas
    = (relevant_loop (min_score_threshold self) [] all_processed
       ≫= λ relevant_ideas, Ok (all_processed, relevant_ideas)) ∧
    length all_processed = length unique_ideas ∧
    ∀ k idea, unique_ideas !! k = Some idea →
      ∃ idea', all_processed !! k = Some idea' ∧
               _analyze_idea_with_llm self k idea = Ok idea'.
Proof.
  intros Hpos Hd.
  destruct (batches_of_positive _ unique_ideas Hpos) as (batches & Hb & Hc).
  exists (imap (λ k idea, analyzed self k idea) unique_ideas).
  split; [|split].
  - destruct raw_ideas as [|i raw].
    + injection Hd as <-. reflexivity.
    + unfold process_ideas. rewrite Hd. simpl. rewrite Hb. simpl.
      rewrite process_batches_spec, Hc. reflexivity.
  - apply length_imap.
  - intros k idea Hk. rewrite list_lookup_imap, Hk. simpl.
    eexists. split; [reflexivity|]. apply analyze_spec.
Qed.

(** X6 on three ideas of which the second repeats the first, with the
    default batch size. *)
Lemma each_unique_idea_is_analyzed_once_witness :
  ∃ all_processed,
    @process_ideas Samples.sample_fuzz Samples.sample_json Samples.sample_format
      Samples.sample_world (__init__ None)
      [Samples.titled "a" "1"; Samples.titled "a" "2"; Samples.titled "c" "3"]
    = (relevant_loop 65 [] all_processed
       ≫= λ relevant_ideas, Ok (all_processed, relevant_ideas)) ∧
    length all_processed = 2 ∧
    ∀ k idea, [Samples.titled "a" "1"; Samples.titled "c" "3"] !! k = Some idea →
      ∃ idea', all_processed !! k = Some idea' ∧
               @_analyze_idea_with_llm Samples.sample_json Samples.sample_format
                 Samples.sample_world (__init__ None) k idea = Ok idea'.
Proof.
  apply (@each_unique_idea_is_analyzed_once Samples.sample_fuzz Samples.sample_json
           Samples.sample_format Samples.sample_world (__init__ None)
           [Samples.titled "a" "1"; Samples.titled "a" "2"; Samples.titled "c" "3"]
           [Samples.titled "a" "1"; Samples.titled "c" "3"]).
  - reflexivity.
  - vm_compute. reflexivity.
Defined.

(** X7. The batch size at its edges.  With a batch size of 0 a run over
    ideas that deduplicate raises [ValueError] (the step of a [range]); with
    a negative one there is no batch at all, so that no idea is analyzed
    and the run returns two empty lists, whatever came in. *)
Theorem batch_size_zero_raises_and_negative_drops `{Fuzz, Json, Format, World}
    (self : IdeaProcessor) (raw_ideas unique_ideas : list Idea) :
  raw_ideas ≠ [] →
  _deduplicate_ideas self raw_ideas = Ok unique_ideas →
  (batch_size self = 0%Z → process_ideas self raw_ideas = Raise ValueError) ∧
  ((batch_size self < 0)%Z → process_ideas self raw_ideas = Ok ([], [])).
Proof.
  intros Hne Hd. destruct raw_ideas as [|i raw]; [congruence|].
  unfold process_ideas. rewrite Hd. simpl. unfold batches_of. split.
  - intros ->. reflexivity.
  - intros Hneg. destruct (batch_size self =? 0)%Z eqn:E0; [apply Z.eqb_eq in E0; lia|].
    apply Z.ltb_lt in Hneg. rewrite Hneg. reflexivity.
Qed.

Lemma batch_size_zero_raises_and_negative_drops_witness :
  @process_ideas Samples.sample_fuzz Samples.sample_json Samples.sample_format
    Samples.sample_world (__init__ (Some (Samples.with_batch_size 0)))
    [Samples.titled "a" "1"; Samples.titled "c" "3"] = Raise ValueError ∧
  @process_ideas Samples.sample_fuzz Samples.sample_json Samples.sample_format
    Samples.sample_world (__init__ (Some (Samples.with_batch_size (-2))))
    [Samples.titled "a" "1"; Samples.titled "c" "3"] = Ok ([], []).
Proof.
  split.
  - refine (proj1 (@batch_size_zero_raises_and_negative_drops Samples.sample_fuzz
      Samples.sample_json Samples.sample_format Samples.sample_world
      (__init__ (Some (Samples.with_batch_size 0)))
      [Samples.titled "a" "1"; Samples.titled "c" "3"]
      [Samples.titled "a" "1"; Samples.titled "c" "3"] _ _) eq_refl).
    + discriminate.
    + vm_compute. reflexivity.
  - refine (proj2 (@batch_size_zero_raises_and_negative_drops Samples.sample_fuzz
      Samples.sample_json Samples.sample_format Samples.sample_world
      (__init__ (Some (Samples.with_batch_size (-2))))
      [Samples.titled "a" "1"; Samples.titled "c" "3"]
      [Samples.titled "a" "1"; Samples.titled "c" "3"] _ _) _).
    + discriminate.
    + vm_compute. reflexivity.
    + reflexivity.
Defined.

(** *** Relevance: what makes the filter raise *)

Lemma is_relevant_unreadable (t : Z) (idea : Idea) :
  readable idea = false →
  ∃ analysis, idea !! "analysis" = Some analysis ∧
    is_relevant t idea
    = Raise match analysis with VDict _ => TypeError | _ => AttributeError end.
Proof.
  unfold readable, is_relevant.
  destruct (idea !! "analysis") as [analysis|]; [|discriminate].
  intros Hr. exists analysis. split; [reflexivity|].
  destruct analysis as [| | | | | |d]; try reflexivity. simpl.
  destruct (dict_get d "score" (VInt 0)); try discriminate; reflexivity.
Qed.

(** X8. The relevance filter returns exactly when every idea is readable
    (no analysis, or an object whose score is a number or missing).  The
    first idea that is not makes it raise: [TypeError] when the score of the
    object is no number (a string such as ["85"], [None], a list), and
    [AttributeError] when the analysis is no object. *)
Theorem relevance_filter_raises_on_unreadable_analysis (t : Z) :
  (∀ ideas : list Idea,
     is_ok (relevant_loop t [] ideas) = forallb readable ideas) ∧
  (∀ (pre : list Idea) (idea : Idea) (post : list Idea),
     (∀ i, i ∈ pre → readable i = true) → readable idea = false →
     ∃ analysis, idea !! "analysis" = Some analysis ∧
       relevant_loop t [] (pre ++ idea :: post)
       = Raise match analysis with VDict _ => TypeError | _ => AttributeError end).
Proof.
  assert (Hloop : ∀ (ideas : list Idea) kept,
            is_ok (relevant_loop t kept ideas) = forallb readable ideas).
  { induction ideas as [|c ideas IH]; intros kept; [reflexivity|]. simpl.
    destruct (readable c) eqn:Hc.
    - rewrite is_relevant_readable by exact Hc. simpl.
      destruct (relevant t c); apply IH.
    - destruct (is_relevant_unreadable t c Hc) as (a & _ & ->). reflexivity. }
  split; [intros ideas; apply Hloop|].
  intros pre idea post Hpre Hidea.
  destruct (is_relevant_unreadable t idea Hidea) as (a & Ha & Hr).
  exists a. split; [exact Ha|].
  generalize (@nil Idea). induction pre as [|c pre IH]; intros kept; simpl.
  - rewrite Hr. reflexivity.
  - rewrite is_relevant_readable by (apply Hpre; now left). simpl.
    destruct (relevant t c); apply IH; intros i Hi; apply Hpre; now right.
Qed.

(** X8 on three ideas of which the second holds its score as a string. *)
Lemma relevance_filter_raises_on_unreadable_analysis_witness :
  ∃ analysis,
    (<["analysis" := VDict {[ "score" := VStr "85" ]}]> (Samples.titled "b" "f2") : Idea)
      !! "analysis" = Some analysis ∧
    relevant_loop 65 []
      ([scored 90] ++ <["analysis" := VDict {[ "score" := VStr "85" ]}]> (Samples.titled "b" "f2")
                   :: [scored 70])
    = Raise match analysis with VDict _ => TypeError | _ => AttributeError end.
Proof.
  apply (proj2 (relevance_filter_raises_on_unreadable_analysis 65)).
  - intros i Hi. apply elem_of_cons in Hi as [->|Hi]; [reflexivity|inversion Hi].
  - reflexivity.
Defined.

(** *** The text the parser is given *)

Import PyFacts.

(** X9. The analyzer reads the object out of the prose around it.  When the
    reply is [before{middle}after] with no opening brace in [before] and no
    closing brace in [after], the text handed to the parser is [{middle}]:
    its result is attached, or the idea is returned as it came when it does
    not parse.  A reply without an opening or without a closing brace
    leaves the idea as it came. *)
Theorem analysis_is_parsed_from_first_to_last_brace `{Json, Format, World}
    (self : IdeaProcessor) (n : nat) (idea : Idea) (r : http_response)
    (body : gmap string value) :
  requests_post n (request_of self idea) = Ok r → status_code r = 200%Z →
  json r = Ok (VDict body) →
  (∀ before middle after,
     dict_get body "response" (VStr "")
     = VStr (before +:+ "{" +:+ middle +:+ "}" +:+ after) →
     ¬ In "{"%char (list_ascii_of_string before) →
     ¬ In "}"%char (list_ascii_of_string after) →
     _analyze_idea_with_llm self n idea
     = Ok match json_loads ("{" +:+ middle +:+ "}") with
          | Ok analysis => attach (now_isoformat n) analysis idea
          | Raise _ => idea
          end) ∧
  (∀ s, dict_get body "response" (VStr "") = VStr s →
     ¬ In "{"%char (list_ascii_of_string s) ∨ ¬ In "}"%char (list_ascii_of_string s) →
     _analyze_idea_with_llm self n idea = Ok idea).
Proof.
  intros Hr Hstatus Hbody. rewrite analyze_spec, Hr. simpl.
  rewrite Hstatus, Hbody. simpl. split.
  - intros before middle after -> Hb Ha.
    destruct (braces_found before middle after Hb Ha) as [[Hlo Hhi] Hslice].
    apply Z.leb_le in Hlo. apply Z.ltb_lt in Hhi. rewrite Hlo, Hhi, Hslice. simpl.
    destruct (json_loads _); reflexivity.
  - intros s -> [Hn|Hn].
    + rewrite (find_char_absent _ _ Hn). reflexivity.
    + rewrite (rfind_char_absent _ _ Hn).
      destruct (0 <=? find_char "{" s)%Z eqn:E; [|reflexivity]. simpl.
      apply Z.leb_le in E.
      destruct (find_char "{" s <? -1)%Z eqn:E'; [apply Z.ltb_lt in E'; lia|reflexivity].
Qed.

(** X9 on the first reply of the sample backend, an empty object wrapped in
    prose. *)
Lemma analysis_is_parsed_from_first_to_last_brace_witness :
  @_analyze_idea_with_llm Samples.sample_json Samples.sample_format Samples.sample_world
    (__init__ None) 0 (Samples.titled "a" "f1")
  = Ok (attach "2024-05-01T10:00:00" (VDict ∅) (Samples.titled "a" "f1")).
Proof.
  refine (proj1 (@analysis_is_parsed_from_first_to_last_brace Samples.sample_json
    Samples.sample_format Samples.sample_world (__init__ None) 0 (Samples.titled "a" "f1")
    _ _ eq_refl eq_refl eq_refl) "Sure: " "" " as asked" eq_refl _ _).
  - simpl. intros Hin. repeat (destruct Hin as [Hin|Hin]; [discriminate|]). exact Hin.
  - simpl. intros Hin. repeat (destruct Hin as [Hin|Hin]; [discriminate|]). exact Hin.
Defined.

End ProcessFacts.

(** * Properties of the storage manager *)

Module StoreFacts.
Import Py Store StoreSpec ListFacts.

(** *** Cleanup *)

Lemma date_before_iff (t bound : Z) :
  (date t < date bound ↔ t < 86400 * date bound)%Z.
Proof.
  unfold date. split; intros Hlt.
  - pose proof (Z.mul_div_le t 86400). pose proof (Z.mod_pos_bound t 86400).
    pose proof (Z.div_mod t 86400). lia.
  - apply Z.div_lt_upper_bound; lia.
Qed.

Lemma minus_days_value (now days cutoff : Z) :
  minus_days now days = Ok cutoff → cutoff = (now - days * 86400)%Z.
Proof.
  unfold minus_days. destruct (_ <? _)%Z; [discriminate|].
  destruct (_ && _); [|discriminate]. now intros [= <-].
Qed.

Lemma limit_after_year_1000 (cutoff : Z) :
  (year_1000 ≤ cutoff)%Z → sql_date_of_limit cutoff = Some (date cutoff).
Proof.
  intros Hy. unfold sql_date_of_limit.
  destruct (cutoff <? year_1000)%Z eqn:E; [apply Z.ltb_lt in E; lia|reflexivity].
Qed.

Lemma limit_before_year_1000 (cutoff : Z) :
  (cutoff < year_1000)%Z → sql_date_of_limit cutoff = None.
Proof.
  intros Hy. unfold sql_date_of_limit.
  destruct (cutoff <? year_1000)%Z eqn:E; [reflexivity|apply Z.ltb_ge in E; lia].
Qed.

(** X26. The SQLite cleanup compares calendar days: it deletes exactly the
    [raw_ideas] rows created on a day before the day of [now - d days],
    that is, before that day began; the rows created later, also those
    created on that day before the limit's hour, stay.  The count returned
    is the number of rows deleted and [analyzed_ideas] is not touched.
    When the limit falls before the year 1000, or cannot be computed,
    nothing is deleted and 0 is returned. *)
Theorem cleanup_deletes_rows_of_earlier_days (clk : clock) (db : database) (days : Z) :
  (∀ cutoff, minus_days (local_now clk) days = Ok cutoff →
     cutoff = (local_now clk - days * 86400)%Z ∧
     ((year_1000 ≤ cutoff)%Z →
      raw_ideas (_cleanup_old_raw_ideas_sqlite clk db days).1
      = filter (λ r, ¬ (date (r_created_at r) < date cutoff)%Z) (raw_ideas db) ∧
      (∀ r, r ∈ raw_ideas db →
         (r ∈ raw_ideas (_cleanup_old_raw_ideas_sqlite clk db days).1
          ↔ (86400 * date cutoff ≤ r_created_at r)%Z)) ∧
      (∀ r, r ∈ raw_ideas (_cleanup_old_raw_ideas_sqlite clk db days).1 → r ∈ raw_ideas db) ∧
      (_cleanup_old_raw_ideas_sqlite clk db days).2
      = Z.of_nat (length (filter (λ r, (r_created_at r < 86400 * date cutoff)%Z)
                                 (raw_ideas db))) ∧
      (_cleanup_old_raw_ideas_sqlite clk db days).2
      = (Z.of_nat (length (raw_ideas db))
         - Z.of_nat (length (raw_ideas (_cleanup_old_raw_ideas_sqlite clk db days).1)))%Z) ∧
     ((cutoff < year_1000)%Z → _cleanup_old_raw_ideas_sqlite clk db days = (db, 0%Z))) ∧
  (∀ e, minus_days (local_now clk) days = Raise e →
     _cleanup_old_raw_ideas_sqlite clk db days = (db, 0%Z)) ∧
  analyzed_ideas (_cleanup_old_raw_ideas_sqlite clk db days).1 = analyzed_ideas db.
Proof.
  unfold _cleanup_old_raw_ideas_sqlite.
  destruct (minus_days (local_now clk) days) as [c|e] eqn:Hm.
  - split; [|split; [discriminate|destruct (sql_date_of_limit c); reflexivity]].
    intros cutoff [= <-].
    split; [exact (minus_days_value _ _ _ Hm)|]. split.
    + intros Hy. rewrite (limit_after_year_1000 c Hy). simpl.
      split; [reflexivity|]. split; [|split; [|split]].
      * intros r Hr. rewrite list_elem_of_filter, date_before_iff. split.
        -- intros [Hk _]. lia.
        -- intros Hk. split; [lia|exact Hr].
      * intros r Hr. apply list_elem_of_filter in Hr. tauto.
      * do 2 f_equal. apply filter_agree. intros r _. apply date_before_iff.
      * rewrite (length_filter_split (λ r, (date (r_created_at r) < date c)%Z)
                   (raw_ideas db)).
        lia.
    + intros Hy. rewrite (limit_before_year_1000 c Hy). reflexivity.
  - split; [discriminate|]. split; [|reflexivity]. reflexivity.
Qed.

(** X26 on rows created on 31 December at 10:00, on 1 January at 06:00 and
    on 2 January at 08:00, cleaned on 31 January 2024 at noon with a limit
    of 30 days (the limit is 1 January, 12:00): one row goes. *)
Lemma cleanup_deletes_rows_of_earlier_days_witness :
  (_cleanup_old_raw_ideas_sqlite Samples.noon_of_31_january
     (Samples.db_of [Samples.raw_row_at 1 1704016800 "h1";
                     Samples.raw_row_at 2 1704088800 "h2";
                     Samples.raw_row_at 3 1704182400 "h3"]) 30).2
  = Z.of_nat (length (filter (λ r, (r_created_at r < 86400 * date 1704110400)%Z)
       [Samples.raw_row_at 1 1704016800 "h1"; Samples.raw_row_at 2 1704088800 "h2";
        Samples.raw_row_at 3 1704182400 "h3"])) ∧
  _cleanup_old_raw_ideas_sqlite Samples.noon_of_31_january
     (Samples.db_of [Samples.raw_row_at 1 1704016800 "h1";
                     Samples.raw_row_at 2 1704088800 "h2";
                     Samples.raw_row_at 3 1704182400 "h3"]) 30
  = ({| raw_ideas := [Samples.raw_row_at 2 1704088800 "h2";
                      Samples.raw_row_at 3 1704182400 "h3"];
        raw_ideas_seq := 3; analyzed_ideas := []; analyzed_ideas_seq := 0 |}, 1%Z).
Proof.
  split; [|vm_compute; reflexivity].
  refine (proj1 (proj2 (proj2 (proj2
    (proj1 (proj2 (proj1 (cleanup_deletes_rows_of_earlier_days Samples.noon_of_31_january
                            (Samples.db_of _) 30) 1704110400%Z eq_refl)) _))))).
  vm_compute. discriminate.
Defined.

(** C4 fails on SQLite.  On 31 January 2024 at noon, with a limit of 30
    days, a row created on 1 January at 06:00 is strictly older than the
    limit (1 January, 12:00), and the SQLite cleanup keeps it and returns
    0.  The hosted sibling, run at the same moment, sends the limit with
    its hour, and a service that compares as asked removes the row created
    at 06:00 and reports it. *)
Lemma cleanup_keeps_older_row_of_the_limit_day :
  (r_created_at (Samples.raw_row_at 1 1704088800 "h")
   < local_now Samples.noon_of_31_january - 30 * 86400)%Z ∧
  _cleanup_old_raw_ideas_sqlite Samples.noon_of_31_january
    (Samples.db_of [Samples.raw_row_at 1 1704088800 "h"]) 30
  = (Samples.db_of [Samples.raw_row_at 1 1704088800 "h"], 0%Z) ∧
  @_cleanup_old_raw_ideas_supabase Samples.january_datetime _ Samples.documented_tables
    Samples.noon_of_31_january
    [("raw_ideas", Samples.created_on "2024-01-01T06:00:00")] 30
  = ([], 1%Z).
Proof. repeat split; vm_compute; reflexivity. Qed.

(** *** Construction *)

Lemma init_sqlite_steps {R} `{Environment R} (self : DatabaseManager R) :
  _init_sqlite self
  = match open_sqlite (self_config self) with
    | Ok (path, db) =>
        Ok {| self_config := self_config self; db_type := db_type self;
              supabase := supabase self; db_path := Some path; conn := Some db |}
    | Raise e => Raise e
    end.
Proof.
  unfold _init_sqlite, open_sqlite, try_except.
  destruct (attr_get _ "db_path" VNone) as [found|e]; [|reflexivity]. simpl.
  destruct (as_path _) as [path|e]; [|reflexivity]. simpl.
  destruct (makedirs _) as [[]|e]; [|reflexivity]. simpl.
  destruct (sqlite3_connect path) as [db|e]; [|reflexivity]. simpl.
  destruct (create_schema db) as [db'|e]; reflexivity.
Qed.

Lemma init_supabase_unavailable {R} `{Environment R} (self : DatabaseManager R) :
  supabase_unavailable →
  _init_supabase self
  = _init_sqlite {| self_config := self_config self; db_type := VStr "sqlite";
                    supabase := supabase self; db_path := db_path self;
                    conn := conn self |}.
Proof.
  unfold supabase_unavailable, _init_supabase, try_except.
  destruct (environ !! "SUPABASE_URL") as [url|]; [|reflexivity].
  destruct (environ !! "SUPABASE_KEY") as [key|]; [|reflexivity].
  intros [->|[->|[e He]]].
  - reflexivity.
  - rewrite orb_comm. reflexivity.
  - destruct (_ || _); [reflexivity|]. rewrite He. reflexivity.
Qed.

(** C6. A manager configured for Supabase whose client cannot be had
    (credential missing or empty, or the factory raises) is not lost: when
    the SQLite initialisation succeeds, construction completes with
    [db_type] equal to ["sqlite"] and the connection open; and whenever the
    SQLite initialisation is what runs, in the fallback or as the
    configured backend, its failure is the exception construction raises. *)
Theorem supabase_failure_falls_back_to_sqlite {R} `{Environment R}
    (config : option (gmap string value)) :
  (is_supabase (dict_get (config_or_default config) "type" (VStr "sqlite")) = true →
   supabase_unavailable →
   (∀ path db, open_sqlite (config_or_default config) = Ok (path, db) →
      __init__ config
      = Ok {| self_config := config_or_default config; db_type := VStr "sqlite";
              supabase := None; db_path := Some path; conn := Some db |}) ∧
   (∀ e, open_sqlite (config_or_default config) = Raise e → __init__ config = Raise e)) ∧
  (is_supabase (dict_get (config_or_default config) "type" (VStr "sqlite")) = false →
   ∀ e, open_sqlite (config_or_default config) = Raise e → __init__ config = Raise e) ∧
  (∀ found path e,
     attr_get (dict_get (config_or_default config) "sqlite" (VDict ∅)) "db_path" VNone
     = Ok found →
     as_path (if truthy found then found else VStr (path_join DATA_DIR "ideas.db"))
     = Ok path →
     makedirs (path_dirname path) = Raise e ∨
     (makedirs (path_dirname path) = Ok () ∧ sqlite3_connect path = Raise e) ∨
     (makedirs (path_dirname path) = Ok () ∧
      ∃ db, sqlite3_connect path = Ok db ∧ create_schema db = Raise e) →
     open_sqlite (config_or_default config) = Raise e).
Proof.
  split; [|split].
  - intros Htype Hun. unfold __init__. simpl. rewrite Htype.
    rewrite init_supabase_unavailable by exact Hun.
    rewrite init_sqlite_steps. simpl.
    split; [intros path db ->|intros e ->]; reflexivity.
  - intros Htype e He. unfold __init__. simpl. rewrite Htype.
    rewrite init_sqlite_steps. simpl. rewrite He. reflexivity.
  - intros found path e Hf Hp Hfail. unfold open_sqlite. rewrite Hf. simpl.
    rewrite Hp. simpl.
    destruct Hfail as [->|[[-> ->]|[-> (db & Hc & Hs)]]]; try reflexivity.
    simpl. rewrite Hc. simpl. rewrite Hs. reflexivity.
Qed.

(** C6 on a machine without credentials: with a working disk the default
    configuration (type ["supabase"]) yields a SQLite manager; with a
    database file that cannot be opened, construction raises. *)
Lemma supabase_failure_falls_back_to_sqlite_witness :
  @__init__ () Samples.no_credentials None
  = Ok {| self_config := @config_or_default () Samples.no_credentials None;
          db_type := VStr "sqlite"; supabase := None;
          db_path := Some "/app/data/ideas.db"; conn := Some (Samples.db_of []) |} ∧
  @__init__ () Samples.no_credentials_no_file None = Raise (LibraryError "sqlite3").
Proof.
  split.
  - refine (proj1 (proj1 (@supabase_failure_falls_back_to_sqlite () Samples.no_credentials
                            None) eq_refl I) _ _ _).
    vm_compute. reflexivity.
  - refine (proj2 (proj1 (@supabase_failure_falls_back_to_sqlite ()
                            Samples.no_credentials_no_file None) eq_refl I) _ _).
    vm_compute. reflexivity.
Defined.

(** *** Storing analyzed ideas in SQLite *)

Section SqliteRows.
Context `{Json, Sqlite, Datetime}.

Ltac run_binds :=
  repeat match goal with
         | |- context [mbind _ (attr_get ?a ?k ?d)] =>
             destruct (attr_get a k d) eqn:?; simpl; [|discriminate]
         | |- context [mbind _ (bind ?v)] =>
             destruct (bind v) eqn:?; simpl; [|discriminate]
         end.

Lemma analyzed_row_inv clk db idea db' rowcount :
  store_analyzed_row_sqlite clk db idea = Ok (db', rowcount) →
  rowcount = 1%Z ∧ raw_ideas db' = raw_ideas db ∧
  ∃ row hash, bind (dict_get idea "hash" (VStr "")) = Ok hash ∧
              analyzed_ideas db'
              = filter (λ r, same_hash (text_affinity hash) (a_hash r) = false)
                       (analyzed_ideas db) ++ [row] ∧
              a_hash row = text_affinity hash.
Proof.
  unfold store_analyzed_row_sqlite, analyzed_params. run_binds.
  unfold insert_or_replace_analyzed.
  match goal with |- context [match ?t with SqlNull => _ | _ => _ end] => destruct t end;
    try discriminate; intros [= <- <-]; simpl;
    (split; [reflexivity|split; [reflexivity|]]); eexists _, _;
    (split; [first [eassumption|reflexivity]|]); split; reflexivity.
Qed.

Lemma replaced_hash_is_single (h : string) (row : analyzed_row) (rows : list analyzed_row) :
  a_hash row = Some h →
  filter (λ r, a_hash r = Some h)
         (filter (λ r, same_hash (a_hash row) (a_hash r) = false) rows ++ [row])
  = [row].
Proof.
  intros Hrow. rewrite filter_app, filter_cons_True by exact Hrow. simpl.
  rewrite (filter_agree _ (λ _, False)); [now induction (filter _ rows)|].
  intros r [Hr _]%list_elem_of_filter. split; [|tauto].
  intros Heq. rewrite Hrow, Heq in Hr. simpl in Hr.
  rewrite bool_decide_eq_true_2 in Hr by reflexivity. discriminate.
Qed.

Lemma analyzed_loop_count clk (ideas : list Idea) : ∀ db count,
  (∀ i, i ∈ ideas → stores_without_error i) →
  (store_analyzed_loop_sqlite clk db count ideas).2
  = (count + Z.of_nat (length ideas))%Z.
Proof.
  induction ideas as [|c ideas IH]; intros db count Hall; simpl; [lia|].
  pose proof (Hall c ltac:(now left) clk db) as Hok.
  destruct (store_analyzed_row_sqlite clk db c) as [[db' rc]|e] eqn:Hrow; [|discriminate].
  destruct (analyzed_row_inv _ _ _ _ _ Hrow) as (-> & _). simpl.
  rewrite IH by (intros i Hi; apply Hall; now right). lia.
Qed.

Lemma analyzed_once clk db idea h :
  stores_without_error idea → idea !! "hash" = Some (VStr h) →
  ∃ db' row, _store_analyzed_ideas_sqlite clk db [idea] = (db', 1%Z) ∧
             analyzed_with_hash h db' = [row] ∧ raw_ideas db' = raw_ideas db.
Proof.
  intros Hok Hh. unfold _store_analyzed_ideas_sqlite. simpl.
  specialize (Hok clk db).
  destruct (store_analyzed_row_sqlite clk db idea) as [[db' rc]|e] eqn:Hrow; [|discriminate].
  destruct (analyzed_row_inv _ _ _ _ _ Hrow) as (-> & Hraw & row & hash & Hb & Hrows & Hrh).
  exists db', row. simpl. repeat split; [|exact Hraw].
  unfold dict_get in Hb. rewrite Hh in Hb. injection Hb as <-.
  rewrite <- Hrh in Hrows. simpl in Hrh.
  unfold analyzed_with_hash. rewrite Hrows. now apply replaced_hash_is_single.
Qed.

End SqliteRows.

(** C10. On a manager connected to SQLite, [store_analyzed_ideas] returns
    the number of ideas that carry an ["analysis"] key, provided no row
    raises; a stored fingerprint is replaced and counted again: storing the
    same analyzed idea twice returns 1 both times and leaves one row with
    its fingerprint. *)
Theorem store_analyzed_counts_every_row `{Json, Sqlite, Datetime} {R} `{Supabase R}
    (self : DatabaseManager R) (db : database) :
  is_supabase (db_type self) = false → conn self = Some db →
  (∀ clk (ideas : list Idea),
     (∀ i, i ∈ ideas → is_Some (i !! "analysis") → stores_without_error i) →
     ∃ self', store_analyzed_ideas clk self ideas
              = Ok (self', Z.of_nat (length (filter (λ idea : Idea,
                                                      is_Some (idea !! "analysis")) ideas)))) ∧
  (∀ clk1 clk2 (idea : Idea) (h : string),
     is_Some (idea !! "analysis") → idea !! "hash" = Some (VStr h) →
     stores_without_error idea →
     ∃ db1 db2 row,
       store_analyzed_ideas clk1 self [idea] = Ok (with_conn self db1, 1%Z) ∧
       store_analyzed_ideas clk2 (with_conn self db1) [idea]
       = Ok (with_conn (with_conn self db1) db2, 1%Z) ∧
       length (analyzed_with_hash h db1) = 1 ∧
       analyzed_with_hash h db2 = [row]).
Proof.
  intros Htype Hconn. split.
  - intros clk ideas Hall. unfold store_analyzed_ideas.
    destruct ideas as [|i0 ideas0] eqn:Hi; [eexists; reflexivity|]. rewrite <- Hi in *.
    destruct (filter _ ideas) as [|a analyzed] eqn:Hf; [eexists; reflexivity|].
    rewrite Htype. unfold cursor. rewrite Hconn. simpl.
    destruct (_store_analyzed_ideas_sqlite clk db (a :: analyzed)) as [db' n] eqn:Hs.
    exists (with_conn self db'). do 2 f_equal.
    change n with (db', n).2. rewrite <- Hs. unfold _store_analyzed_ideas_sqlite.
    rewrite analyzed_loop_count; [reflexivity|].
    intros i Hin. rewrite <- Hf in Hin. apply list_elem_of_filter in Hin as [Ha Hin].
    now apply Hall.
  - intros clk1 clk2 idea h Ha Hh Hok.
    destruct (analyzed_once clk1 db idea h Hok Hh) as (db1 & row1 & Hs1 & Hone1 & _).
    destruct (analyzed_once clk2 db1 idea h Hok Hh) as (db2 & row2 & Hs2 & Hone2 & _).
    exists db1, db2, row2. unfold store_analyzed_ideas.
    rewrite filter_cons_True, filter_nil by exact Ha.
    simpl. rewrite Htype. unfold cursor. simpl. rewrite Hconn. simpl.
    rewrite Hs1, Hs2, Hone1. repeat split. exact Hone2.
Qed.

(** C10 on an idea scored 90, stored twice in an empty database. *)
Lemma store_analyzed_counts_every_row_witness :
  ∃ db1 db2 row,
    @store_analyzed_ideas Samples.sample_json Samples.sample_sqlite Samples.sample_datetime
      _ Samples.documented_tables (Samples.at_time 100)
      (Samples.sqlite_manager (Samples.db_of []))
      [Samples.with_score 90 (Samples.normalized "a" "f1")]
    = Ok (with_conn (Samples.sqlite_manager (Samples.db_of [])) db1, 1%Z) ∧
    @store_analyzed_ideas Samples.sample_json Samples.sample_sqlite Samples.sample_datetime
      _ Samples.documented_tables (Samples.at_time 200)
      (with_conn (Samples.sqlite_manager (Samples.db_of [])) db1)
      [Samples.with_score 90 (Samples.normalized "a" "f1")]
    = Ok (with_conn (with_conn (Samples.sqlite_manager (Samples.db_of [])) db1) db2, 1%Z) ∧
    length (analyzed_with_hash "f1" db1) = 1 ∧
    analyzed_with_hash "f1" db2 = [row].
Proof.
  refine (proj2 (@store_analyzed_counts_every_row Samples.sample_json Samples.sample_sqlite
                   Samples.sample_datetime _ Samples.documented_tables
                   (Samples.sqlite_manager (Samples.db_of [])) (Samples.db_of [])
                   eq_refl eq_refl)
                (Samples.at_time 100) (Samples.at_time 200)
                (Samples.with_score 90 (Samples.normalized "a" "f1")) "f1" _ eq_refl _).
  - eexists. reflexivity.
  - intros clk db. reflexivity.
Defined.

(** *** Storing raw ideas: the two backends *)

Section SqliteRaw.
Context `{Json, Sqlite, Datetime}.

(** One raw insert either adds one row, free of conflict, or leaves the
    rows as they were; the fingerprint of the idea is not touched. *)
Lemma raw_row_inv clk db idea db' idea' outcome :
  store_raw_row_sqlite clk db idea = (db', idea', outcome) →
  idea' !! "hash" = idea !! "hash" ∧
  ((raw_ideas db' = raw_ideas db ∧ (outcome = Ok 0%Z ∨ ∃ e, outcome = Raise e)) ∨
   (outcome = Ok 1%Z ∧
    ∃ row hash, bind (dict_get idea "hash" (VStr "")) = Ok hash ∧
                existsb (λ r, same_hash (text_affinity hash) (r_hash r)) (raw_ideas db)
                = false ∧
                raw_ideas db' = raw_ideas db ++ [row] ∧
                r_hash row = text_affinity hash)).
Proof.
  unfold store_raw_row_sqlite.
  assert (Hkeep : ∀ v, (<["raw_content" := v]> idea : Idea) !! "hash" = idea !! "hash")
    by (intros v; apply lookup_insert_ne; discriminate).
  set (serialized := match dict_get idea "raw_content" VNone with
                     | VStr _ => Ok idea | _ => _ end).
  assert (Hser : serialized = Ok idea ∨ (∃ e, serialized = Raise e) ∨
                 ∃ v, serialized = Ok (<["raw_content" := v]> idea)).
  { subst serialized. destruct (dict_get idea "raw_content" VNone); auto;
      destruct (dict_item idea "raw_content"); simpl; eauto. }
  clearbody serialized.
  assert (Hgoal : ∀ idea0 : Idea, idea0 !! "hash" = idea !! "hash" →
    match raw_params clk idea0 with
    | Ok (title, description, url, source, timestamp, hash, raw_content) =>
        let '(db1, rowcount) :=
          insert_or_ignore_raw (utc_now clk) title description url source timestamp
            hash raw_content db in (db1, idea0, Ok rowcount)
    | Raise e => (db, idea0, Raise e)
    end = (db', idea', outcome) →
    idea' !! "hash" = idea !! "hash" ∧
    ((raw_ideas db' = raw_ideas db ∧ (outcome = Ok 0%Z ∨ ∃ e, outcome = Raise e)) ∨
     (outcome = Ok 1%Z ∧
      ∃ row hash, bind (dict_get idea "hash" (VStr "")) = Ok hash ∧
                  existsb (λ r, same_hash (text_affinity hash) (r_hash r)) (raw_ideas db)
                  = false ∧
                  raw_ideas db' = raw_ideas db ++ [row] ∧
                  r_hash row = text_affinity hash))).
  { intros idea0 Hh. unfold raw_params.
    replace (dict_get idea0 "hash" (VStr "")) with (dict_get idea "hash" (VStr ""))
      by (unfold dict_get; now rewrite Hh).
    repeat match goal with
           | |- context [mbind _ (bind ?v)] =>
               destruct (bind v) eqn:?; simpl;
               [|intros [= <- <- <-]; split; [exact Hh|left; split; [reflexivity|eauto]]]
           end.
    unfold insert_or_ignore_raw.
    match goal with |- context [match ?t with SqlNull => _ | _ => _ end] => destruct t end;
      try (intros [= <- <- <-]; split; [exact Hh|left; split; [reflexivity|eauto]]);
      (destruct (existsb _ (raw_ideas db)) eqn:Hex;
       [intros [= <- <- <-]; split; [exact Hh|left; split; [reflexivity|eauto]]|]);
      intros [= <- <- <-]; (split; [exact Hh|right; split; [reflexivity|]]);
      eexists _, _; (split; [reflexivity|]); (split; [exact Hex|]); split; reflexivity. }
  destruct Hser as [->|[[e ->]|[v ->]]].
  - apply Hgoal. reflexivity.
  - intros [= <- <- <-]. split; [reflexivity|left; split; [reflexivity|eauto]].
  - apply Hgoal. apply Hkeep.
Qed.

(** What the method returns on a single idea. *)
Lemma store_raw_single clk db idea :
  ∃ db' idea' outcome,
    store_raw_row_sqlite clk db idea = (db', idea', outcome) ∧
    _store_raw_ideas_sqlite clk db [idea]
    = (db', [idea'], match outcome with
                     | Ok rowcount => if (0 <? rowcount)%Z then 1%Z else 0%Z
                     | Raise _ => 0%Z
                     end).
Proof.
  unfold _store_raw_ideas_sqlite. simpl.
  destruct (store_raw_row_sqlite clk db idea) as [[db' idea'] outcome].
  exists db', idea', outcome. split; [reflexivity|].
  destruct outcome as [rc|e]; [destruct (0 <? rc)%Z|]; reflexivity.
Qed.

(** X1. On SQLite, storing the same fingerprinted idea twice adds at most
    one row in total, and the two counts add up to the rows added. *)
Lemma sqlite_store_raw_twice clk1 clk2 db idea h :
  idea !! "hash" = Some (VStr h) →
  ∃ db1 idea1 n1 db2 idea2 n2,
    _store_raw_ideas_sqlite clk1 db [idea] = (db1, [idea1], n1) ∧
    _store_raw_ideas_sqlite clk2 db1 [idea1] = (db2, [idea2], n2) ∧
    (0 ≤ n1)%Z ∧ (0 ≤ n2)%Z ∧ (n1 + n2 ≤ 1)%Z ∧
    Z.of_nat (length (raw_ideas db2))
    = (Z.of_nat (length (raw_ideas db)) + n1 + n2)%Z.
Proof.
  intros Hh.
  destruct (store_raw_single clk1 db idea) as (db1 & idea1 & o1 & Hrow1 & Hs1).
  destruct (store_raw_single clk2 db1 idea1) as (db2 & idea2 & o2 & Hrow2 & Hs2).
  eexists db1, idea1, _, db2, idea2, _. split; [exact Hs1|]. split; [exact Hs2|].
  destruct (raw_row_inv _ _ _ _ _ _ Hrow1) as [Hh1 Hcase1].
  destruct (raw_row_inv _ _ _ _ _ _ Hrow2) as [_ Hcase2].
  rewrite Hh in Hh1.
  destruct Hcase1 as [[Hr1 Ho1]|[-> (row1 & hash1 & Hb1 & Hfree1 & Hrows1 & Hrh1)]];
    destruct Hcase2 as [[Hr2 Ho2]|[-> (row2 & hash2 & Hb2 & Hfree2 & Hrows2 & _)]].
  - rewrite Hr2, Hr1. destruct Ho1 as [->|[e1 ->]], Ho2 as [->|[e2 ->]]; simpl; lia.
  - rewrite Hrows2, Hr1, length_app. destruct Ho1 as [->|[e1 ->]]; simpl; lia.
  - rewrite Hr2, Hrows1, length_app. destruct Ho2 as [->|[e2 ->]]; simpl; lia.
  - (* the row added by the first call bars the second *)
    exfalso. unfold dict_get in Hb1, Hb2. rewrite Hh in Hb1. rewrite Hh1 in Hb2.
    injection Hb1 as <-. injection Hb2 as <-. simpl in *.
    rewrite Hrows1, existsb_app in Hfree2. simpl in Hfree2. rewrite Hrh1 in Hfree2.
    simpl in Hfree2. rewrite bool_decide_eq_true_2 in Hfree2 by reflexivity.
    simpl in Hfree2. rewrite orb_true_r in Hfree2. discriminate.
Qed.

End SqliteRaw.

(** The Supabase method on the failing input of C5: the table follows the
    structure the code documents, the same fingerprinted idea is stored
    twice, both calls count 1 and the table ends with two rows of that
    fingerprint. *)
Lemma supabase_store_raw_twice_stores_two_rows :
  @_store_raw_ideas_supabase Samples.sample_json _ Samples.documented_tables []
    [Samples.normalized "a" "f1"]
  = ([("raw_ideas", <["raw_content" := VDict ∅]> (Samples.normalized "a" "f1"))],
     [<["raw_content" := VDict ∅]> (Samples.normalized "a" "f1")], 1%Z) ∧
  @_store_raw_ideas_supabase Samples.sample_json _ Samples.documented_tables
    [("raw_ideas", <["raw_content" := VDict ∅]> (Samples.normalized "a" "f1"))]
    [<["raw_content" := VDict ∅]> (Samples.normalized "a" "f1")]
  = ([("raw_ideas", <["raw_content" := VDict ∅]> (Samples.normalized "a" "f1"));
      ("raw_ideas", <["raw_content" := VDict ∅]> (Samples.normalized "a" "f1"))],
     [<["raw_content" := VDict ∅]> (Samples.normalized "a" "f1")], 1%Z).
Proof. split; vm_compute; reflexivity. Qed.

(** With a uniqueness constraint added to the hosted table the second call
    counts 0 and one row stays, by way of the error the service raises and
    the method logs. *)
Lemma supabase_store_raw_twice_under_constraint :
  @_store_raw_ideas_supabase Samples.sample_json _ Samples.constrained_tables []
    [Samples.normalized "a" "f1"]
  = ([("raw_ideas", <["raw_content" := VDict ∅]> (Samples.normalized "a" "f1"))],
     [<["raw_content" := VDict ∅]> (Samples.normalized "a" "f1")], 1%Z) ∧
  @store_raw_row_supabase Samples.sample_json _ Samples.constrained_tables
    [("raw_ideas", <["raw_content" := VDict ∅]> (Samples.normalized "a" "f1"))]
    (<["raw_content" := VDict ∅]> (Samples.normalized "a" "f1"))
  = ([("raw_ideas", <["raw_content" := VDict ∅]> (Samples.normalized "a" "f1"))],
     <["raw_content" := VDict ∅]> (Samples.normalized "a" "f1"),
     Raise (LibraryError "postgrest")) ∧
  @_store_raw_ideas_supabase Samples.sample_json _ Samples.constrained_tables
    [("raw_ideas", <["raw_content" := VDict ∅]> (Samples.normalized "a" "f1"))]
    [<["raw_content" := VDict ∅]> (Samples.normalized "a" "f1")]
  = ([("raw_ideas", <["raw_content" := VDict ∅]> (Samples.normalized "a" "f1"))],
     [<["raw_content" := VDict ∅]> (Samples.normalized "a" "f1")], 0%Z).
Proof. repeat split; vm_compute; reflexivity. Qed.

(** The same two calls on SQLite: 1, then 0, and one row. *)
Lemma sqlite_store_raw_twice_stores_one_row :
  ∃ db1 db2,
    @_store_raw_ideas_sqlite Samples.sample_json Samples.sample_sqlite
      Samples.sample_datetime (Samples.at_time 100) (Samples.db_of [])
      [Samples.normalized "a" "f1"]
    = (db1, [Samples.normalized "a" "f1"], 1%Z) ∧
    @_store_raw_ideas_sqlite Samples.sample_json Samples.sample_sqlite
      Samples.sample_datetime (Samples.at_time 200) db1 [Samples.normalized "a" "f1"]
    = (db2, [Samples.normalized "a" "f1"], 0%Z) ∧
    raw_ideas db2 = raw_ideas db1 ∧ length (raw_ideas db1) = 1.
Proof. eexists _, _. repeat split; vm_compute; reflexivity. Qed.

(** The general fact about SQLite on the sample idea, at two times. *)
Lemma sqlite_store_raw_twice_witness :
  ∃ db1 idea1 n1 db2 idea2 n2,
    @_store_raw_ideas_sqlite Samples.sample_json Samples.sample_sqlite
      Samples.sample_datetime (Samples.at_time 100) (Samples.db_of [])
      [Samples.normalized "a" "f1"] = (db1, [idea1], n1) ∧
    @_store_raw_ideas_sqlite Samples.sample_json Samples.sample_sqlite
      Samples.sample_datetime (Samples.at_time 200) db1 [idea1] = (db2, [idea2], n2) ∧
    (0 ≤ n1)%Z ∧ (0 ≤ n2)%Z ∧ (n1 + n2 ≤ 1)%Z ∧
    Z.of_nat (length (raw_ideas db2))
    = (Z.of_nat (length (raw_ideas (Samples.db_of []))) + n1 + n2)%Z.
Proof.
  exact (@sqlite_store_raw_twice Samples.sample_json Samples.sample_sqlite
           Samples.sample_datetime (Samples.at_time 100) (Samples.at_time 200)
           (Samples.db_of []) (Samples.normalized "a" "f1") "f1" eq_refl).
Defined.

(** *** What the SQLite tables keep *)

Section SqliteTables.
Context `{Json, Sqlite, Datetime}.

Lemma insert_or_ignore_raw_cases now title description url source timestamp hash
    raw_content db db' rowcount :
  insert_or_ignore_raw now title description url source timestamp hash raw_content db
  = (db', rowcount) →
  (db' = with_raw_seq (raw_ideas_seq db + 1) db ∧ rowcount = 0%Z) ∨
  (rowcount = 1%Z ∧ title ≠ SqlNull ∧
   ∃ row, raw_ideas db' = raw_ideas db ++ [row] ∧
          analyzed_ideas db' = analyzed_ideas db ∧
          analyzed_ideas_seq db' = analyzed_ideas_seq db ∧
          r_created_at row = now ∧ r_title row = title ∧
          existsb (λ r, same_hash (r_hash row) (r_hash r)) (raw_ideas db) = false).
Proof.
  unfold insert_or_ignore_raw.
  destruct title; [intros [= <- <-]; now left|..];
    (destruct (existsb _ (raw_ideas db)) eqn:Hex; [intros [= <- <-]; now left|]);
    intros [= <- <-]; right; (split; [reflexivity|]); (split; [discriminate|]);
    eexists; simpl; repeat split; exact Hex.
Qed.

Lemma raw_row_cases clk db idea db' idea' outcome :
  store_raw_row_sqlite clk db idea = (db', idea', outcome) →
  (db' = db ∧ ∃ e, outcome = Raise e) ∨
  ∃ title description url source timestamp hash raw_content rowcount,
    bind (dict_get idea' "title" (VStr "")) = Ok title ∧
    insert_or_ignore_raw (utc_now clk) title description url source timestamp hash
      raw_content db = (db', rowcount) ∧
    outcome = Ok rowcount.
Proof.
  unfold store_raw_row_sqlite.
  destruct (match dict_get idea "raw_content" VNone with
            | VStr _ => Ok idea | _ => _ end) as [idea0|e];
    [|intros [= <- <- <-]; left; eauto].
  unfold raw_params.
  destruct (bind (dict_get idea0 "title" (VStr ""))) as [title|e] eqn:Ht; simpl;
    [|intros [= <- <- <-]; left; eauto].
  repeat match goal with
         | |- context [mbind _ (bind ?v)] =>
             destruct (bind v); simpl; [|intros [= <- <- <-]; left; eauto]
         end.
  destruct (insert_or_ignore_raw _ _ _ _ _ _ _ _ _) as [db1 rc] eqn:Hins.
  intros [= <- <- <-]. right. eexists _, _, _, _, _, _, _, _.
  split; [exact Ht|]. split; [exact Hins|reflexivity].
Qed.

Lemma hash_is_new (h : option string) (rows : list raw_row) :
  existsb (λ r, same_hash h (r_hash r)) rows = false →
  ∀ s, h = Some s → s ∉ omap r_hash rows.
Proof.
  intros Hex s -> Hin. apply list_elem_of_omap in Hin as (r & Hr & Hs).
  assert (Ht : existsb (λ r, same_hash (Some s) (r_hash r)) rows = true).
  { apply existsb_exists. exists r. split; [now apply list_elem_of_In|].
    rewrite Hs. simpl. now apply bool_decide_eq_true_2. }
  congruence.
Qed.

Lemma raw_loop_inv clk (ideas : list Idea) : ∀ db count,
  ∃ added,
    raw_ideas (store_raw_loop_sqlite clk db count ideas).1.1 = raw_ideas db ++ added ∧
    (store_raw_loop_sqlite clk db count ideas).2 = (count + Z.of_nat (length added))%Z ∧
    length added ≤ length ideas ∧
    length (store_raw_loop_sqlite clk db count ideas).1.2 = length ideas ∧
    analyzed_ideas (store_raw_loop_sqlite clk db count ideas).1.1 = analyzed_ideas db ∧
    Forall (λ r, r_created_at r = utc_now clk ∧ r_title r ≠ SqlNull) added ∧
    (NoDup (omap r_hash (raw_ideas db)) → NoDup (omap r_hash (raw_ideas db ++ added))).
Proof.
  induction ideas as [|idea ideas IH]; intros db count.
  - exists []. simpl. rewrite app_nil_r. repeat split; try lia; auto.
  - simpl.
    destruct (store_raw_row_sqlite clk db idea) as [[db1 idea1] outcome] eqn:Hrow.
    match goal with
    | |- context [store_raw_loop_sqlite clk db1 ?c ideas] =>
        specialize (IH db1 c);
        destruct (store_raw_loop_sqlite clk db1 c ideas) as [[db2 rest] n] eqn:Hloop
    end.
    simpl in *. destruct IH as (added & Hrows & Hn & Hlen & Hlen' & Han & Hall & Hnd).
    apply raw_row_cases in Hrow
      as [[-> [e ->]]|(t & d & u & s & ts & h & rc & rowcount & Ht & Hins & ->)].
    + exists added. repeat split; auto; lia.
    + apply insert_or_ignore_raw_cases in Hins
        as [[-> ->]|(-> & Hnn & row & Hrows1 & Han1 & _ & Hcr & Htt & Hex)].
      * exists added. simpl in *. repeat split; auto; lia.
      * exists (row :: added). simpl in Hn. rewrite Hrows1, <- app_assoc in Hrows.
        repeat split; auto; simpl; try lia; try congruence.
        -- constructor; [|exact Hall]. split; [exact Hcr|congruence].
        -- intros Hnd0. rewrite Hrows1 in Hnd.
           replace (raw_ideas db ++ row :: added) with ((raw_ideas db ++ [row]) ++ added)
             by now rewrite <- app_assoc.
           apply Hnd. rewrite omap_app. simpl.
           destruct (r_hash row) as [fp|] eqn:Hfp; simpl; [|now rewrite app_nil_r].
           apply NoDup_app. split; [exact Hnd0|]. split; [|apply NoDup_singleton].
           intros x Hx Hx'. apply elem_of_cons in Hx' as [->|Hx']; [|inversion Hx'].
           exact (hash_is_new _ _ Hex fp eq_refl Hx).
Qed.

(** X10. The SQLite raw store only ever appends: the rows it found stay as they
    are and in place, the count it returns is the number of rows appended,
    each stamped with the time of the call; [analyzed_ideas] is not touched
    and the fingerprints of [raw_ideas] stay pairwise distinct. *)
Theorem sqlite_raw_store_only_appends clk (db : database) (ideas : list Idea) :
  ∃ added,
    raw_ideas (_store_raw_ideas_sqlite clk db ideas).1.1 = raw_ideas db ++ added ∧
    (_store_raw_ideas_sqlite clk db ideas).2 = Z.of_nat (length added) ∧
    length added ≤ length ideas ∧
    analyzed_ideas (_store_raw_ideas_sqlite clk db ideas).1.1 = analyzed_ideas db ∧
    Forall (λ r, r_created_at r = utc_now clk ∧ r_title r ≠ SqlNull) added ∧
    (NoDup (raw_hashes db) → NoDup (raw_hashes (_store_raw_ideas_sqlite clk db ideas).1.1)).
Proof.
  unfold _store_raw_ideas_sqlite, raw_hashes.
  destruct (raw_loop_inv clk ideas db 0) as (added & Hrows & Hn & Hlen & _ & Han & Hall & Hnd).
  exists added. rewrite Hrows. repeat split; auto.
Qed.

Lemma raw_row_keeps_fields clk db (idea : Idea) db' idea' outcome (key : string) :
  store_raw_row_sqlite clk db idea = (db', idea', outcome) → key ≠ "raw_content" →
  idea' !! key = idea !! key.
Proof.
  unfold store_raw_row_sqlite. intros Hrow Hkey.
  set (serialized := match dict_get idea "raw_content" VNone with
                     | VStr _ => Ok idea | _ => _ end) in Hrow.
  assert (Hser : serialized = Ok idea ∨ (∃ e, serialized = Raise e) ∨
                 ∃ v, serialized = Ok (<["raw_content" := v]> idea)).
  { subst serialized. destruct (dict_get idea "raw_content" VNone); auto;
      destruct (dict_item idea "raw_content"); simpl; eauto. }
  clearbody serialized.
  destruct Hser as [->|[[e ->]|[v ->]]];
    [| |rewrite <- (lookup_insert_ne idea "raw_content" key v) by congruence];
    repeat match type of Hrow with
           | context [raw_params clk ?i] =>
               destruct (raw_params clk i) as [[[[[[[? ?] ?] ?] ?] ?] ?]|?]
           | context [insert_or_ignore_raw ?a ?b ?c ?d ?e ?f ?g ?h ?i] =>
               destruct (insert_or_ignore_raw a b c d e f g h i)
           end; injection Hrow as <- <- <-; reflexivity.
Qed.

Lemma unstorable_row clk db (idea : Idea) db' idea' outcome :
  unstorable idea →
  store_raw_row_sqlite clk db idea = (db', idea', outcome) →
  (db' = db ∧ ∃ e, outcome = Raise e) ∨
  (db' = with_raw_seq (raw_ideas_seq db + 1) db ∧ outcome = Ok 0%Z).
Proof.
  intros [Hraw|Htitle] Hrow.
  - revert Hrow. unfold store_raw_row_sqlite, dict_get, dict_item. rewrite Hraw. simpl.
    intros [= <- <- <-]. eauto.
  - pose proof (raw_row_keeps_fields _ _ _ _ _ _ "title" Hrow ltac:(discriminate)) as Hkeep.
    apply raw_row_cases in Hrow
      as [[-> [e ->]]|(t & d & u & s & ts & h & rc & rowcount & Ht & Hins & ->)]; [eauto|].
    unfold dict_get in Ht. rewrite Hkeep, Htitle in Ht. injection Ht as <-.
    apply insert_or_ignore_raw_cases in Hins as [[-> ->]|(_ & Hnn & _)]; [eauto|congruence].
Qed.

Lemma unstorable_loop clk (ideas : list Idea) : ∀ db count,
  (∀ i, i ∈ ideas → unstorable i) →
  raw_ideas (store_raw_loop_sqlite clk db count ideas).1.1 = raw_ideas db ∧
  analyzed_ideas (store_raw_loop_sqlite clk db count ideas).1.1 = analyzed_ideas db ∧
  analyzed_ideas_seq (store_raw_loop_sqlite clk db count ideas).1.1
  = analyzed_ideas_seq db ∧
  (raw_ideas_seq db ≤ raw_ideas_seq (store_raw_loop_sqlite clk db count ideas).1.1
   ≤ raw_ideas_seq db + Z.of_nat (length ideas))%Z ∧
  (store_raw_loop_sqlite clk db count ideas).2 = count.
Proof.
  induction ideas as [|idea ideas IH]; intros db count Hall.
  - simpl. repeat split; lia.
  - simpl. destruct (store_raw_row_sqlite clk db idea) as [[db1 idea1] outcome] eqn:Hrow.
    assert (Hrest : ∀ i, i ∈ ideas → unstorable i) by (intros i Hi; apply Hall; now right).
    destruct (unstorable_row _ _ _ _ _ _ (Hall idea ltac:(now left)) Hrow)
      as [[-> [e ->]]|[-> ->]]; simpl;
      match goal with
      | |- context [store_raw_loop_sqlite clk ?d count ideas] =>
          specialize (IH d count Hrest);
          destruct (store_raw_loop_sqlite clk d count ideas) as [[db2 rest] n]
      end; simpl in *; destruct IH as (Hr & Ha & Hs & Hq & Hn); repeat split;
      try assumption; lia.
Qed.

(** X11. An idea without a ["raw_content"] key, or whose title is [None], is
    never stored by the SQLite raw store: no row is added, the idea is not
    counted and [analyzed_ideas] is not touched.  Without the key the
    [try] breaks off before the statement and the database is not written
    at all; with a title of [None] the statement runs and is ignored, and
    what it leaves behind is the id it used up: the counter of [raw_ideas]
    has advanced by one. *)
Theorem sqlite_raw_store_skips_unstorable_ideas clk (db : database) (ideas : list Idea) :
  (∀ i, i ∈ ideas → unstorable i) →
  raw_ideas (_store_raw_ideas_sqlite clk db ideas).1.1 = raw_ideas db ∧
  analyzed_ideas (_store_raw_ideas_sqlite clk db ideas).1.1 = analyzed_ideas db ∧
  analyzed_ideas_seq (_store_raw_ideas_sqlite clk db ideas).1.1 = analyzed_ideas_seq db ∧
  (raw_ideas_seq db ≤ raw_ideas_seq (_store_raw_ideas_sqlite clk db ideas).1.1
   ≤ raw_ideas_seq db + Z.of_nat (length ideas))%Z ∧
  (_store_raw_ideas_sqlite clk db ideas).2 = 0%Z ∧
  (∀ idea, idea !! "raw_content" = None →
     store_raw_row_sqlite clk db idea = (db, idea, Raise KeyError)) ∧
  (∀ idea, idea !! "title" = Some VNone →
     is_ok (store_raw_row_sqlite clk db idea).2 = true →
     (store_raw_row_sqlite clk db idea).1.1 = with_raw_seq (raw_ideas_seq db + 1) db ∧
     (store_raw_row_sqlite clk db idea).2 = Ok 0%Z).
Proof.
  intros Hall. unfold _store_raw_ideas_sqlite.
  destruct (unstorable_loop clk ideas db 0 Hall) as (Hr & Ha & Hs & Hq & Hn).
  repeat (split; [assumption|]). split.
  - intros idea Hraw. unfold store_raw_row_sqlite, dict_get, dict_item. now rewrite Hraw.
  - intros idea Htitle.
    destruct (store_raw_row_sqlite clk db idea) as [[db1 idea1] outcome] eqn:Hrow.
    destruct (unstorable_row _ _ _ _ _ _ (or_intror Htitle) Hrow)
      as [[-> [e ->]]|[-> ->]]; simpl; [discriminate|auto].
Qed.

(** *** The analyzed table *)

Ltac run_binds :=
  repeat match goal with
         | |- context [mbind _ (attr_get ?a ?k ?d)] =>
             destruct (attr_get a k d) eqn:?; simpl; [|discriminate]
         | |- context [mbind _ (bind ?v)] =>
             destruct (bind v) eqn:?; simpl; [|discriminate]
         end.

Lemma analyzed_row_step clk db (idea : Idea) db' rowcount :
  store_analyzed_row_sqlite clk db idea = Ok (db', rowcount) →
  rowcount = 1%Z ∧ raw_ideas db' = raw_ideas db ∧
  ∃ fp row, analyzed_ideas db'
            = filter (λ r, same_hash fp (a_hash r) = false) (analyzed_ideas db)
              ++ [row] ∧
            a_hash row = fp ∧
            a_id row = (analyzed_ideas_seq db + 1)%Z ∧
            analyzed_ideas_seq db' = (analyzed_ideas_seq db + 1)%Z ∧
            (∀ h, idea !! "hash" = Some (VStr h) → a_hash row = Some h).
Proof.
  unfold store_analyzed_row_sqlite, analyzed_params. run_binds.
  unfold insert_or_replace_analyzed.
  match goal with |- context [match ?t with SqlNull => _ | _ => _ end] => destruct t end;
    try discriminate; intros [= <- <-]; simpl;
    (split; [reflexivity|split; [reflexivity|]]); eexists _, _;
    (split; [reflexivity|]); simpl; (split; [reflexivity|]);
    (split; [reflexivity|]); (split; [reflexivity|]);
    intros h Hh;
    match goal with
    | Hb : bind (dict_get idea "hash" _) = Ok _ |- _ =>
        unfold dict_get in Hb; rewrite Hh in Hb; injection Hb as <-
    end; reflexivity.
Qed.

Lemma replaced_rows (row : analyzed_row) (rows : list analyzed_row) :
  let kept := filter (λ r, same_hash (a_hash row) (a_hash r) = false) rows in
  sublist kept rows ∧
  (∀ h, a_hash row = Some h → h ∉ omap a_hash kept) ∧
  (NoDup (omap a_hash rows) → NoDup (omap a_hash (kept ++ [row]))).
Proof.
  intros kept.
  assert (Hsub : sublist kept rows) by apply sublist_filter.
  assert (Hnew : ∀ h, a_hash row = Some h → h ∉ omap a_hash kept).
  { intros h Hh Hin. apply list_elem_of_omap in Hin as (r & Hr & Hs).
    apply list_elem_of_filter in Hr as [Hr _]. rewrite Hh, Hs in Hr. simpl in Hr.
    rewrite bool_decide_eq_true_2 in Hr by reflexivity. discriminate. }
  split; [exact Hsub|]. split; [exact Hnew|].
  intros Hnd. rewrite omap_app. simpl.
  assert (Hk : NoDup (omap a_hash kept)).
  { eapply sublist_NoDup; [exact Hnd|]. clear -Hsub.
    induction Hsub as [|x l1 l2 _ IH|x l1 l2 _ IH]; simpl.
    - constructor.
    - destruct (a_hash x); [now apply sublist_skip|exact IH].
    - destruct (a_hash x); [now apply sublist_cons|exact IH]. }
  destruct (a_hash row) as [h|] eqn:Hh; simpl; [|now rewrite app_nil_r].
  apply NoDup_app. split; [exact Hk|]. split; [|apply NoDup_singleton].
  intros x Hx Hx'. apply elem_of_cons in Hx' as [->|Hx']; [|inversion Hx'].
  exact (Hnew h eq_refl Hx).
Qed.

Lemma analyzed_step_invariants clk db (idea : Idea) db' rowcount :
  store_analyzed_row_sqlite clk db idea = Ok (db', rowcount) →
  (NoDup (analyzed_hashes db) → NoDup (analyzed_hashes db')) ∧
  (ids_issued db → ids_issued db') ∧
  (ids_issued db → NoDup (a_id <$> analyzed_ideas db) →
   NoDup (a_id <$> analyzed_ideas db')) ∧
  length (analyzed_ideas db') ≤ length (analyzed_ideas db) + 1.
Proof.
  intros Hrow.
  destruct (analyzed_row_step _ _ _ _ _ Hrow)
    as (_ & _ & fp & row & Hrows & <- & Hid & Hseq & _).
  destruct (replaced_rows row (analyzed_ideas db)) as (Hsub & _ & Hnd).
  unfold analyzed_hashes, ids_issued. rewrite Hrows, Hseq.
  split; [exact Hnd|]. split; [|split].
  - intros Hids r [Hr| ->%list_elem_of_singleton]%elem_of_app; [|lia].
    apply list_elem_of_filter in Hr as [_ Hr]. specialize (Hids r Hr). lia.
  - intros Hids Hnd'. rewrite fmap_app. apply NoDup_app. split; [|split].
    + eapply sublist_NoDup; [exact Hnd'|]. now apply fmap_sublist.
    + intros x Hx Hx'. apply elem_of_cons in Hx' as [->|Hx']; [|inversion Hx'].
      apply list_elem_of_fmap in Hx as (r & Hrid & Hr).
      apply list_elem_of_filter in Hr as [_ Hr]. specialize (Hids r Hr). lia.
    + apply NoDup_singleton.
  - rewrite length_app. simpl. pose proof (sublist_length _ _ Hsub). lia.
Qed.

Lemma analyzed_loop_inv clk (ideas : list Idea) : ∀ db count,
  raw_ideas (store_analyzed_loop_sqlite clk db count ideas).1 = raw_ideas db ∧
  (count ≤ (store_analyzed_loop_sqlite clk db count ideas).2
         ≤ count + Z.of_nat (length ideas))%Z ∧
  analyzed_ideas_seq (store_analyzed_loop_sqlite clk db count ideas).1
  = (analyzed_ideas_seq db + (store_analyzed_loop_sqlite clk db count ideas).2 - count)%Z ∧
  (NoDup (analyzed_hashes db) →
   NoDup (analyzed_hashes (store_analyzed_loop_sqlite clk db count ideas).1)) ∧
  (ids_issued db → NoDup (a_id <$> analyzed_ideas db) →
   ids_issued (store_analyzed_loop_sqlite clk db count ideas).1 ∧
   NoDup (a_id <$> analyzed_ideas (store_analyzed_loop_sqlite clk db count ideas).1)).
Proof.
  induction ideas as [|idea ideas IH]; intros db count; simpl.
  - repeat split; auto; lia.
  - destruct (store_analyzed_row_sqlite clk db idea) as [[db1 rc]|e] eqn:Hrow.
    + destruct (analyzed_row_step _ _ _ _ _ Hrow)
        as (-> & Hraw & fp & row & _ & _ & _ & Hseq & _).
      destruct (analyzed_step_invariants _ _ _ _ _ Hrow) as (Hh & Hi & Hn & _).
      simpl. destruct (IH db1 (count + 1)%Z) as (IHraw & IHn & IHseq & IHh & IHi).
      rewrite IHraw, IHseq, Hseq. repeat split; auto; try lia.
      * apply IHi; auto.
      * apply IHi; auto.
    + destruct (IH db count) as (IHraw & IHn & IHseq & IHh & IHi).
      repeat split; auto; try lia; apply IHi; auto.
Qed.

(** X12. The SQLite analyzed store keeps the table's invariants: fingerprints and
    ids stay pairwise distinct and no id lies beyond the counter, which
    advances by one for every row counted; [raw_ideas] is not touched and
    the count is at most the number of ideas handed in. *)
Theorem sqlite_analyzed_store_keeps_keys_unique clk (db : database) (ideas : list Idea) :
  raw_ideas (_store_analyzed_ideas_sqlite clk db ideas).1 = raw_ideas db ∧
  (0 ≤ (_store_analyzed_ideas_sqlite clk db ideas).2 ≤ Z.of_nat (length ideas))%Z ∧
  analyzed_ideas_seq (_store_analyzed_ideas_sqlite clk db ideas).1
  = (analyzed_ideas_seq db + (_store_analyzed_ideas_sqlite clk db ideas).2)%Z ∧
  (NoDup (analyzed_hashes db) →
   NoDup (analyzed_hashes (_store_analyzed_ideas_sqlite clk db ideas).1)) ∧
  (ids_issued db → NoDup (a_id <$> analyzed_ideas db) →
   ids_issued (_store_analyzed_ideas_sqlite clk db ideas).1 ∧
   NoDup (a_id <$> analyzed_ideas (_store_analyzed_ideas_sqlite clk db ideas).1)).
Proof.
  unfold _store_analyzed_ideas_sqlite.
  destruct (analyzed_loop_inv clk ideas db 0) as (Hraw & Hn & Hseq & Hh & Hi).
  repeat split; auto; try lia; apply Hi; auto.
Qed.

Lemma same_id_same_row (rows : list analyzed_row) (r r' : analyzed_row) :
  NoDup (a_id <$> rows) → r ∈ rows → r' ∈ rows → a_id r = a_id r' → r = r'.
Proof.
  induction rows as [|x rows IH]; intros Hnd Hr Hr' Hid; [inversion Hr|].
  simpl in Hnd. apply NoDup_cons in Hnd as [Hx Hnd].
  apply elem_of_cons in Hr as [->|Hr]; apply elem_of_cons in Hr' as [->|Hr'].
  - reflexivity.
  - exfalso. apply Hx. rewrite Hid. apply list_elem_of_fmap. eauto.
  - exfalso. apply Hx. rewrite <- Hid. apply list_elem_of_fmap. eauto.
  - now apply IH.
Qed.

(** X13. Storing an analyzed idea whose fingerprint the table already holds puts
    a new row in place of the old one, under a new id: the old id is
    gone from the table, and the new one is larger. *)
Theorem restored_idea_gets_a_new_row_id clk (db : database) (idea : Idea) (h : string)
    (old : analyzed_row) :
  ids_issued db → NoDup (a_id <$> analyzed_ideas db) →
  old ∈ analyzed_with_hash h db → idea !! "hash" = Some (VStr h) →
  is_ok (store_analyzed_row_sqlite clk db idea) = true →
  ∃ db' row,
    _store_analyzed_ideas_sqlite clk db [idea] = (db', 1%Z) ∧
    analyzed_with_hash h db' = [row] ∧ (a_id old < a_id row)%Z ∧
    ∀ r, r ∈ analyzed_ideas db' → a_id r ≠ a_id old.
Proof.
  intros Hids Hnd Hold Hh Hok. unfold _store_analyzed_ideas_sqlite. simpl.
  destruct (store_analyzed_row_sqlite clk db idea) as [[db' rc]|e] eqn:Hrow; [|discriminate].
  destruct (analyzed_row_step _ _ _ _ _ Hrow)
    as (-> & _ & fp & row & Hrows & <- & Hid & _ & Hrh).
  specialize (Hrh h Hh). apply list_elem_of_filter in Hold as [Holdh Hold].
  exists db', row. simpl. split; [reflexivity|]. split; [|split].
  - unfold analyzed_with_hash. rewrite Hrows. now apply replaced_hash_is_single.
  - specialize (Hids old Hold). lia.
  - intros r Hr Heq. rewrite Hrows in Hr.
    apply elem_of_app in Hr as [Hr| ->%list_elem_of_singleton].
    + apply list_elem_of_filter in Hr as [Hne Hr].
      rewrite (same_id_same_row _ r old Hnd Hr Hold Heq), Hrh, Holdh in Hne.
      simpl in Hne. rewrite bool_decide_eq_true_2 in Hne by reflexivity. discriminate.
    + specialize (Hids old Hold). lia.
Qed.

(** *** Storing, then cleaning up *)

(** X14. The cleanup compares the day of a row's creation, read from the
    database's clock, with the day of the limit, computed from the local
    clock.  A row appended by the raw store at [clk1] survives the cleanup
    made at [clk2] exactly when the limit's day is not after the day the
    database's clock showed (or the limit falls before the year 1000, when
    the cleanup deletes nothing). *)
Theorem cleanup_spares_rows_stored_after_the_limit clk1 clk2 (db : database)
    (ideas : list Idea) (days cutoff : Z) :
  minus_days (local_now clk2) days = Ok cutoff →
  ∃ added,
    raw_ideas (_store_raw_ideas_sqlite clk1 db ideas).1.1 = raw_ideas db ++ added ∧
    (∀ r, r ∈ added →
       (r ∈ raw_ideas (_cleanup_old_raw_ideas_sqlite clk2
                         (_store_raw_ideas_sqlite clk1 db ideas).1.1 days).1
        ↔ (cutoff < year_1000 ∨ date cutoff ≤ date (utc_now clk1))%Z)) ∧
    ((local_now clk2 - days * 86400 ≤ utc_now clk1)%Z →
     ∀ r, r ∈ added →
       r ∈ raw_ideas (_cleanup_old_raw_ideas_sqlite clk2
                        (_store_raw_ideas_sqlite clk1 db ideas).1.1 days).1).
Proof.
  intros Hm. unfold _store_raw_ideas_sqlite.
  destruct (raw_loop_inv clk1 ideas db 0) as (added & Hrows & _ & _ & _ & _ & Hall & _).
  exists added. split; [exact Hrows|].
  assert (Hiff : ∀ r, r ∈ added →
            (r ∈ raw_ideas (_cleanup_old_raw_ideas_sqlite clk2
                              (store_raw_loop_sqlite clk1 db 0 ideas).1.1 days).1
             ↔ (cutoff < year_1000 ∨ date cutoff ≤ date (utc_now clk1))%Z)).
  { intros r Hr. unfold _cleanup_old_raw_ideas_sqlite. rewrite Hm.
    destruct (Z_lt_le_dec cutoff year_1000) as [Hy|Hy].
    - rewrite (limit_before_year_1000 cutoff Hy). simpl. rewrite Hrows.
      split; [now left|]. intros _. apply elem_of_app. now right.
    - rewrite (limit_after_year_1000 cutoff Hy). simpl.
      rewrite list_elem_of_filter, Hrows.
      rewrite Forall_forall in Hall. destruct (Hall r Hr) as [-> _]. split.
      + intros [Hk _]. right. lia.
      + intros [Hk|Hk]; [lia|]. split; [lia|]. apply elem_of_app. now right. }
  split; [exact Hiff|].
  intros Hle r Hr. apply (Hiff r Hr). right. apply minus_days_value in Hm. subst cutoff.
  unfold date. apply Z.div_le_mono; lia.
Qed.

End SqliteTables.

(** *** Reading back *)

Section Reading.
Context `{Json, Sqlite, SqliteRead}.

Lemma rows_loop_all (rows : list analyzed_row) : ∀ ideas,
  (∀ r, r ∈ rows → is_ok (idea_of_row r) = true) →
  ∃ decoded, rows_loop ideas rows = Ok (ideas ++ decoded) ∧
             length decoded = length rows ∧
             ∀ k r, rows !! k = Some r →
               ∃ idea, decoded !! k = Some idea ∧ idea_of_row r = Ok idea.
Proof.
  induction rows as [|row rows IH]; intros ideas Hall.
  - exists []. rewrite app_nil_r. repeat split. intros k r Hk. inversion Hk.
  - simpl. pose proof (Hall row ltac:(now left)) as Hrow.
    destruct (idea_of_row row) as [idea|e] eqn:Hidea; [|discriminate]. simpl.
    destruct (IH (ideas ++ [idea])) as (decoded & -> & Hlen & Hk).
    { intros r Hr. apply Hall. now right. }
    exists (idea :: decoded). rewrite <- app_assoc. simpl.
    split; [reflexivity|]. split; [now rewrite Hlen|].
    intros [|k] r Hr; simpl in *.
    + injection Hr as <-. eauto.
    + now apply Hk.
Qed.

Lemma rows_loop_one_bad (rows : list analyzed_row) : ∀ ideas r,
  r ∈ rows → is_ok (idea_of_row r) = false → is_ok (rows_loop ideas rows) = false.
Proof.
  induction rows as [|row rows IH]; intros ideas r Hr Hbad; [inversion Hr|].
  simpl. destruct (idea_of_row row) as [idea|e] eqn:Hidea; [|reflexivity]. simpl.
  apply elem_of_cons in Hr as [->|Hr]; [rewrite Hidea in Hbad; discriminate|].
  now apply (IH _ r).
Qed.

(** X16. The best ideas come whole or not at all.  When the parameters can be
    bound and the query answers, [_get_top_ideas_sqlite] returns one idea
    per selected row, in the order of the query, provided every selected
    row decodes; a single row whose analysis or tags do not parse empties
    the whole answer, and so does any failure before. *)
Theorem top_ideas_come_whole_or_not_at_all (db : database) (limit min_score : value) :
  (∀ bound n rows,
     bind min_score = Ok bound → bind limit = Ok n →
     select_top bound n (analyzed_ideas db) = Ok rows →
     ((∀ r, r ∈ rows → is_ok (idea_of_row r) = true) →
      length (_get_top_ideas_sqlite db limit min_score) = length rows ∧
      ∀ k r, rows !! k = Some r →
        ∃ idea, _get_top_ideas_sqlite db limit min_score !! k = Some idea ∧
                idea_of_row r = Ok idea) ∧
     (∀ r, r ∈ rows → is_ok (idea_of_row r) = false →
           _get_top_ideas_sqlite db limit min_score = [])) ∧
  (is_ok (bind min_score) = false ∨ is_ok (bind limit) = false →
   _get_top_ideas_sqlite db limit min_score = []) ∧
  (∀ bound n e, bind min_score = Ok bound → bind limit = Ok n →
     select_top bound n (analyzed_ideas db) = Raise e →
     _get_top_ideas_sqlite db limit min_score = []).
Proof.
  unfold _get_top_ideas_sqlite. split; [|split].
  - intros bound n rows -> -> Hsel. simpl. rewrite Hsel. simpl. split.
    + intros Hall. destruct (rows_loop_all rows [] Hall) as (decoded & -> & Hlen & Hk).
      simpl. split; [exact Hlen|exact Hk].
    + intros r Hr Hbad. pose proof (rows_loop_one_bad rows [] r Hr Hbad) as Hloop.
      destruct (rows_loop [] rows); [discriminate|reflexivity].
  - intros [Hb|Hb].
    + destruct (bind min_score); [discriminate|reflexivity].
    + destruct (bind min_score); [|reflexivity]. simpl.
      destruct (bind limit); [discriminate|reflexivity].
  - intros bound n e -> -> Hsel. simpl. rewrite Hsel. reflexivity.
Qed.

Ltac run_binds :=
  repeat match goal with
         | |- context [mbind _ (attr_get ?a ?k ?d)] =>
             destruct (attr_get a k d) eqn:?; simpl; [|discriminate]
         | |- context [mbind _ (bind ?v)] =>
             destruct (bind v) eqn:?; simpl; [|discriminate]
         end.

Context `{Datetime}.

Lemma analyzed_row_columns clk db (idea : Idea) db' rowcount (analysis : gmap string value) :
  store_analyzed_row_sqlite clk db idea = Ok (db', rowcount) →
  dict_get idea "analysis" (VDict ∅) = VDict analysis →
  ∃ rows row, analyzed_ideas db' = rows ++ [row] ∧
              a_id row = (analyzed_ideas_seq db + 1)%Z ∧
              a_analysis row = SqlText (json_dumps (VDict analysis)) ∧
              a_tags row = SqlText (json_dumps (dict_get analysis "tags" (VList []))) ∧
              bind (dict_get idea "hash" (VStr "")) ≫= (λ h, Ok (text_affinity h))
              = Ok (a_hash row).
Proof.
  unfold store_analyzed_row_sqlite, analyzed_params. intros Hrow Ha. revert Hrow.
  rewrite Ha. simpl. run_binds.
  unfold insert_or_replace_analyzed.
  match goal with |- context [match ?t with SqlNull => _ | _ => _ end] => destruct t end;
    try discriminate; intros [= <- <-]; simpl; eexists _, _;
    (split; [reflexivity|]); simpl; repeat split.
Qed.

(** X17. What was stored reads back.  After an analyzed idea went into the table,
    a query that selects its row returns one idea that carries the analysis
    and the tags the idea was stored with, whenever the serializer's text
    parses back to what it was made from; the row's id and fingerprint come
    with it, and what the table has no column for does not. *)
Theorem stored_analysis_reads_back clk (db db' : database) (idea : Idea) (rowcount : Z)
    (analysis : gmap string value) (limit min_score : value) (bound n : sql_value) :
  store_analyzed_row_sqlite clk db idea = Ok (db', rowcount) →
  dict_get idea "analysis" (VDict ∅) = VDict analysis →
  json_loads (json_dumps (VDict analysis)) = Ok (VDict analysis) →
  json_loads (json_dumps (dict_get analysis "tags" (VList [])))
  = Ok (dict_get analysis "tags" (VList [])) →
  bind min_score = Ok bound → bind limit = Ok n →
  (∀ row, last (analyzed_ideas db') = Some row →
          select_top bound n (analyzed_ideas db') = Ok [row]) →
  ∃ read, _get_top_ideas_sqlite db' limit min_score = [read] ∧
          read !! "analysis" = Some (VDict analysis) ∧
          read !! "tags" = Some (dict_get analysis "tags" (VList [])) ∧
          read !! "id" = Some (VInt (analyzed_ideas_seq db + 1)) ∧
          (∀ h, idea !! "hash" = Some (VStr h) → read !! "hash" = Some (VStr h)) ∧
          read !! "raw_content" = None ∧ read !! "analysis_timestamp" = None.
Proof.
  intros Hrow Ha Hja Hjt Hb Hn Hsel.
  destruct (analyzed_row_columns _ _ _ _ _ _ Hrow Ha)
    as (rows & row & Hrows & Hid & Han & Htags & Hhash).
  assert (Hlast : last (analyzed_ideas db') = Some row)
    by (rewrite Hrows; apply last_snoc).
  unfold _get_top_ideas_sqlite. rewrite Hb, Hn. simpl. rewrite (Hsel row Hlast). simpl.
  unfold idea_of_row, decode_field, dict_of_row.
  repeat (rewrite lookup_insert_ne by discriminate). rewrite lookup_insert_eq.
  rewrite Han. simpl. rewrite Hja. simpl.
  repeat (rewrite lookup_insert_ne by discriminate). rewrite lookup_insert_eq.
  rewrite Htags. simpl. rewrite Hjt. simpl.
  eexists. split; [reflexivity|].
  split; [rewrite lookup_insert_ne by discriminate; apply lookup_insert_eq|].
  split; [apply lookup_insert_eq|].
  split; [repeat (rewrite lookup_insert_ne by discriminate);
          rewrite lookup_insert_eq, Hid; reflexivity|].
  split; [|split].
  - intros h Hh. repeat (rewrite lookup_insert_ne by discriminate).
    rewrite lookup_insert_eq. unfold dict_get in Hhash. rewrite Hh in Hhash. simpl in Hhash.
    injection Hhash as <-. reflexivity.
  - repeat (rewrite lookup_insert_ne by discriminate). apply lookup_empty.
  - repeat (rewrite lookup_insert_ne by discriminate). apply lookup_empty.
Qed.

End Reading.

(** X11 on two ideas the raw store cannot take: one without ["raw_content"],
    one with a title of [None].  No row is stored, and the one statement
    that ran has used up the id 1. *)
Lemma sqlite_raw_store_skips_unstorable_ideas_witness :
  (raw_ideas (@_store_raw_ideas_sqlite Samples.sample_json Samples.sample_sqlite
     Samples.sample_datetime (Samples.at_time 100) (Samples.db_of [])
     [Samples.titled "a" "f1"; <["title" := VNone]> (Samples.normalized "b" "f2")]).1.1
   = [] ∧
   (@_store_raw_ideas_sqlite Samples.sample_json Samples.sample_sqlite
      Samples.sample_datetime (Samples.at_time 100) (Samples.db_of [])
      [Samples.titled "a" "f1"; <["title" := VNone]> (Samples.normalized "b" "f2")]).2
   = 0%Z) ∧
  raw_ideas_seq (@_store_raw_ideas_sqlite Samples.sample_json Samples.sample_sqlite
     Samples.sample_datetime (Samples.at_time 100) (Samples.db_of [])
     [Samples.titled "a" "f1"; <["title" := VNone]> (Samples.normalized "b" "f2")]).1.1
  = 1%Z.
Proof.
  split; [|vm_compute; reflexivity].
  refine (let H := @sqlite_raw_store_skips_unstorable_ideas Samples.sample_json
            Samples.sample_sqlite Samples.sample_datetime (Samples.at_time 100)
            (Samples.db_of [])
            [Samples.titled "a" "f1"; <["title" := VNone]> (Samples.normalized "b" "f2")] _
          in conj (proj1 H) (proj1 (proj2 (proj2 (proj2 (proj2 H)))))).
  intros i Hi. apply elem_of_cons in Hi as [->|Hi]; [left; reflexivity|].
  apply elem_of_cons in Hi as [->|Hi]; [right; reflexivity|inversion Hi].
Defined.

(** X13 on the idea ["a"], stored a second time, at time 200, in the table
    that holds it under id 1. *)
Lemma restored_idea_gets_a_new_row_id_witness :
  ∃ db' row,
    @_store_analyzed_ideas_sqlite Samples.sample_json Samples.sample_sqlite
      Samples.sample_datetime (Samples.at_time 200) Samples.stored_once
      [Samples.with_score 90 (Samples.normalized "a" "f1")] = (db', 1%Z) ∧
    analyzed_with_hash "f1" db' = [row] ∧ (a_id Samples.stored_row < a_id row)%Z ∧
    ∀ r, r ∈ analyzed_ideas db' → a_id r ≠ a_id Samples.stored_row.
Proof.
  apply (@restored_idea_gets_a_new_row_id Samples.sample_json Samples.sample_sqlite
           Samples.sample_datetime (Samples.at_time 200) Samples.stored_once
           (Samples.with_score 90 (Samples.normalized "a" "f1")) "f1" Samples.stored_row).
  - intros r Hr. apply elem_of_cons in Hr as [->|Hr]; [simpl; lia|inversion Hr].
  - simpl. apply NoDup_singleton.
  - now left.
  - reflexivity.
  - reflexivity.
Defined.

(** X14 on an idea stored on 31 January 2024 at 23:30 by the database's
    clock, when the local clock shows 00:30 of 1 February, and cleaned up at
    once: with a limit of 30 days the new row stays, with a limit of 0 days
    it goes. *)
Lemma cleanup_spares_rows_stored_after_the_limit_witness :
  (∃ added,
     raw_ideas (@_store_raw_ideas_sqlite Samples.sample_json Samples.sample_sqlite
                  Samples.sample_datetime
                  {| local_now := 1706747400; utc_now := 1706743800 |}
                  (Samples.db_of []) [Samples.normalized "a" "f1"]).1.1
     = raw_ideas (Samples.db_of []) ++ added ∧
     (∀ r, r ∈ added →
        (r ∈ raw_ideas (_cleanup_old_raw_ideas_sqlite
                          {| local_now := 1706747400; utc_now := 1706743800 |}
                          (@_store_raw_ideas_sqlite Samples.sample_json Samples.sample_sqlite
                             Samples.sample_datetime
                             {| local_now := 1706747400; utc_now := 1706743800 |}
                             (Samples.db_of []) [Samples.normalized "a" "f1"]).1.1 30).1
         ↔ (1704155400 < year_1000 ∨ date 1704155400 ≤ date 1706743800)%Z)) ∧
     ((1706747400 - 30 * 86400 ≤ 1706743800)%Z →
      ∀ r, r ∈ added →
        r ∈ raw_ideas (_cleanup_old_raw_ideas_sqlite
                         {| local_now := 1706747400; utc_now := 1706743800 |}
                         (@_store_raw_ideas_sqlite Samples.sample_json Samples.sample_sqlite
                            Samples.sample_datetime
                            {| local_now := 1706747400; utc_now := 1706743800 |}
                            (Samples.db_of []) [Samples.normalized "a" "f1"]).1.1 30).1)) ∧
  raw_ideas (_cleanup_old_raw_ideas_sqlite
               {| local_now := 1706747400; utc_now := 1706743800 |}
               (@_store_raw_ideas_sqlite Samples.sample_json Samples.sample_sqlite
                  Samples.sample_datetime
                  {| local_now := 1706747400; utc_now := 1706743800 |}
                  (Samples.db_of []) [Samples.normalized "a" "f1"]).1.1 0).1 = [].
Proof.
  split; [|vm_compute; reflexivity].
  exact (@cleanup_spares_rows_stored_after_the_limit Samples.sample_json
           Samples.sample_sqlite Samples.sample_datetime
           {| local_now := 1706747400; utc_now := 1706743800 |}
           {| local_now := 1706747400; utc_now := 1706743800 |}
           (Samples.db_of []) [Samples.normalized "a" "f1"] 30 1704155400 eq_refl).
Defined.

(** X17 on the idea ["a"], scored 90, stored in an empty table and asked for
    with a minimal score of 65. *)
Lemma stored_analysis_reads_back_witness :
  ∃ read,
    @_get_top_ideas_sqlite Samples.three_texts Samples.sample_sqlite Samples.sample_read
      (@_store_analyzed_ideas_sqlite Samples.three_texts Samples.sample_sqlite
         Samples.sample_datetime (Samples.at_time 100) (Samples.db_of [])
         [Samples.with_score 90 (Samples.normalized "a" "f1")]).1
      (VInt 10) (VInt 65) = [read] ∧
    read !! "analysis" = Some (VDict {[ "score" := VInt 90 ]}) ∧
    read !! "tags" = Some (VList []) ∧
    read !! "id" = Some (VInt 1) ∧
    (∀ h, Samples.with_score 90 (Samples.normalized "a" "f1") !! "hash" = Some (VStr h) →
          read !! "hash" = Some (VStr h)) ∧
    read !! "raw_content" = None ∧ read !! "analysis_timestamp" = None.
Proof.
  refine (@stored_analysis_reads_back Samples.three_texts Samples.sample_sqlite
            Samples.sample_read Samples.sample_datetime (Samples.at_time 100)
            (Samples.db_of []) _ (Samples.with_score 90 (Samples.normalized "a" "f1")) 1
            {[ "score" := VInt 90 ]} (VInt 10) (VInt 65) (SqlInt 65) (SqlInt 10)
            eq_refl eq_refl eq_refl eq_refl eq_refl eq_refl _).
  intros row [= <-]. reflexivity.
Defined.

Import Scrapers.

(** X15. A second cleanup with the same limit finds nothing left to delete. *)
Theorem cleanup_twice_deletes_nothing_more (clk : clock) (db : database) (days : Z) :
  _cleanup_old_raw_ideas_sqlite clk (_cleanup_old_raw_ideas_sqlite clk db days).1 days
  = ((_cleanup_old_raw_ideas_sqlite clk db days).1, 0%Z).
Proof.
  unfold _cleanup_old_raw_ideas_sqlite.
  destruct (minus_days (local_now clk) days) as [cutoff|e]; [|reflexivity].
  destruct (sql_date_of_limit cutoff) as [cutoff_date|]; [|reflexivity].
  unfold delete_raw_before. simpl.
  assert (Hkept : ∀ rows : list raw_row,
            filter (λ r, ¬ (date (r_created_at r) < cutoff_date)%Z)
                   (filter (λ r, ¬ (date (r_created_at r) < cutoff_date)%Z) rows)
            = filter (λ r, ¬ (date (r_created_at r) < cutoff_date)%Z) rows ∧
            filter (λ r, (date (r_created_at r) < cutoff_date)%Z)
                   (filter (λ r, ¬ (date (r_created_at r) < cutoff_date)%Z) rows) = []).
  { induction rows as [|r rows [IH1 IH2]]; [split; reflexivity|].
    rewrite (filter_cons (λ r, ¬ (date (r_created_at r) < cutoff_date)%Z)).
    destruct (decide (¬ (date (r_created_at r) < cutoff_date)%Z)) as [Hk|Hk];
      [|split; assumption].
    rewrite filter_cons_True by exact Hk. rewrite filter_cons_False by exact Hk.
    rewrite IH1. split; [reflexivity|exact IH2]. }
  destruct (Hkept (raw_ideas db)) as [-> ->]. reflexivity.
Qed.

Section RawContent.
Context `{Hashlib, Json, Format, Sqlite, Datetime} {R} `{Supabase R}.

(** X18. What each backend makes of the ["raw_content"] the normalizer wrote.
    The Supabase store parses it back: when the serializer's text parses to
    the record it was made from, the row sent, and the caller's idea from
    then on, hold the record itself.  The SQLite store leaves the idea
    untouched and binds the text as it is: the text is the parameter of
    the statement and the content of the row the statement adds. *)
Theorem raw_content_is_decoded_for_supabase_only (now : string)
    (data : gmap string value) (source : string) (remote : R) (clk : clock)
    (db : database) :
  json_loads (json_dumps (VDict data)) = Ok (VDict data) →
  store_raw_row_supabase remote (normalize_data now data source)
  = ((sb_insert "raw_ideas"
        (<["raw_content" := VDict data]> (normalize_data now data source)) remote).2,
     <["raw_content" := VDict data]> (normalize_data now data source),
     (sb_insert "raw_ideas"
        (<["raw_content" := VDict data]> (normalize_data now data source)) remote).1) ∧
  (store_raw_row_sqlite clk db (normalize_data now data source)).1.2
  = normalize_data now data source ∧
  (∀ title description url source' timestamp hash raw_content,
     raw_params clk (normalize_data now data source)
     = Ok (title, description, url, source', timestamp, hash, raw_content) →
     raw_content = SqlText (json_dumps (VDict data))) ∧
  (∀ row,
     raw_ideas (store_raw_row_sqlite clk db (normalize_data now data source)).1.1
     = raw_ideas db ++ [row] →
     r_raw_content row = SqlText (json_dumps (VDict data))).
Proof.
  intros Hround.
  assert (Hraw : ∀ default, dict_get (normalize_data now data source) "raw_content" default
                            = VStr (json_dumps (VDict data))).
  { intros default. unfold dict_get, normalize_data.
    repeat (rewrite lookup_insert_ne by discriminate). now rewrite lookup_insert_eq. }
  assert (Hbound : ∀ title description url source' timestamp hash raw_content,
            raw_params clk (normalize_data now data source)
            = Ok (title, description, url, source', timestamp, hash, raw_content) →
            raw_content = SqlText (json_dumps (VDict data))).
  { intros title description url source' timestamp hash raw_content.
    unfold raw_params. rewrite (Hraw (VStr "{}")).
    repeat match goal with
           | |- context [mbind _ (bind ?v)] => destruct (bind v); simpl; [|discriminate]
           end.
    now intros [= _ _ _ _ _ _ <-]. }
  split; [|split; [|split; [exact Hbound|]]].
  - unfold store_raw_row_supabase. rewrite Hraw, Hround.
    destruct (sb_insert _ _ remote). reflexivity.
  - unfold store_raw_row_sqlite. rewrite Hraw.
    destruct (raw_params clk _) as [[[[[[[? ?] ?] ?] ?] ?] ?]|?]; [|reflexivity].
    destruct (insert_or_ignore_raw _ _ _ _ _ _ _ _ _). reflexivity.
  - intros row. unfold store_raw_row_sqlite. rewrite Hraw.
    destruct (raw_params clk _) as [[[[[[[t d] u] s'] ts] h] rc]|e] eqn:Hp; simpl.
    + pose proof (Hbound _ _ _ _ _ _ _ eq_refl) as ->.
      assert (Hskip : raw_ideas db = raw_ideas db ++ [row] → False).
      { intros Heq. apply (f_equal length) in Heq. rewrite length_app in Heq.
        simpl in Heq. lia. }
      unfold insert_or_ignore_raw.
      destruct t; try (simpl; intros Heq; now apply Hskip in Heq);
        (destruct (existsb _ (raw_ideas db));
         [simpl; intros Heq; now apply Hskip in Heq|]);
        simpl; intros Heq; apply app_inv_head in Heq; injection Heq as <-; reflexivity.
    + simpl. intros Heq. apply (f_equal length) in Heq. rewrite length_app in Heq.
      simpl in Heq. lia.
Qed.

End RawContent.

(** X18 on a record normalized and handed to the Supabase store, and to
    the SQLite store with an empty table. *)
Lemma raw_content_is_decoded_for_supabase_only_witness :
  (∃ row,
     raw_ideas (@store_raw_row_sqlite Samples.three_texts Samples.sample_sqlite
                  Samples.sample_datetime (Samples.at_time 100) (Samples.db_of [])
                  (@normalize_data Samples.sample_hashlib Samples.three_texts
                     Samples.sample_format "2024-05-01T10:00:00" {[ "score" := VInt 90 ]}
                     "Reddit")).1.1
     = raw_ideas (Samples.db_of []) ++ [row] ∧
     r_raw_content row = SqlText "{90}") ∧
  @store_raw_row_supabase Samples.three_texts _ Samples.documented_tables []
    (@normalize_data Samples.sample_hashlib Samples.three_texts Samples.sample_format
       "2024-05-01T10:00:00" {[ "score" := VInt 90 ]} "Reddit")
  = ([("raw_ideas",
       <["raw_content" := VDict {[ "score" := VInt 90 ]}]>
         (@normalize_data Samples.sample_hashlib Samples.three_texts Samples.sample_format
            "2024-05-01T10:00:00" {[ "score" := VInt 90 ]} "Reddit"))],
     <["raw_content" := VDict {[ "score" := VInt 90 ]}]>
       (@normalize_data Samples.sample_hashlib Samples.three_texts Samples.sample_format
          "2024-05-01T10:00:00" {[ "score" := VInt 90 ]} "Reddit"),
     Ok [<["raw_content" := VDict {[ "score" := VInt 90 ]}]>
           (@normalize_data Samples.sample_hashlib Samples.three_texts
              Samples.sample_format "2024-05-01T10:00:00" {[ "score" := VInt 90 ]}
              "Reddit")]).
Proof.
  pose proof (@raw_content_is_decoded_for_supabase_only Samples.sample_hashlib
                Samples.three_texts Samples.sample_format Samples.sample_sqlite
                Samples.sample_datetime _ Samples.documented_tables
                "2024-05-01T10:00:00" {[ "score" := VInt 90 ]} "Reddit" []
                (Samples.at_time 100) (Samples.db_of [])) as Hboth.
  specialize (Hboth ltac:(vm_compute; reflexivity)).
  destruct Hboth as (Hhosted & _ & _ & Hrow).
  split; [|exact Hhosted].
  eexists. split; [vm_compute; reflexivity|].
  apply Hrow. vm_compute. reflexivity.
Defined.

End StoreFacts.

(** * Properties of the normalizer *)

Module ScrapersFacts.
Import Py Scrapers.

Lemma fingerprint_is_digest `{Hashlib, Json, Format} now (data : gmap string value) source :
  normalize_data now data source !! "hash"
  = Some (VStr (md5_hexdigest (hashed_text data))).
Proof.
  unfold normalize_data.
  repeat (rewrite lookup_insert_ne by discriminate). apply lookup_insert_eq.
Qed.

(** C8, as the code has it.  The fingerprint is the digest of the title
    followed, without a separator, by the description (a missing field
    counts as the empty string); nothing else enters it.  Two records with
    the same title and description get the same fingerprint whatever their
    other fields, source and time; so do two records whose title and
    description differ but concatenate to the same text; and two
    fingerprints differ exactly when the digests of the two concatenations
    do. *)
Theorem fingerprint_depends_on_concatenation `{Hashlib, Json, Format}
    (now1 now2 : string) (d1 d2 : gmap string value) (source1 source2 : string) :
  normalize_data now1 d1 source1 !! "hash"
  = Some (VStr (md5_hexdigest (hashed_text d1))) ∧
  (dict_get d1 "title" (VStr "") = dict_get d2 "title" (VStr "") →
   dict_get d1 "description" (VStr "") = dict_get d2 "description" (VStr "") →
   normalize_data now1 d1 source1 !! "hash" = normalize_data now2 d2 source2 !! "hash") ∧
  (hashed_text d1 = hashed_text d2 →
   normalize_data now1 d1 source1 !! "hash" = normalize_data now2 d2 source2 !! "hash") ∧
  (normalize_data now1 d1 source1 !! "hash" ≠ normalize_data now2 d2 source2 !! "hash"
   ↔ md5_hexdigest (hashed_text d1) ≠ md5_hexdigest (hashed_text d2)).
Proof.
  rewrite !fingerprint_is_digest. split; [reflexivity|]. split; [|split].
  - intros Ht Hd. unfold hashed_text. now rewrite Ht, Hd.
  - now intros ->.
  - split; intros Hne E; apply Hne; congruence.
Qed.

(** The amended C8 on two records with the same title and description and
    different urls, normalized for different sources at different times. *)
Lemma fingerprint_depends_on_concatenation_witness :
  @normalize_data Samples.sample_hashlib Samples.sample_json Samples.sample_format
    "2024-05-01T10:00:00" (Samples.record "Idea" "text" "http://a") "Reddit" !! "hash"
  = @normalize_data Samples.sample_hashlib Samples.sample_json Samples.sample_format
      "2024-05-02T11:00:00" (Samples.record "Idea" "text" "http://b") "HackerNews" !! "hash".
Proof.
  exact (proj1 (proj2 (@fingerprint_depends_on_concatenation Samples.sample_hashlib
    Samples.sample_json Samples.sample_format "2024-05-01T10:00:00" "2024-05-02T11:00:00"
    (Samples.record "Idea" "text" "http://a") (Samples.record "Idea" "text" "http://b")
    "Reddit" "HackerNews")) eq_refl eq_refl).
Defined.

(** C8 as stated fails: the records (title "ab", description "c") and
    (title "a", description "bc") differ in title and in description, and
    get the same fingerprint whatever the digest is. *)
Lemma fingerprint_collides_when_boundary_moves :
  dict_get (Samples.record "ab" "c" "u") "title" (VStr "") = VStr "ab" ∧
  dict_get (Samples.record "a" "bc" "u") "title" (VStr "") = VStr "a" ∧
  dict_get (Samples.record "ab" "c" "u") "description" (VStr "") = VStr "c" ∧
  dict_get (Samples.record "a" "bc" "u") "description" (VStr "") = VStr "bc" ∧
  ∀ (digest : Hashlib) (json : Json) (format : Format) (now source : string),
    normalize_data now (Samples.record "ab" "c" "u") source !! "hash"
    = normalize_data now (Samples.record "a" "bc" "u") source !! "hash".
Proof.
  do 4 (split; [vm_compute; reflexivity|]).
  intros digest json format now source. rewrite !fingerprint_is_digest. reflexivity.
Qed.

(** *** The scraper runs and the exact stage *)

Import Process ProcessSpec ProcessFacts.

Section Normalized.
Context `{Hashlib, Json, Format}.

Lemma normalize_all_inv (clock : nat → string) (source_name : string)
    (raw_ideas : list value) : ∀ k normalized_ideas,
  normalize_all clock k source_name raw_ideas = Ok normalized_ideas →
  length normalized_ideas = length raw_ideas ∧
  ∀ j idea, normalized_ideas !! j = Some idea →
    ∃ data, raw_ideas !! j = Some (VDict data) ∧
            idea = normalize_data (clock (k + j)) data source_name.
Proof.
  induction raw_ideas as [|raw rest IH]; intros k out; simpl.
  - intros [= <-]. split; [reflexivity|]. intros j idea Hj. inversion Hj.
  - destruct raw as [| | | | | |data]; try discriminate. simpl.
    destruct (normalize_all clock (S k) source_name rest) as [others|e] eqn:Hrest;
      [|discriminate].
    simpl. intros [= <-]. destruct (IH _ _ Hrest) as [Hlen Hall].
    split; [simpl; now rewrite Hlen|].
    intros [|j] idea Hj; simpl in *.
    + injection Hj as <-. exists data. rewrite Nat.add_0_r. split; reflexivity.
    + destruct (Hall j idea Hj) as (d & Hd & ->). exists d.
      split; [exact Hd|]. f_equal. f_equal. lia.
Qed.

Lemma normalize_all_one_bad (clock : nat → string) (source_name : string)
    (raw_ideas : list value) : ∀ k,
  Exists (λ v, ∀ data, v ≠ VDict data) raw_ideas →
  is_ok (normalize_all clock k source_name raw_ideas) = false.
Proof.
  induction raw_ideas as [|raw rest IH]; intros k Hex; [inversion Hex|].
  simpl. apply Exists_cons in Hex as [Hraw|Hrest].
  - destruct raw as [| | | | | |data]; try reflexivity. now destruct (Hraw data).
  - destruct raw as [| | | | | |data]; try reflexivity. simpl.
    specialize (IH (S k) Hrest).
    destruct (normalize_all clock (S k) source_name rest); [discriminate|reflexivity].
Qed.

(** X19. What a scraper run hands on.  A scraper that is enabled, can be built
    and runs yields one normalized idea per raw idea, in order, each under
    the class name without ["Scraper"] and with the fingerprint of its own
    title and description; a single raw idea that is not a dict, like a
    failing construction or run, leaves nothing of the whole run, and a
    disabled scraper yields nothing. *)
Theorem run_scraper_yields_all_or_nothing {Scraper} `{ScraperClass Scraper}
    (clock : nat → string)
    (config : gmap string value) :
  (truthy (dict_get config "enabled" (VBool true)) = false →
   run_scraper clock config = []) ∧
  (∀ params scraper raw_ideas,
     truthy (dict_get config "enabled" (VBool true)) = true →
     dict_get config "params" (VDict ∅) = VDict params →
     construct params = Ok scraper → scraper_run scraper = Ok raw_ideas →
     ((∀ v, v ∈ raw_ideas → ∃ data, v = VDict data) →
      length (run_scraper clock config) = length raw_ideas ∧
      ∀ j data, raw_ideas !! j = Some (VDict data) →
        ∃ idea, run_scraper clock config !! j = Some idea ∧
                idea = normalize_data (clock j) data (str_replace "Scraper" "" __name__) ∧
                idea !! "source" = Some (VStr (str_replace "Scraper" "" __name__)) ∧
                idea !! "hash" = Some (VStr (md5_hexdigest (hashed_text data)))) ∧
     (Exists (λ v, ∀ data, v ≠ VDict data) raw_ideas → run_scraper clock config = [])) ∧
  (∀ params e,
     dict_get config "params" (VDict ∅) = VDict params →
     construct params = Raise e ∨
     (∃ scraper, construct params = Ok scraper ∧ scraper_run scraper = Raise e) →
     run_scraper clock config = []).
Proof.
  unfold run_scraper. set (source_name := str_replace "Scraper" "" __name__).
  split; [|split].
  - intros ->. reflexivity.
  - intros params scraper raw_ideas -> -> Hc Hr. simpl. rewrite Hc. simpl. rewrite Hr.
    simpl. split.
    + intros Hall.
      destruct (normalize_all clock 0 source_name raw_ideas) as [out|e] eqn:Hn.
      * destruct (normalize_all_inv _ _ _ _ _ Hn) as [Hlen Hk]. split; [exact Hlen|].
        intros j data Hj.
        assert (Hlt : j < length out).
        { rewrite Hlen. now apply lookup_lt_Some in Hj. }
        apply lookup_lt_is_Some_2 in Hlt as [idea Hidea]. exists idea.
        split; [exact Hidea|].
        destruct (Hk j idea Hidea) as (d & Hd & ->). rewrite Hj in Hd.
        injection Hd as <-. split; [reflexivity|]. split.
        -- unfold normalize_data. repeat (rewrite lookup_insert_ne by discriminate).
           apply lookup_insert_eq.
        -- apply fingerprint_is_digest.
      * exfalso.
        assert (Hok : is_ok (normalize_all clock 0 source_name raw_ideas) = true).
        { clear Hn Hr. generalize 0. induction raw_ideas as [|v l IH]; intros k;
            [reflexivity|].
          destruct (Hall v ltac:(now left)) as [data ->]. simpl.
          specialize (IH ltac:(intros w Hw; apply Hall; now right) (S k)).
          destruct (normalize_all clock (S k) _ l); [reflexivity|discriminate]. }
        rewrite Hn in Hok. discriminate.
    + intros Hex.
      pose proof (normalize_all_one_bad clock source_name raw_ideas 0 Hex) as Hbad.
      destruct (normalize_all clock 0 _ raw_ideas); [discriminate|reflexivity].
  - intros params e -> Hfail.
    destruct (negb _); [reflexivity|]. simpl.
    destruct Hfail as [->|(scraper & -> & Hr)]; [reflexivity|]. simpl.
    rewrite Hr. reflexivity.
Qed.

(** X20. No normalized idea is lost by the exact stage for want of a fingerprint.
    As long as the digest is never the empty text, ideas made by the
    normalizer pass the first loop of the deduplicator without an
    exception, and each of them either is kept or has its fingerprint held
    by an idea that is. *)
Theorem normalized_ideas_pass_the_exact_stage
    (records : list (string * gmap string value * string)) :
  (∀ text, md5_hexdigest text ≠ "") →
  ∃ hash_map,
    hash_loop [] ((λ r, normalize_data r.1.1 r.1.2 r.2) <$> records) = Ok hash_map ∧
    sublist hash_map.*2 ((λ r, normalize_data r.1.1 r.1.2 r.2) <$> records) ∧
    ∀ idea, idea ∈ (λ r, normalize_data r.1.1 r.1.2 r.2) <$> records →
      ∃ kept, kept ∈ hash_map.*2 ∧ kept !! "hash" = idea !! "hash".
Proof.
  intros Hdigest.
  set (ideas := (λ r, normalize_data r.1.1 r.1.2 r.2) <$> records).
  assert (Hfp : ∀ i, i ∈ ideas → ∃ h, i !! "hash" = Some (VStr h) ∧ h ≠ "").
  { intros i Hi. apply list_elem_of_fmap in Hi as (r & -> & _).
    eexists. split; [apply fingerprint_is_digest|apply Hdigest]. }
  assert (Hcover : ∀ (l : list Idea) seen,
            (∀ i, i ∈ l → ∃ h, i !! "hash" = Some (VStr h) ∧ h ≠ "") →
            ∃ hm, hash_loop seen l = Ok hm ∧
                  (∀ key, key_in key seen = true → key_in key hm = true) ∧
                  ∀ i, i ∈ l → key_in (idea_hash i) hm = true).
  { induction l as [|c l IH]; intros seen Hall.
    - exists seen. split; [reflexivity|]. split; [tauto|]. intros i Hi. inversion Hi.
    - destruct (Hall c ltac:(now left)) as (h & Hh & Hne).
      assert (Hc : idea_hash c = VStr h) by (unfold idea_hash, dict_get; now rewrite Hh).
      simpl. fold (idea_hash c). rewrite Hc. simpl.
      rewrite bool_decide_eq_false_2 by exact Hne. simpl.
      destruct (key_in (VStr h) seen) eqn:Hk.
      + destruct (IH seen) as (hm & Hl & Hseen & Hin).
        { intros i Hi. apply Hall. now right. }
        exists hm. split; [exact Hl|]. split; [exact Hseen|].
        intros i [->|Hi]%elem_of_cons; [rewrite Hc; now apply Hseen|now apply Hin].
      + destruct (IH (seen ++ [(VStr h, c)])) as (hm & Hl & Hseen & Hin).
        { intros i Hi. apply Hall. now right. }
        exists hm. split; [exact Hl|]. split.
        * intros key Hkey. apply Hseen. rewrite key_in_app, Hkey. reflexivity.
        * intros i [->|Hi]%elem_of_cons; [|now apply Hin].
          rewrite Hc. apply Hseen. rewrite key_in_app. unfold key_in at 2. simpl.
          rewrite bool_decide_eq_true_2 by reflexivity. apply orb_true_r. }
  destruct (Hcover ideas [] Hfp) as (hm & Hl & _ & Hin).
  exists hm. split; [exact Hl|].
  destruct (hash_loop_inv _ _ _ Hl) as (new & -> & _ & Hsub). simpl.
  rewrite items_snd. split; [exact Hsub|].
  intros idea Hi. specialize (Hin idea Hi).
  destruct (Hfp idea Hi) as (h & Hh & _).
  unfold idea_hash, dict_get in Hin. rewrite Hh in Hin.
  unfold key_in in Hin. apply existsb_exists in Hin as ([key kept] & Hitem & Hkey).
  apply list_elem_of_In in Hitem. simpl in Hitem.
  apply list_elem_of_fmap in Hitem as (k & [= -> ->] & Hk).
  exists k. split; [exact Hk|]. rewrite Hh. simpl in Hkey.
  unfold idea_hash, dict_get in Hkey.
  destruct (k !! "hash") as [[| | | |s| |]|]; try discriminate.
  apply bool_decide_eq_true_1 in Hkey. now subst.
Qed.

End Normalized.

(** X20 on two records with the same title and description and a third one,
    normalized with a digest that is never empty. *)
Lemma normalized_ideas_pass_the_exact_stage_witness :
  ∃ hash_map,
    hash_loop []
      ((λ r, @normalize_data Samples.marked_digest Samples.sample_json
               Samples.sample_format r.1.1 r.1.2 r.2)
       <$> [("t1", Samples.record "Idea" "text" "http://a", "Reddit");
            ("t2", Samples.record "Idea" "text" "http://b", "HackerNews");
            ("t3", Samples.record "Other" "text" "http://c", "Reddit")]) = Ok hash_map ∧
    sublist hash_map.*2
      ((λ r, @normalize_data Samples.marked_digest Samples.sample_json
               Samples.sample_format r.1.1 r.1.2 r.2)
       <$> [("t1", Samples.record "Idea" "text" "http://a", "Reddit");
            ("t2", Samples.record "Idea" "text" "http://b", "HackerNews");
            ("t3", Samples.record "Other" "text" "http://c", "Reddit")]) ∧
    ∀ idea,
      idea ∈ (λ r, @normalize_data Samples.marked_digest Samples.sample_json
                     Samples.sample_format r.1.1 r.1.2 r.2)
             <$> [("t1", Samples.record "Idea" "text" "http://a", "Reddit");
                  ("t2", Samples.record "Idea" "text" "http://b", "HackerNews");
                  ("t3", Samples.record "Other" "text" "http://c", "Reddit")] →
      ∃ kept, kept ∈ hash_map.*2 ∧ kept !! "hash" = idea !! "hash".
Proof.
  apply (@normalized_ideas_pass_the_exact_stage Samples.marked_digest Samples.sample_json
           Samples.sample_format).
  intros text. discriminate.
Defined.

End ScrapersFacts.

(** * Properties of the notifier *)

Module NotifyFacts.
Import Py Notify NotifySpec PyFacts.

Section Manager.
Context `{Json, Format, Iteration, Compare} `{Store.Sqlite, Store.SqliteRead}.
Context {R} `{Store.Environment R, Store.SupabaseRead R} {B T} `{Telegram B T}.

Lemma init_bot_unavailable (self : NotificationManager B) :
  telegram_unavailable → truthy (telegram_enabled (_init_telegram_bot self)) = false.
Proof.
  unfold telegram_unavailable, _init_telegram_bot.
  intros [Ht|[Hc|[e He]]].
  - rewrite Ht. reflexivity.
  - rewrite Hc, orb_true_r. reflexivity.
  - destruct (_ || _); [reflexivity|]. rewrite He. reflexivity.
Qed.

Lemma send_loop_off (self : NotificationManager B) (ideas : list Idea) : ∀ count chats,
  truthy (telegram_enabled self) = false →
  send_loop self count ideas chats = (count, chats).
Proof.
  induction ideas as [|idea ideas IH]; intros count chats Hoff; [reflexivity|].
  simpl. unfold send_telegram_notification. rewrite Hoff. simpl. now apply IH.
Qed.

Lemma notify_off (self : NotificationManager B) (ideas : option (list Idea)) (limit : Z)
    (chats : T) :
  truthy (telegram_enabled self) = false →
  (notify_top_ideas self ideas limit chats).2 = chats ∧
  nothing_sent (notify_top_ideas self ideas limit chats).1.
Proof.
  intros Hoff. unfold notify_top_ideas, nothing_sent.
  destruct (match ideas with Some given => Ok given | None => _ end) as [[|i l]|e];
    simpl; eauto.
  destruct (scores_enough self i) as [keep|e]; simpl; eauto.
  destruct (high_score self l) as [kept|e]; simpl; eauto.
  destruct (if keep then i :: kept else kept) as [|h hs]; simpl; eauto.
  rewrite send_loop_off by exact Hoff. simpl. eauto.
Qed.

(** X21. Without its credentials the notifier is built all the same, switched
    off: no message is ever handed to Telegram, a single notification
    answers [False], and [notify_top_ideas] leaves the chats as they were
    and returns 0 (or raises what the selection of the ideas raises). *)
Theorem notifier_without_credentials_sends_nothing (config : option (gmap string value))
    (self : NotificationManager B) :
  telegram_unavailable → __init__ config = Ok self →
  truthy (telegram_enabled self) = false ∧
  (∀ idea chats, send_telegram_notification self idea chats = (false, chats)) ∧
  (∀ ideas limit chats,
     (notify_top_ideas self ideas limit chats).2 = chats ∧
     nothing_sent (notify_top_ideas self ideas limit chats).1).
Proof.
  intros Hun Hinit.
  assert (Hoff : truthy (telegram_enabled self) = false).
  { revert Hinit. unfold __init__.
    destruct (attr_get _ "enabled" _) as [enabled|e]; [|discriminate]. simpl.
    destruct (attr_get _ "min_score_to_notify" _) as [score|e]; [|discriminate]. simpl.
    destruct (truthy enabled) eqn:Hen; intros [= <-].
    - now apply init_bot_unavailable.
    - exact Hen. }
  split; [exact Hoff|]. split.
  - intros idea chats. unfold send_telegram_notification. now rewrite Hoff.
  - intros ideas limit chats. now apply notify_off.
Qed.

Lemma high_score_inv (self : NotificationManager B) (ideas : list Idea) : ∀ kept,
  high_score self ideas = Ok kept →
  sublist kept ideas ∧ ∀ i, i ∈ kept → scores_enough self i = Ok true.
Proof.
  induction ideas as [|idea ideas IH]; intros kept; simpl.
  - intros [= <-]. split; [constructor|]. intros i Hi. inversion Hi.
  - destruct (scores_enough self idea) as [keep|e] eqn:Hk; [|discriminate]. simpl.
    destruct (high_score self ideas) as [rest|e]; [|discriminate]. simpl.
    destruct (IH rest eq_refl) as [Hsub Hall].
    destruct keep; intros [= <-].
    + split; [now apply sublist_skip|].
      intros i [->|Hi]%elem_of_cons; [exact Hk|now apply Hall].
    + split; [now apply sublist_cons|exact Hall].
Qed.

Lemma send_loop_count (self : NotificationManager B) (ideas : list Idea) :
  ∀ count chats,
  (count ≤ (send_loop self count ideas chats).1 ≤ count + Z.of_nat (length ideas))%Z.
Proof.
  induction ideas as [|idea ideas IH]; intros count chats; simpl; [lia|].
  destruct (send_telegram_notification self idea chats) as [sent chats'].
  match goal with |- context [send_loop self ?c ideas chats'] =>
    specialize (IH c chats') end.
  destruct sent; lia.
Qed.

Lemma length_slice_upto {A} (limit : Z) (l : list A) :
  length (slice_upto limit l) ≤ length l ∧
  ((0 ≤ limit)%Z → Z.of_nat (length (slice_upto limit l)) ≤ limit)%Z.
Proof.
  unfold slice_upto. destruct (0 <=? limit)%Z eqn:E.
  - rewrite length_take. apply Z.leb_le in E. split; lia.
  - rewrite length_take. apply Z.leb_gt in E. split; lia.
Qed.

(** X22. [notify_top_ideas] never sends more than it was allowed: the count it
    returns is at most [limit] (when that is not negative) and at most the
    number of ideas handed in whose score reaches [min_score]; and these
    are the only ideas a message is made of. *)
Theorem notifier_sends_at_most_limit (self : NotificationManager B) (ideas : list Idea)
    (limit sent_count : Z) (chats chats' : T) :
  notify_top_ideas self (Some ideas) limit chats = (Ok sent_count, chats') →
  ∃ high_score_ideas,
    high_score self ideas = Ok high_score_ideas ∧
    sublist high_score_ideas ideas ∧
    (∀ i, i ∈ high_score_ideas → scores_enough self i = Ok true) ∧
    (sent_count, chats') = send_loop self 0 (slice_upto limit high_score_ideas) chats ∧
    (0 ≤ sent_count ≤ Z.of_nat (length high_score_ideas))%Z ∧
    ((0 ≤ limit)%Z → (sent_count ≤ limit)%Z).
Proof.
  unfold notify_top_ideas.
  destruct ideas as [|i l].
  - intros [= <- <-]. exists []. simpl. repeat split; try lia; try constructor.
    + intros i Hi. inversion Hi.
    + unfold slice_upto. rewrite !take_nil. now destruct (0 <=? limit)%Z.
  - destruct (high_score self (i :: l)) as [high|e] eqn:Hh; [|discriminate].
    destruct (high_score_inv _ _ _ Hh) as [Hsub Hall]. intros Heq.
    exists high. split; [reflexivity|]. split; [exact Hsub|]. split; [exact Hall|].
    destruct high as [|h hs].
    + injection Heq as <- <-. unfold slice_upto. rewrite !take_nil.
      destruct (0 <=? limit)%Z; simpl; repeat split; lia.
    + pose proof (send_loop_count self (slice_upto limit (h :: hs)) 0 chats) as Hc.
      destruct (length_slice_upto limit (h :: hs)) as [Hl1 Hl2].
      destruct (send_loop self 0 (slice_upto limit (h :: hs)) chats) as [n c].
      injection Heq as <- <-. simpl in Hc. split; [reflexivity|]. split; lia.
Qed.

End Manager.

(** X21 on a machine without the Telegram credentials: the default
    configuration gives a notifier that sends nothing. *)
Lemma notifier_without_credentials_sends_nothing_witness :
  ∃ self,
    @Notify.__init__ () Samples.no_credentials () _ Samples.sample_telegram None = Ok self ∧
    truthy (telegram_enabled self) = false ∧
    (∀ idea chats,
       @send_telegram_notification Samples.sample_format Samples.sample_iteration
         () _ Samples.sample_telegram self idea chats = (false, chats)) ∧
    (∀ ideas limit chats,
       (@notify_top_ideas Samples.sample_json Samples.sample_format
          Samples.sample_iteration Samples.sample_compare Samples.sample_sqlite
          Samples.sample_read () Samples.no_credentials Samples.empty_service () _
          Samples.sample_telegram self ideas limit chats).2 = chats ∧
       nothing_sent
         (@notify_top_ideas Samples.sample_json Samples.sample_format
            Samples.sample_iteration Samples.sample_compare Samples.sample_sqlite
            Samples.sample_read () Samples.no_credentials Samples.empty_service () _
            Samples.sample_telegram self ideas limit chats).1).
Proof.
  eexists. split; [reflexivity|].
  apply (@notifier_without_credentials_sends_nothing Samples.sample_json
           Samples.sample_format Samples.sample_iteration Samples.sample_compare
           Samples.sample_sqlite Samples.sample_read () Samples.no_credentials
           Samples.empty_service () _ Samples.sample_telegram None).
  - left. reflexivity.
  - reflexivity.
Defined.

(** X22 on three ideas of which two reach the minimal score of 80, notified
    with a limit of one. *)
Lemma notifier_sends_at_most_limit_witness :
  ∃ high_score_ideas,
    @high_score Samples.sample_compare () Samples.enabled_notifier
      [Samples.tagged "a" 70 []; Samples.tagged "b" 90 ["low code"];
       Samples.tagged "c" 85 []] = Ok high_score_ideas ∧
    sublist high_score_ideas
      [Samples.tagged "a" 70 []; Samples.tagged "b" 90 ["low code"];
       Samples.tagged "c" 85 []] ∧
    (∀ i, i ∈ high_score_ideas →
          @scores_enough Samples.sample_compare () Samples.enabled_notifier i = Ok true) ∧
    (1%Z, (@notify_top_ideas Samples.sample_json Samples.sample_format
             Samples.sample_iteration Samples.sample_compare Samples.sample_sqlite
             Samples.sample_read () Samples.with_telegram Samples.empty_service () _
             Samples.sample_telegram Samples.enabled_notifier
             (Some [Samples.tagged "a" 70 []; Samples.tagged "b" 90 ["low code"];
                    Samples.tagged "c" 85 []]) 1 []).2)
    = @send_loop Samples.sample_format Samples.sample_iteration () _
        Samples.sample_telegram Samples.enabled_notifier 0
        (slice_upto 1 high_score_ideas) [] ∧
    (0 ≤ 1 ≤ Z.of_nat (length high_score_ideas))%Z ∧
    ((0 ≤ 1)%Z → (1 ≤ 1)%Z).
Proof.
  apply (@notifier_sends_at_most_limit Samples.sample_json Samples.sample_format
           Samples.sample_iteration Samples.sample_compare Samples.sample_sqlite
           Samples.sample_read () Samples.with_telegram Samples.empty_service () _
           Samples.sample_telegram Samples.enabled_notifier).
  vm_compute. reflexivity.
Defined.

Section Message.
Context `{Format, Iteration}.

Lemma replace_space (s : string) : space_free (str_replace " " "_" s).
Proof.
  unfold space_free, str_replace.
  induction s as [|a s IH]; [simpl; tauto|].
  cbn [replace_from String.prefix String.length Nat.sub].
  destruct (ascii_dec " " a) as [<-|Hne].
  - rewrite prefix_empty. cbn [String.append list_ascii_of_string].
    intros [Heq|Hin]; [discriminate|now apply IH].
  - cbn [list_ascii_of_string]. intros [Heq|Hin]; [congruence|now apply IH].
Qed.

Lemma hashtags_of_strings (tags : list string) :
  mapM hashtag (VStr <$> tags) = Ok ((λ t, "#" +:+ str_replace " " "_" t) <$> tags).
Proof.
  induction tags as [|t tags IH]; [reflexivity|].
  rewrite !fmap_cons.
  change (mapM hashtag (VStr t :: (VStr <$> tags)))
    with (y ← hashtag (VStr t); k ← mapM hashtag (VStr <$> tags); mret (y :: k)).
  rewrite IH. reflexivity.
Qed.

Lemma hashtags_of_characters (s : string) :
  mapM hashtag (characters s)
  = Ok ((λ c, "#" +:+ str_replace " " "_" c) <$> str_chars s).
Proof. unfold characters. apply hashtags_of_strings. Qed.

Lemma hashtags_need_strings (l : list value) :
  Exists (λ v, is_ok (as_str v) = false) l → mapM hashtag l = Raise AttributeError.
Proof.
  induction l as [|v l IH]; intros Hex; [inversion Hex|].
  change (mapM hashtag (v :: l))
    with (y ← hashtag v; k ← mapM hashtag l; mret (y :: k)).
  destruct v; try reflexivity.
  apply Exists_cons in Hex as [Hv|Hl]; [discriminate|].
  simpl. rewrite (IH Hl). reflexivity.
Qed.

(** X23. The line of hashtags, for each shape the tags of an analysis can take.
    A list of strings gives one hashtag per tag, spaces turned into
    underscores, so that none holds a space; a single string gives one
    hashtag per character, whatever the number of bytes that encode it;
    tags that cannot be iterated, or a tag that is not a string, raise, and
    then no notification goes out for the idea. *)
Theorem hashtags_of_each_shape {B T} `{Telegram B T} (idea : Idea)
    (analysis : gmap string value) :
  dict_get idea "analysis" (VDict ∅) = VDict analysis →
  (∀ tags : list string,
     dict_get analysis "tags" (VList []) = VList (VStr <$> tags) →
     _format_idea_message idea
     = Ok (message_text idea analysis
             (str_join " " ((λ t, "#" +:+ str_replace " " "_" t) <$> tags))) ∧
     Forall (λ t, space_free (str_replace " " "_" t)) tags) ∧
  (∀ s : string,
     dict_get analysis "tags" (VList []) = VStr s →
     _format_idea_message idea
     = Ok (message_text idea analysis
             (str_join " " ((λ c, "#" +:+ str_replace " " "_" c) <$> str_chars s)))) ∧
  (is_ok (iterate (dict_get analysis "tags" (VList []))) = false →
   _format_idea_message idea = Raise TypeError) ∧
  (∀ l, dict_get analysis "tags" (VList []) = VList l →
     Exists (λ v, is_ok (as_str v) = false) l →
     _format_idea_message idea = Raise AttributeError) ∧
  (∀ (self : NotificationManager B) (chats : T),
     is_ok (_format_idea_message idea) = false →
     send_telegram_notification self idea chats = (false, chats)).
Proof.
  intros Ha. unfold _format_idea_message. rewrite Ha.
  split; [|split; [|split; [|split]]].
  - intros tags ->. simpl. rewrite hashtags_of_strings. simpl.
    split; [reflexivity|]. apply Forall_forall. intros t _. apply replace_space.
  - intros s ->. simpl. rewrite hashtags_of_characters. reflexivity.
  - destruct (dict_get analysis "tags" (VList [])); simpl; try discriminate; reflexivity.
  - intros l -> Hex. simpl. rewrite (hashtags_need_strings l Hex). reflexivity.
  - intros self chats Hbad. unfold send_telegram_notification, _format_idea_message.
    rewrite Ha.
    destruct (truthy (telegram_enabled self)); [|reflexivity]. simpl.
    destruct (_ ≫= _); [discriminate|reflexivity].
Qed.

End Message.

(** X23 on an idea with two tags, one of them of two words, and on an idea
    whose tags are the one string ["né"], of two characters and three
    bytes. *)
Lemma hashtags_of_each_shape_witness :
  (@_format_idea_message Samples.sample_format Samples.sample_iteration
     (Samples.tagged "b" 90 ["low code"; "saas"])
   = Ok (@message_text Samples.sample_format (Samples.tagged "b" 90 ["low code"; "saas"])
           (<["score" := VInt 90]> (<["tags" := VList [VStr "low code"; VStr "saas"]]> ∅))
           "#low_code #saas") ∧
   Forall (λ t, space_free (str_replace " " "_" t)) ["low code"; "saas"]) ∧
  @_format_idea_message Samples.sample_format Samples.sample_iteration
    (<["analysis" := VDict {[ "tags" := VStr "né" ]}]> ∅)
  = Ok (@message_text Samples.sample_format
          (<["analysis" := VDict {[ "tags" := VStr "né" ]}]> ∅)
          {[ "tags" := VStr "né" ]} "#n #é").
Proof.
  split.
  - exact (proj1 (@hashtags_of_each_shape Samples.sample_format Samples.sample_iteration
                    () _ Samples.sample_telegram
                    (Samples.tagged "b" 90 ["low code"; "saas"])
                    (<["score" := VInt 90]>
                       (<["tags" := VList [VStr "low code"; VStr "saas"]]> ∅))
                    eq_refl) ["low code"; "saas"] eq_refl).
  - exact (proj1 (proj2 (@hashtags_of_each_shape Samples.sample_format
                    Samples.sample_iteration () _ Samples.sample_telegram
                    (<["analysis" := VDict {[ "tags" := VStr "né" ]}]> ∅)
                    {[ "tags" := VStr "né" ]} eq_refl)) "né" eq_refl).
Defined.

End NotifyFacts.

(** * Properties of the Reddit scraper *)

Module RedditFacts.
Import Py Reddit RedditSpec PyFacts.

Section Posts.
Context `{Format}.

Lemma comments_loop_blocks (cs : list comment) : ∀ i top_comments,
  comments_loop i top_comments cs = top_comments +:+ comment_blocks i cs.
Proof.
  induction cs as [|c cs IH]; intros i acc.
  - simpl. now rewrite app_string_nil.
  - cbn [comments_loop comment_blocks]. rewrite IH. unfold comment_block.
    destruct (body c) as [text|]; [|reflexivity].
    destruct (5 <? comment_score c)%Z; [|reflexivity].
    now rewrite app_string_assoc.
Qed.

Lemma posts_loop_inv (self : RedditScraper) (name : string) (submissions : list submission) :
  ∀ posts out,
  posts_loop self name posts submissions = Ok out →
  ∃ new, out = posts ++ new ∧
         ∀ data, data ∈ new →
           ∃ post, post ∈ submissions ∧ (min_score self ≤ score post)%Z ∧
                   post_data name post = Ok data.
Proof.
  induction submissions as [|post rest IH]; intros posts out; simpl.
  - intros [= <-]. exists []. rewrite app_nil_r. split; [reflexivity|].
    intros data Hd. inversion Hd.
  - destruct (score post <? min_score self)%Z eqn:Hs.
    + intros Hl. destruct (IH _ _ Hl) as (new & -> & Hall). exists new.
      split; [reflexivity|]. intros data Hd.
      destruct (Hall data Hd) as (p & Hp & Hrest). exists p. split; [now right|exact Hrest].
    + destruct (post_data name post) as [data0|e] eqn:Hpd; [|discriminate]. simpl.
      intros Hl. destruct (IH _ _ Hl) as (new & -> & Hall). exists (data0 :: new).
      rewrite <- app_assoc. split; [reflexivity|]. intros data Hd.
      apply elem_of_cons in Hd as [->|Hd].
      * exists post. apply Z.ltb_ge in Hs. split; [now left|]. split; [lia|exact Hpd].
      * destruct (Hall data Hd) as (p & Hp & Hrest). exists p.
        split; [now right|exact Hrest].
Qed.

End Posts.

Section Listings.
Context `{Format, Praw}.

Lemma fetch_once_inv (self : RedditScraper) (n : nat) (name : string)
    (posts : list (gmap string value)) :
  fetch_once self n name = Ok posts →
  ∀ data, data ∈ posts →
    ∃ post, (min_score self ≤ score post)%Z ∧ post_data name post = Ok data.
Proof.
  unfold fetch_once. destruct (top n name _ (limit self)) as [submissions broken].
  destruct (posts_loop self name [] submissions) as [out|e] eqn:Hl; [|discriminate].
  simpl. destruct broken; [discriminate|]. intros [= <-] data Hd.
  destruct (posts_loop_inv _ _ _ _ _ Hl) as (new & -> & Hall).
  destruct (Hall data Hd) as (post & _ & Hrest). eauto.
Qed.

Lemma on_exception_inv {A} (target : nat → result A) (tries_left : nat) : ∀ n,
  (n < (on_exception tries_left n target).2 ≤ n + S tries_left) ∧
  ∀ a, (on_exception tries_left n target).1 = Ok a →
       ∃ k, n ≤ k < (on_exception tries_left n target).2 ∧ target k = Ok a.
Proof.
  induction tries_left as [|t IH]; intros n; simpl.
  - destruct (target n) as [a|e] eqn:Ht; simpl; (split; [lia|]).
    + intros a' [= <-]. exists n. split; [lia|exact Ht].
    + discriminate.
  - destruct (target n) as [a|e] eqn:Ht; simpl.
    + split; [lia|]. intros a' [= <-]. exists n. split; [lia|exact Ht].
    + destruct (IH (S n)) as [Hn Hok]. split; [lia|].
      intros a Ha. destruct (Hok a Ha) as (k & Hk & Hta). exists k. split; [lia|exact Hta].
Qed.

Lemma run_loop_inv (self : RedditScraper) (names : list string) : ∀ n all_posts,
  (n + length names ≤ (run_loop self n all_posts names).2 ≤ n + 3 * length names) ∧
  ∃ new, (run_loop self n all_posts names).1 = all_posts ++ new ∧
         ∀ data, data ∈ new →
           ∃ k name posts, n ≤ k < (run_loop self n all_posts names).2 ∧
                           name ∈ names ∧
                           fetch_once self k name = Ok posts ∧ data ∈ posts.
Proof.
  induction names as [|name names IH]; intros n all_posts; simpl.
  - split; [lia|]. exists []. rewrite app_nil_r. split; [reflexivity|].
    intros data Hd. inversion Hd.
  - unfold _fetch_subreddit_posts.
    destruct (on_exception_inv (λ k, fetch_once self k name) 2 n) as [Hn Hok].
    destruct (on_exception 2 n (λ k, fetch_once self k name)) as [[posts|e] n'];
      simpl in *.
    + destruct (IH n' (all_posts ++ posts)) as [Hn' (new & Hnew & Hall)].
      split; [lia|]. exists (posts ++ new). rewrite Hnew, <- app_assoc.
      split; [reflexivity|]. intros data [Hd|Hd]%elem_of_app.
      * destruct (Hok posts eq_refl) as (k & Hk & Hf).
        exists k, name, posts. split; [lia|]. split; [now left|]. split; assumption.
      * destruct (Hall data Hd) as (k & nm & ps & Hk & Hnm & Hf & Hin).
        exists k, nm, ps. split; [lia|]. split; [now right|]. split; assumption.
    + destruct (IH n' all_posts) as [Hn' (new & Hnew & Hall)].
      split; [lia|]. exists new. split; [exact Hnew|]. intros data Hd.
      destruct (Hall data Hd) as (k & nm & ps & Hk & Hnm & Hf & Hin).
      exists k, nm, ps. split; [lia|]. split; [now right|]. split; assumption.
Qed.

(** X24. The scraper asks for at least one and at most three listings per
    subreddit, and keeps nothing of a listing that broke off: every post it
    returns was built, from a submission whose score reaches [min_score],
    in a listing that was read to its end. *)
Theorem reddit_run_keeps_whole_listings_only (self : RedditScraper) :
  (length (subreddits self) ≤ (run self).2 ≤ 3 * length (subreddits self)) ∧
  ∀ data, data ∈ (run self).1 →
    ∃ k name posts post,
      k < (run self).2 ∧ name ∈ subreddits self ∧
      fetch_once self k name = Ok posts ∧ data ∈ posts ∧
      (min_score self ≤ score post)%Z ∧ post_data name post = Ok data ∧
      data !! "score" = Some (VInt (score post)).
Proof.
  unfold run.
  destruct (run_loop_inv self (subreddits self) 0 []) as [Hn (new & Hnew & Hall)].
  split; [lia|]. rewrite Hnew. simpl. intros data Hd.
  destruct (Hall data Hd) as (k & name & posts & Hk & Hname & Hf & Hin).
  destruct (fetch_once_inv _ _ _ _ Hf data Hin) as (post & Hs & Hpd).
  exists k, name, posts, post. repeat split; try assumption; try lia.
  revert Hpd. unfold post_data.
  destruct (comments post); [|discriminate]. simpl.
  destruct (created_utc post); [|discriminate]. simpl. intros [= <-].
  repeat (rewrite lookup_insert_ne by discriminate). apply lookup_insert_eq.
Qed.

End Listings.

Section Fingerprint.
Context `{Scrapers.Hashlib, Json, Format}.

(** X25. The description of a Reddit post is its text followed by the blocks of
    the comments kept among the first five, each numbered by its place
    among the five; and the fingerprint the normalizer gives the post is
    the digest of its title followed by that description: it changes with
    the comments. *)
Theorem reddit_fingerprint_covers_the_comments (name : string) (post : submission)
    (data : gmap string value) (now source : string) :
  post_data name post = Ok data →
  ∃ all_comments,
    comments post = Ok all_comments ∧
    data !! "description"
    = Some (VStr (default "" (selftext post) +:+ comment_blocks 0 (take 5 all_comments))) ∧
    Scrapers.normalize_data now data source !! "hash"
    = Some (VStr (Scrapers.md5_hexdigest
                    (title post +:+ default "" (selftext post)
                     +:+ comment_blocks 0 (take 5 all_comments)))).
Proof.
  unfold post_data. destruct (comments post) as [cs|e]; [|discriminate]. simpl.
  destruct (created_utc post) as [created|e]; [|discriminate]. simpl.
  intros [= <-]. exists cs. split; [reflexivity|].
  rewrite comments_loop_blocks.
  change ("" +:+ comment_blocks 0 (take 5 cs)) with (comment_blocks 0 (take 5 cs)).
  assert (Hd : (if bool_decide (default "" (selftext post) = "")
                then comment_blocks 0 (take 5 cs)
                else default "" (selftext post) +:+ comment_blocks 0 (take 5 cs))
               = default "" (selftext post) +:+ comment_blocks 0 (take 5 cs)).
  { destruct (bool_decide_reflect (default "" (selftext post) = "")) as [->|]; reflexivity. }
  rewrite Hd. split.
  - rewrite lookup_insert_ne by discriminate. apply lookup_insert_eq.
  - unfold Scrapers.normalize_data.
    repeat (rewrite lookup_insert_ne by discriminate). rewrite lookup_insert_eq.
    unfold Scrapers.hashed_text, dict_get.
    rewrite lookup_insert_eq.
    rewrite lookup_insert_ne by discriminate. rewrite lookup_insert_eq. reflexivity.
Qed.

End Fingerprint.

(** X25 on a post with two comments of which the second has enough points. *)
Lemma reddit_fingerprint_covers_the_comments_witness :
  ∃ data all_comments,
    @post_data Samples.sample_format "SaaS"
      (Samples.post "Idea" 50 [Samples.remark "meh" 2; Samples.remark "nice" 9])
    = Ok data ∧
    comments (Samples.post "Idea" 50 [Samples.remark "meh" 2; Samples.remark "nice" 9])
    = Ok all_comments ∧
    data !! "description"
    = Some (VStr ("text" +:+ @comment_blocks Samples.sample_format 0 (take 5 all_comments))) ∧
    @Scrapers.normalize_data Samples.sample_hashlib Samples.sample_json Samples.sample_format
      "2024-05-01T10:00:00" data "Reddit" !! "hash"
    = Some (VStr ("Idea" +:+ "text"
                  +:+ @comment_blocks Samples.sample_format 0 (take 5 all_comments))).
Proof.
  eexists.
  refine ((λ H, match H with ex_intro _ cs P => ex_intro _ cs (conj eq_refl P) end)
            (@reddit_fingerprint_covers_the_comments Samples.sample_hashlib
               Samples.sample_json Samples.sample_format "SaaS"
               (Samples.post "Idea" 50 [Samples.remark "meh" 2; Samples.remark "nice" 9])
               _ "2024-05-01T10:00:00" "Reddit" eq_refl)).
Defined.
End RedditFacts.
